(** * vitis_algs.data: the expression-data loader and the dataset built on it

    A shallow embedding of [src/vitis_algs/data/loader.py] and
    [src/vitis_algs/data/datasets.py].

    Conventions of the embedding.
    - Python [str] is [string]; file names, directory names, column headers
      and gene identifiers are taken to be ASCII, so that [str.lower],
      [str.upper], the character class [\d] and [re.IGNORECASE] act on the
      ASCII letters and digits only, and [sorted] on strings is the
      byte-wise lexicographic order [String.le].
    - A numeric cell is [option Z]: [Some n] is the count [n], [None] is
      pandas' missing value (NaN).  Floating-point values are not modelled.
    - A raised exception is the [Raise] case of [result]. *)

From stdpp Require Import base decidable option list sorting strings gmap.
From Stdlib Require Import ZArith Lia Ascii.

Local Open Scope Z_scope.
Local Open Scope stdpp_scope.
#[local] Set Warnings "-clear-no-such-hyp".

(** ** Exceptions *)

Inductive exn :=
  | FileNotFoundError   (* raise FileNotFoundError("Subset dir not found: ...") *)
  | ValueError_no_sample_columns
                        (* raise ValueError("File has no sample columns: ...") *)
  | RuntimeError_no_txt (* raise RuntimeError("No expression txt files in ...") *)
  | RuntimeError_no_genes (* raise RuntimeError("No intersecting genes across datasets.") *)
  | KeyError            (* pandas: a label is not in the axis *)
  | IndexError          (* list index out of range *)
  | PandasError.        (* any other exception raised inside pandas *)

Inductive result (A : Type) :=
  | Ok (a : A)
  | Raise (e : exn).
Global Arguments Ok {A} a.
Global Arguments Raise {A} e.

Global Instance result_ret : MRet result := λ A, Ok.
Global Instance result_bind : MBind result := λ A B k m,
  match m with
  | Ok a => k a
  | Raise e => Raise e
  end.

(** ** Strings *)

Module Str.

Definition is_digit (c : ascii) : bool :=
  (48 <=? nat_of_ascii c)%nat && (nat_of_ascii c <=? 57)%nat.

Definition lower_ascii (c : ascii) : ascii :=
  if (65 <=? nat_of_ascii c)%nat && (nat_of_ascii c <=? 90)%nat
  then ascii_of_nat (nat_of_ascii c + 32) else c.

Definition upper_ascii (c : ascii) : ascii :=
  if (97 <=? nat_of_ascii c)%nat && (nat_of_ascii c <=? 122)%nat
  then ascii_of_nat (nat_of_ascii c - 32) else c.

(** [s.lower()] and [s.upper()] *)
Fixpoint lower (s : string) : string :=
  match s with
  | "" => ""
  | String c s' => String (lower_ascii c) (lower s')
  end.

Fixpoint upper (s : string) : string :=
  match s with
  | "" => ""
  | String c s' => String (upper_ascii c) (upper s')
  end.

(** [s.startswith(p)] *)
Fixpoint startswith (p s : string) : bool :=
  match p, s with
  | "", _ => true
  | String a p', String b s' => bool_decide (a = b) && startswith p' s'
  | String _ _, "" => false
  end.

(** [needle in hay] *)
Fixpoint contains (needle hay : string) : bool :=
  startswith needle hay ||
  match hay with
  | "" => false
  | String _ hay' => contains needle hay'
  end.

(** [s.endswith(p)] *)
Fixpoint endswith (p s : string) : bool :=
  match s with
  | "" => bool_decide (p = "")
  | String _ s' => bool_decide (p = s) || endswith p s'
  end.

Fixpoint all_digits (s : string) : bool :=
  match s with
  | "" => true
  | String c s' => is_digit c && all_digits s'
  end.

(** [c in s] for a character [c] *)
Fixpoint has_char (c : ascii) (s : string) : bool :=
  match s with
  | "" => false
  | String a s' => bool_decide (a = c) || has_char c s'
  end.

End Str.

(** ** loader.py: the two file-name parsers *)

(** [GSE_REGEX = re.compile(r"(GSE\d+)", re.IGNORECASE)].

    [take_digits] is the greedy [\d+]: the longest run of digits at the
    head of the string.  [match_here] is one attempt of the pattern at the
    head of the string and returns group 1.  [GSE_REGEX_search] is
    [GSE_REGEX.search]: the attempts are made at the start positions from
    left to right and the first that succeeds is the match. *)
Fixpoint take_digits (s : string) : string :=
  match s with
  | String c s' => if Str.is_digit c then String c (take_digits s') else ""
  | "" => ""
  end.

Definition match_here (s : string) : option string :=
  match s with
  | String g (String s_ (String e rest)) =>
      if bool_decide (Str.upper_ascii g = "G"%char)
         && bool_decide (Str.upper_ascii s_ = "S"%char)
         && bool_decide (Str.upper_ascii e = "E"%char)
      then match take_digits rest with
           | "" => None
           | ds => Some (String g (String s_ (String e ds)))
           end
      else None
  | _ => None
  end.

Fixpoint GSE_REGEX_search (s : string) : option string :=
  match match_here s with
  | Some m => Some m
  | None =>
      match s with
      | "" => None
      | String _ s' => GSE_REGEX_search s'
      end
  end.

Definition _parse_gse_from_filename (fname : string) : string :=
  match GSE_REGEX_search fname with
  | Some m => Str.upper m
  | None => "UNKNOWN"
  end.

Definition _parse_cultivar_from_filename (fname : string) : option string :=
  let lower := Str.lower fname in
  if Str.contains "mueller" lower then Some "mueller"
  else if Str.contains "regent" lower then Some "regent"
  else None.

(** ** os.path *)

Module os_path.

(** [posixpath.join(a, b)] *)
Definition join (a b : string) : string :=
  if Str.startswith "/" b then b
  else if bool_decide (a = "") || Str.endswith "/" a then a +:+ b
  else a +:+ "/" +:+ b.

(** [posixpath.basename(p)]: what follows the last slash *)
Fixpoint basename (p : string) : string :=
  match p with
  | "" => ""
  | String c p' =>
      if Str.has_char "/" p' then basename p'
      else if bool_decide (c = "/"%char) then p'
      else String c p'
  end.

End os_path.

(** ** pandas

    A [DataFrame V] is held column-major: [index] are the row labels and
    [series] the columns in order, each a label with one value per row.
    Only the operations the two modules call are modelled, with the
    behaviour pandas documents for them. *)

Definition cell := option Z.

Record DataFrame (V : Type) := mkDataFrame {
  index : list string;
  series : list (string * list V)
}.
Global Arguments mkDataFrame {V} _ _.
Global Arguments index {V} _.
Global Arguments series {V} _.

Module pd.

Section frame.
Context {V : Type}.

(** [df.columns] *)
Definition columns (df : DataFrame V) : list string := (series df).*1.

(** [df.index.is_unique] *)
Definition is_unique (idx : list string) : bool := bool_decide (NoDup idx).

(** The positions at which [label] occurs in an axis, ascending. *)
Fixpoint positions_from (i : nat) (label : string) (idx : list string)
  : list nat :=
  match idx with
  | [] => []
  | l :: idx' =>
      (if decide (l = label) then [i] else [])
        ++ positions_from (S i) label idx'
  end.
Definition positions (label : string) (idx : list string) : list nat :=
  positions_from 0 label idx.

(** The indexer of [df.loc[labels]] for a list of labels: for every
    requested label, in the order requested, every position that
    carries it; a label that is not in the axis raises [KeyError]. *)
Fixpoint get_indexer (idx labels : list string) : result (list nat) :=
  match labels with
  | [] => Ok []
  | l :: rest =>
      match positions l idx with
      | [] => Raise KeyError
      | ps => r ← get_indexer idx rest; Ok (ps ++ r)
      end
  end.

(** [values.take(ps)] *)
Definition take {A} (ps : list nat) (vs : list A) : list A :=
  omap (λ p, vs !! p) ps.

Definition take_rows (ps : list nat) (df : DataFrame V) : DataFrame V :=
  {| index := take ps (index df);
     series := (λ c, (c.1, take ps c.2)) <$> series df |}.

(** [df.loc[labels]] with a list (or Index) of row labels *)
Definition loc (labels : list string) (df : DataFrame V)
  : result (DataFrame V) :=
  ps ← get_indexer (index df) labels; Ok (take_rows ps df).

(** [df.loc[label]] with one row label: the rows that carry it (one
    row when the index is unique), [KeyError] when there is none.
    Each row is given as its values in column order. *)
Definition loc_label (label : string) (df : DataFrame V)
  : result (list (list V)) :=
  match positions label (index df) with
  | [] => Raise KeyError
  | ps => Ok ((λ p, omap (λ c, c.2 !! p) (series df)) <$> ps)
  end.

(** [df[col]] followed by a Series-only attribute: the column of that
    name; [KeyError] when there is none; when several columns carry
    the name, [df[col]] is a frame and the attribute access raises. *)
Definition getitem (col : string) (df : DataFrame V) : result (list V) :=
  match filter (λ c, c.1 = col) (series df) with
  | [] => Raise KeyError
  | [c] => Ok c.2
  | _ => Raise PandasError
  end.

End frame.

(** [df.groupby(df.index).sum()]: one row per distinct key, keys in
    sorted order; in every column the values of the rows of a key are
    added up, a missing value counting for nothing. *)
Definition add_to_group (acc : gmap string Z) (kv : string * cell)
  : gmap string Z :=
  <[kv.1 := default 0 (acc !! kv.1) + default 0 kv.2]> acc.

Definition group_sums (keys : list string) (col : list cell)
  : gmap string Z :=
  foldl add_to_group ∅ (zip keys col).

Definition group_keys (keys : list string) : list string :=
  merge_sort String.le (remove_dups keys).

Definition groupby_sum (df : DataFrame cell) : DataFrame cell :=
  let ks := group_keys (index df) in
  {| index := ks;
     series :=
       (λ c, (c.1, (λ k, Some (default 0 (group_sums (index df) c.2 !! k)))
                     <$> ks))
         <$> series df |}.

(** [df.rename(columns=d)]: a column label that is a key of [d] is
    replaced by its value, the others are kept. *)
Definition rename_columns {V} (d : gmap string string) (df : DataFrame V)
  : DataFrame V :=
  {| index := index df;
     series := (λ c, (default c.1 (d !! c.1), c.2)) <$> series df |}.

(** The labels of several axes in the order of first appearance
    (the unsorted union [pd.concat] uses for axes that differ). *)
Fixpoint first_seen (seen l : list string) : list string :=
  match l with
  | [] => []
  | x :: l' =>
      if decide (x ∈ seen) then first_seen seen l'
      else x :: first_seen (x :: seen) l'
  end.
Definition union_indexes (idxs : list (list string)) : list string :=
  first_seen [] (concat idxs).

(** [df.reindex(new_index)] on a frame with a unique index: the row of
    each label, or a row of missing values for a label the frame lacks. *)
Definition reindex (new_index : list string) (df : DataFrame cell)
  : DataFrame cell :=
  {| index := new_index;
     series :=
       (λ c, (c.1, (λ l, match positions l (index df) with
                         | p :: _ => mjoin (c.2 !! p)
                         | [] => None
                         end) <$> new_index))
         <$> series df |}.

(** [pd.concat(dfs, axis=1)] (outer join, [sort=False]): the columns of
    the frames side by side, in order.  Frames with one and the same
    index are joined as they are; otherwise every frame is reindexed to
    the union of the indexes, which pandas refuses for a frame whose
    index has repeated labels.  An empty list raises. *)
Definition concat_axis1 (dfs : list (DataFrame cell))
  : result (DataFrame cell) :=
  match dfs with
  | [] => Raise PandasError
  | df0 :: rest =>
      if bool_decide (Forall (λ df, index df = index df0) rest) then
        Ok {| index := index df0; series := dfs ≫= series |}
      else if bool_decide (Forall (λ df, NoDup (index df)) dfs) then
        let idx := union_indexes (index <$> dfs) in
        Ok {| index := idx; series := dfs ≫= (λ df, series (reindex idx df)) |}
      else Raise PandasError
  end.

(** [series.astype("category")]: the categories are the distinct
    non-missing values in sorted order; the code of a value is its
    position among the categories, and -1 for a missing value. *)
Definition categories (vs : list (option string)) : list string :=
  merge_sort String.le (remove_dups (omap id vs)).

Fixpoint index_of (x : string) (l : list string) : option nat :=
  match l with
  | [] => None
  | y :: l' => if decide (x = y) then Some 0%nat else S <$> index_of x l'
  end.

Definition codes (vs : list (option string)) : list Z :=
  let cats := categories vs in
  (λ v, match v ≫= (λ x, index_of x cats) with
        | Some k => Z.of_nat k
        | None => -1
        end) <$> vs.

End pd.

(** A Python list subscript [l[i]]: a negative [i] counts from the end. *)
Definition py_getitem {A} (l : list A) (i : Z) : result A :=
  let n := Z.of_nat (length l) in
  let j := if decide (i < 0) then i + n else i in
  if decide (0 ≤ j < n) then
    match l !! Z.to_nat j with
    | Some x => Ok x
    | None => Raise IndexError
    end
  else Raise IndexError.

(** ** loader.py *)

Record VitisSampleInfo := mkVitisSampleInfo {
  sample_id : string;
  original_name : string;
  tissue : string;
  condition : string;
  gse_accession : string;
  cultivar : option string;
  file_path : string
}.

(** What [pd.read_csv(fpath, sep="\t", header=0)] returns for a regular
    tab-separated file (every row has as many fields as the header): a
    frame with a default integer index whose first column, named
    [gene_col], holds the gene identifiers [gene_ids], followed by the
    sample columns.  [read_csv] never returns a frame without columns. *)
Record CsvFrame := mkCsvFrame {
  gene_col : string;
  gene_ids : list string;
  sample_cols : list (string * list cell)
}.

(** [df.shape[1]] *)
Definition shape1 (df : CsvFrame) : nat := S (length (sample_cols df)).

(** The file system under the subset directory.  A directory is what
    [os.listdir] gives, in the order the operating system enumerates the
    entries, each name with what lies behind it: for an entry of the
    subset directory [None] if it is not a directory and the listing of
    the tissue directory otherwise; for an entry of a tissue directory
    the frame [pd.read_csv] parses from it, or [None] if [read_csv]
    raises on it. *)
Definition TissueDir := list (string * option CsvFrame).
Definition SubsetDir := list (string * option TissueDir).

Definition listdir {A} (d : list (string * A)) : list string := d.*1.

Fixpoint lookup_entry {A} (d : list (string * A)) (name : string) : option A :=
  match d with
  | [] => None
  | (n, x) :: d' => if decide (n = name) then Some x else lookup_entry d' name
  end.

(** [sorted(names)] *)
Definition sorted (names : list string) : list string :=
  merge_sort String.le names.

(** [pd.DataFrame([s.__dict__ for s in sample_infos]).set_index("sample_id")]:
    one row per record, labelled by its [sample_id], one column per
    remaining field in declaration order.  From an empty list pandas makes
    a frame without columns, on which [set_index] raises [KeyError]. *)
Definition frame_of_infos (infos : list VitisSampleInfo)
  : result (DataFrame (option string)) :=
  match infos with
  | [] => Raise KeyError
  | _ =>
      Ok {| index := sample_id <$> infos;
            series :=
              [ ("original_name", (Some ∘ original_name) <$> infos);
                ("tissue", (Some ∘ tissue) <$> infos);
                ("condition", (Some ∘ condition) <$> infos);
                ("gse_accession", (Some ∘ gse_accession) <$> infos);
                ("cultivar", cultivar <$> infos);
                ("file_path", (Some ∘ file_path) <$> infos) ] |}
  end.

(** The loop [for col in df.columns] of [_load_single_file]: one record
    per column, and the dictionary [new_cols] from column to sample id. *)
Definition make_sample_id (tissue gse original_name : string) : string :=
  tissue +:+ "|" +:+ gse +:+ "|" +:+ original_name.

Definition column_step (fpath tissue condition gse : string)
    (cultivar : option string)
    (st : list VitisSampleInfo * gmap string string) (col : string)
  : list VitisSampleInfo * gmap string string :=
  let original_name := col in
  let sample_id := make_sample_id tissue gse original_name in
  let info :=
    {| sample_id := sample_id; original_name := original_name;
       tissue := tissue; condition := condition; gse_accession := gse;
       cultivar := cultivar; file_path := fpath |} in
  (st.1 ++ [info], <[col := sample_id]> st.2).

Definition _load_single_file (content : option CsvFrame)
    (fpath tissue condition : string)
  : result (DataFrame cell * list VitisSampleInfo) :=
  match content with
  | None => Raise PandasError
  | Some csv =>
      if bool_decide (shape1 csv < 2)%nat then
        Raise ValueError_no_sample_columns
      else
        (* the first column is renamed to "Gene" and becomes the index;
           [set_index] raises when a second column carries that name *)
        if bool_decide ("Gene" ∈ (sample_cols csv).*1) then Raise PandasError
        else
          let df := {| index := gene_ids csv; series := sample_cols csv |} in
          let df :=
            if negb (pd.is_unique (index df)) then pd.groupby_sum df else df in
          let gse := _parse_gse_from_filename (os_path.basename fpath) in
          let cultivar :=
            _parse_cultivar_from_filename (os_path.basename fpath) in
          let '(sample_infos, new_cols) :=
            foldl (column_step fpath tissue condition gse cultivar)
                  ([], ∅) (pd.columns df) in
          let df := pd.rename_columns new_cols df in
          Ok (df, sample_infos)
  end.

Record VitisExpressionData := mkVitisExpressionData {
  data_root : string;
  subset : string;
  intersect_genes : bool;
  _counts : option (DataFrame cell);
  _metadata : option (DataFrame (option string))
}.

Definition loaded := (list (DataFrame cell) * list VitisSampleInfo)%type.

(** The loop over the files of one tissue directory. *)
Fixpoint load_files (tissue_dir tissue condition : string) (d : TissueDir)
    (fnames : list string) (acc : loaded) : result loaded :=
  match fnames with
  | [] => Ok acc
  | fname :: rest =>
      if negb (Str.endswith ".txt" (Str.lower fname)) then
        load_files tissue_dir tissue condition d rest acc
      else
        let fpath := os_path.join tissue_dir fname in
        r ← _load_single_file (mjoin (lookup_entry d fname))
              fpath tissue condition;
        load_files tissue_dir tissue condition d rest
          (acc.1 ++ [r.1], acc.2 ++ r.2)
  end.

(** The loop over the entries of the subset directory. *)
Fixpoint load_tissues (subset_dir condition : string) (d : SubsetDir)
    (tissues : list string) (acc : loaded) : result loaded :=
  match tissues with
  | [] => Ok acc
  | tissue :: rest =>
      let tissue_dir := os_path.join subset_dir tissue in
      match mjoin (lookup_entry d tissue) with
      | None => load_tissues subset_dir condition d rest acc
      | Some td =>
          acc' ← load_files tissue_dir tissue condition td
                   (sorted (listdir td)) acc;
          load_tissues subset_dir condition d rest acc'
      end
  end.

(** The first half of [_load_all]: the existence check and the two nested
    loops, giving [per_file_dfs] and [sample_infos].  [fs] is what the
    file system holds at [subset_dir]: [None] if it is not a directory. *)
Definition discover (fs : option SubsetDir) (self : VitisExpressionData)
  : result loaded :=
  let vitis_dir := os_path.join (data_root self) "vitis_vinifera" in
  let subset_dir := os_path.join vitis_dir (subset self) in
  match fs with
  | None => Raise FileNotFoundError
  | Some d =>
      load_tissues subset_dir (subset self) d (sorted (listdir d)) ([], [])
  end.

(** [common_genes = set(dfs[0].index); for df in dfs[1:]: common_genes &= set(df.index)] *)
Definition common_genes (df0 : DataFrame cell) (rest : list (DataFrame cell))
  : gset string :=
  foldl (λ s df, s ∩ list_to_set (index df)) (list_to_set (index df0)) rest.

Fixpoint loc_all (labels : list string) (dfs : list (DataFrame cell))
  : result (list (DataFrame cell)) :=
  match dfs with
  | [] => Ok []
  | df :: rest =>
      df' ← pd.loc labels df; rest' ← loc_all labels rest; Ok (df' :: rest')
  end.

Definition restrict_genes (intersect : bool) (per_file_dfs : list (DataFrame cell))
  : result (list (DataFrame cell)) :=
  if intersect then
    match per_file_dfs with
    | [] => Ok []
    | df0 :: rest =>
        let common := common_genes df0 rest in
        if bool_decide (common = ∅) then Raise RuntimeError_no_genes
        else loc_all (sorted (elements common)) per_file_dfs
    end
  else Ok per_file_dfs.

Definition _load_all (fs : option SubsetDir) (self : VitisExpressionData)
  : result VitisExpressionData :=
  r ← discover fs self;
  let '(per_file_dfs, sample_infos) := r in
  match per_file_dfs with
  | [] => Raise RuntimeError_no_txt
  | _ =>
      per_file_dfs ← restrict_genes (intersect_genes self) per_file_dfs;
      counts ← pd.concat_axis1 per_file_dfs;
      meta ← frame_of_infos sample_infos;
      meta ← pd.loc (pd.columns counts) meta;
      Ok {| data_root := data_root self; subset := subset self;
            intersect_genes := intersect_genes self;
            _counts := Some counts; _metadata := Some meta |}
  end.

(** [VitisExpressionData(data_root, subset, intersect_genes)].
    [data_root] is taken to be absolute already ([os.path.abspath]). *)
Definition __init__ (fs : option SubsetDir)
    (data_root subset : string) (intersect_genes : bool)
  : result VitisExpressionData :=
  _load_all fs
    {| data_root := data_root; subset := subset;
       intersect_genes := intersect_genes;
       _counts := None; _metadata := None |}.

(** The read-only properties. *)
Definition counts (self : VitisExpressionData) := _counts self.
Definition metadata (self : VitisExpressionData) := _metadata self.
Definition genes (self : VitisExpressionData) : option (list string) :=
  index <$> counts self.
Definition samples (self : VitisExpressionData) : option (list string) :=
  pd.columns <$> counts self.

(** ** datasets.py *)

Module ExpressionDataset.

(** The attributes of the dataset.  [X] is sample-major: one feature
    vector per sample (the conversion of the cells to the tensor dtype
    is not modelled). *)
Record t := mk {
  X : list (list cell);
  sample_ids : list string;
  metadata : DataFrame (option string);
  label_col : string;
  label_categories : list string;
  y : list Z
}.

Definition __init__ (counts_df : DataFrame cell)
    (metadata_df : DataFrame (option string)) (label_col : string)
  : result t :=
  (* Align metadata to counts columns *)
  metadata_df ← pd.loc (pd.columns counts_df) metadata_df;
  (* counts_df.T.values: the columns of the frame become the rows *)
  let X := (series counts_df).*2 in
  (* labels into integer indices *)
  labels ← pd.getitem label_col metadata_df;
  Ok {| X := X;
        sample_ids := pd.columns counts_df;
        metadata := metadata_df;
        label_col := label_col;
        label_categories := pd.categories labels;
        y := pd.codes labels |}.

Definition __len__ (self : t) : nat := length (X self).

Definition __getitem__ (self : t) (idx : Z) : result (list cell * Z) :=
  x ← py_getitem (X self) idx; l ← py_getitem (y self) idx; Ok (x, l).

Definition label_to_name (self : t) (y_idx : Z) : result string :=
  py_getitem (label_categories self) y_idx.

Definition get_sample_metadata (self : t) (idx : Z)
  : result (list (list (option string))) :=
  sample_id ← py_getitem (sample_ids self) idx;
  pd.loc_label sample_id (metadata self).

End ExpressionDataset.

(** * Vocabulary of the statements *)

(** [kw] occurs in [fname] when the case of the letters is ignored. *)
Definition occurs_ignoring_case (kw fname : string) : Prop :=
  ∃ pre m post, fname = pre +:+ m +:+ post ∧ Str.lower m = kw.

(** [m] is a text the accession pattern matches: the letters G, S, E in
    either case followed by one or more digits. *)
Definition gse_token (m : string) : Prop :=
  ∃ p ds, m = p +:+ ds ∧ Str.upper p = "GSE" ∧ ds ≠ "" ∧
          Str.all_digits ds = true.

(** [fname] is [pre], then the token [m], then [post]. *)
Definition gse_occurs (fname pre m post : string) : Prop :=
  fname = pre +:+ m +:+ post ∧ gse_token m.

(** The first match: no token starts further left, and none that starts
    at the same place is longer. *)
Definition first_gse_match (fname pre m post : string) : Prop :=
  gse_occurs fname pre m post ∧
  ∀ pre' m' post', gse_occurs fname pre' m' post' →
    (String.length pre ≤ String.length pre')%nat ∧
    (String.length pre' = String.length pre →
     (String.length m' ≤ String.length m)%nat).


(** The sum of a list of integers. *)
Definition Zsum (l : list Z) : Z := foldr Z.add 0 l.

(** The cells of a column in the rows whose key is [g]. *)
Definition rows_of_key (g : string) (keys : list string) (col : list cell)
  : list cell :=
  (filter (λ kv, kv.1 = g) (zip keys col)).*2.

(** The record [_load_single_file] makes for the column [col]. *)
Definition info_of (fpath tissue condition col : string) : VitisSampleInfo :=
  let fname := os_path.basename fpath in
  {| sample_id :=
       make_sample_id tissue (_parse_gse_from_filename fname) col;
     original_name := col; tissue := tissue; condition := condition;
     gse_accession := _parse_gse_from_filename fname;
     cultivar := _parse_cultivar_from_filename fname;
     file_path := fpath |}.

(** The frame of a parsed file once its first column is the index and
    repeated gene identifiers are reconciled. *)
Definition indexed_frame (csv : CsvFrame) : DataFrame cell :=
  let df := {| index := gene_ids csv; series := sample_cols csv |} in
  if negb (pd.is_unique (index df)) then pd.groupby_sum df else df.


Definition unique_genes_csv : CsvFrame :=
  {| gene_col := "ID"; gene_ids := ["g2"; "g1"];
     sample_cols := [("s1", [Some 5; None])] |}.

Definition no_sample_columns : CsvFrame :=
  {| gene_col := "Gene"; gene_ids := ["g1"]; sample_cols := [] |}.


(** The files the two loops of [_load_all] visit, in the order they are
    visited: for every entry of the subset directory that is a directory,
    in sorted order, the entries of it whose name ends in ".txt" (in any
    letter case), in sorted order. *)
Record found_file := mkFound {
  ff_tissue : string;
  ff_name : string;
  ff_path : string;
  ff_content : option CsvFrame
}.

Definition is_txt (fname : string) : bool :=
  Str.endswith ".txt" (Str.lower fname).

Definition files_in (tissue_dir tissue : string) (td : TissueDir)
  : list found_file :=
  (λ fname, {| ff_tissue := tissue; ff_name := fname;
               ff_path := os_path.join tissue_dir fname;
               ff_content := mjoin (lookup_entry td fname) |})
    <$> filter (λ fname, is_txt fname = true) (sorted (listdir td)).

Definition tissue_files (subset_dir : string) (d : SubsetDir)
    (tissue : string) : list found_file :=
  match mjoin (lookup_entry d tissue) with
  | None => []
  | Some td => files_in (os_path.join subset_dir tissue) tissue td
  end.

Definition discovered_files (subset_dir : string) (d : SubsetDir)
  : list found_file :=
  sorted (listdir d) ≫= tissue_files subset_dir d.

Definition subset_dir_of (self : VitisExpressionData) : string :=
  os_path.join (os_path.join (data_root self) "vitis_vinifera") (subset self).

(** What [_load_single_file] is called with for a discovered file. *)
Definition load_found (condition : string) (f : found_file)
  : result (DataFrame cell * list VitisSampleInfo) :=
  _load_single_file (ff_content f) (ff_path f) (ff_tissue f) condition.

Fixpoint load_each (condition : string) (fs : list found_file)
    (acc : loaded) : result loaded :=
  match fs with
  | [] => Ok acc
  | f :: rest =>
      r ← load_found condition f;
      load_each condition rest (acc.1 ++ [r.1], acc.2 ++ r.2)
  end.

(** The accession token of a discovered file. *)
Definition ff_gse (f : found_file) : string :=
  _parse_gse_from_filename (os_path.basename (ff_path f)).


(** Two enumerations of one directory tree: the entries of the subset
    directory come in another order, and so do the entries of every
    tissue directory; names and contents are the same. *)
Definition reordered_entry (e e' : string * option TissueDir) : Prop :=
  e.1 = e'.1 ∧ option_Forall2 (≡ₚ) e.2 e'.2.

Definition reordered (d d' : SubsetDir) : Prop :=
  ∃ d1, d ≡ₚ d1 ∧ Forall2 reordered_entry d1 d'.

(** A directory holds no two entries of one name. *)
Definition unique_names (d : SubsetDir) : Prop :=
  NoDup (listdir d) ∧ ∀ t td, (t, Some td) ∈ d → NoDup (listdir td).



(** Two files of one tissue directory, one accession, one column name. *)
Definition colliding_files : SubsetDir :=
  [("leaf",
    Some [("GSE1_a.txt",
           Some {| gene_col := "Gene"; gene_ids := ["g1"];
                   sample_cols := [("s1", [Some 1])] |});
          ("GSE1_b.txt",
           Some {| gene_col := "Gene"; gene_ids := ["g1"];
                   sample_cols := [("s1", [Some 2])] |})])].

(** The end-to-end scenario of the specification: a leaf file with three
    genes and two samples, a berry file with two of the genes and one
    sample; the operating system lists "leaf" first. *)
Definition leaf_csv : CsvFrame :=
  {| gene_col := "Gene"; gene_ids := ["g1"; "g2"; "g3"];
     sample_cols := [("s1", [Some 1; Some 2; Some 3]);
                     ("s2", [Some 4; Some 5; Some 6])] |}.

Definition berry_csv : CsvFrame :=
  {| gene_col := "Gene"; gene_ids := ["g3"; "g2"];
     sample_cols := [("b1", [Some 7; Some 8])] |}.

Definition scenario : SubsetDir :=
  [("leaf", Some [("GSE100_control.txt", Some leaf_csv)]);
   ("berry", Some [("GSE200_control.txt", Some berry_csv)])].

Definition scenario_reordered : SubsetDir :=
  [("berry", Some [("GSE200_control.txt", Some berry_csv)]);
   ("leaf", Some [("GSE100_control.txt", Some leaf_csv)])].


(** A tissue directory whose name holds the separator, and a column
    header that holds it: two different tissues, one sample identifier. *)
Definition bar_in_tissue_name : SubsetDir :=
  [("a",
    Some [("GSE1.txt",
           Some {| gene_col := "Gene"; gene_ids := ["g1"];
                   sample_cols := [("UNKNOWN|c", [Some 1])] |})]);
   ("a|GSE1",
    Some [("x.txt",
           Some {| gene_col := "Gene"; gene_ids := ["g1"];
                   sample_cols := [("c", [Some 2])] |})])].


(** The values a frame holds in the row at position [p], one per column. *)
Definition row_at {V} (df : DataFrame V) (p : nat) : list (option V) :=
  (λ c, c.2 !! p) <$> series df.

(** The rows of a frame, top to bottom, each with its label. *)
Definition rows {V} (df : DataFrame V) : list (string * list (option V)) :=
  imap (λ p l, (l, row_at df p)) (index df).

(** The rows of a frame that carry the label [s], top to bottom. *)
Definition rows_labelled {V} (s : string) (df : DataFrame V)
  : list (list (option V)) :=
  row_at df <$> pd.positions s (index df).

(** A metadata table with two rows for one sample, and the same table
    with the two rows exchanged. *)
Definition one_sample : DataFrame cell :=
  {| index := ["g1"]; series := [("s", [Some 1])] |}.

Definition two_rows_for_s : DataFrame (option string) :=
  {| index := ["s"; "s"];
     series := [("tissue", [Some "leaf"; Some "berry"])] |}.

Definition two_rows_for_s_exchanged : DataFrame (option string) :=
  {| index := ["s"; "s"];
     series := [("tissue", [Some "berry"; Some "leaf"])] |}.


(** The loader a construction gives, for use in examples. *)
Definition fresh (data_root subset : string) (flag : bool)
  : VitisExpressionData :=
  mkVitisExpressionData data_root subset flag None None.

Definition loader_of (r : result VitisExpressionData) : VitisExpressionData :=
  match r with
  | Ok self => self
  | Raise _ => fresh "" "" false
  end.

Definition per_file_of (r : result loaded) : loaded :=
  match r with
  | Ok x => x
  | Raise _ => ([], [])
  end.

Definition frame_of {V} (o : option (DataFrame V)) : DataFrame V :=
  default {| index := []; series := [] |} o.

Definition dataset_of (r : result ExpressionDataset.t) : ExpressionDataset.t :=
  match r with
  | Ok ds => ds
  | Raise _ => ExpressionDataset.mk [] [] {| index := []; series := [] |} "" [] []
  end.

Definition scenario_loader : VitisExpressionData :=
  loader_of (__init__ (Some scenario) "/data" "control" true).

Definition scenario_loader_union : VitisExpressionData :=
  loader_of (__init__ (Some scenario) "/data" "control" false).

Definition scenario_per_file : loaded :=
  per_file_of (discover (Some scenario) (fresh "/data" "control" true)).

Definition scenario_dataset : ExpressionDataset.t :=
  dataset_of
    (ExpressionDataset.__init__ (frame_of (counts scenario_loader))
       (frame_of (metadata scenario_loader)) "gse_accession").

(** The values of a column in the order of first appearance. *)
Definition first_seen_values (vs : list (option string)) : list string :=
  pd.first_seen [] (omap id vs).

(** A directory with one file that has no sample column. *)
Definition malformed_tree : SubsetDir :=
  [("leaf", Some [("GSE100_control.txt", Some leaf_csv);
                  ("GSE7_empty.txt", Some no_sample_columns)])].

(** A metadata table for [one_sample], and one with its rows in another
    order and a row for a sample the matrix does not have. *)
Definition three_samples : DataFrame cell :=
  {| index := ["g1"; "g2"];
     series := [("s1", [Some 1; Some 2]); ("s2", [Some 3; Some 4]);
                ("s3", [Some 5; Some 6])] |}.

Definition three_rows : DataFrame (option string) :=
  {| index := ["s1"; "s2"; "s3"];
     series := [("tissue", [Some "leaf"; Some "berry"; Some "leaf"]);
                ("cultivar", [None; Some "regent"; None])] |}.

Definition four_rows_reordered : DataFrame (option string) :=
  {| index := ["s3"; "zz"; "s1"; "s2"];
     series := [("tissue", [Some "leaf"; Some "root"; Some "leaf"; Some "berry"]);
                ("cultivar", [None; None; None; Some "regent"])] |}.


(** A discovered file that [_load_single_file] accepts: [read_csv] has
    parsed it, it has a sample column, and no sample column is named
    "Gene". *)
Definition loadable (f : found_file) : Prop :=
  ∃ csv, ff_content f = Some csv ∧ sample_cols csv ≠ [] ∧
         "Gene" ∉ (sample_cols csv).*1.

(** The gene [g] labels a row of the discovered file [f]. *)
Definition has_gene (g : string) (f : found_file) : Prop :=
  ∃ csv, ff_content f = Some csv ∧ g ∈ gene_ids csv.


(** The end-to-end scenario with entries the loader passes over: a plain
    file and a directory without ".txt" files beside the tissue
    directories, and a file of another extension inside one of them. *)
Definition scenario_with_clutter : SubsetDir :=
  [("README.md", None);
   ("leaf", Some [("notes.csv", None);
                  ("GSE100_control.txt", Some leaf_csv)]);
   ("empty", Some [("todo.doc", None)]);
   ("berry", Some [("GSE200_control.txt", Some berry_csv)])].


(** Every column of a frame has one value per row label. *)
Definition rectangular {V} (df : DataFrame V) : Prop :=
  Forall (λ c, length c.2 = length (index df)) (series df).


(** The records [_load_single_file] makes for a discovered file that it
    accepts: one per sample column, in the order of the columns. *)
Definition records_of_file (condition : string) (f : found_file)
  : list VitisSampleInfo :=
  match ff_content f with
  | Some csv =>
      info_of (ff_path f) (ff_tissue f) condition <$> (sample_cols csv).*1
  | None => []
  end.


(** A parsed file in which every sample column has one cell per row, as
    in every frame [read_csv] returns. *)
Definition regular (csv : CsvFrame) : Prop :=
  Forall (λ c, length c.2 = length (gene_ids csv)) (sample_cols csv).

(** The value a parsed file holds for the gene [g] in the sample column
    [col]: the cell in the row of [g]; with repeated gene identifiers
    the sum of the cells in the rows of [g]; nothing when no row is
    labelled [g]. *)
Definition file_cell (csv : CsvFrame) (col : list cell) (g : string) : cell :=
  if decide (NoDup (gene_ids csv)) then
    pd.index_of g (gene_ids csv) ≫= λ p, mjoin (col !! p)
  else if decide (g ∈ gene_ids csv) then
    Some (Zsum (default 0 <$> rows_of_key g (gene_ids csv) col))
  else None.

(** The value a frame holds for the row label [g] in one of its columns. *)
Definition frame_cell (df : DataFrame cell) (col : list cell) (g : string)
  : cell :=
  match pd.positions g (index df) with
  | p :: _ => mjoin (col !! p)
  | [] => None
  end.

(** Column [c'] holds, under every label of [idx], the value the column
    [c] of the frame [df] has for that label. *)
Definition carries (idx : list string) (df : DataFrame cell)
    (c c' : string * list cell) : Prop :=
  c'.1 = c.1 ∧ length c'.2 = length idx ∧
  ∀ i g, idx !! i = Some g → c'.2 !! i = Some (frame_cell df (c.2) g).


(** Datasets over [three_samples], labelled by tissue and by cultivar;
    two of the three samples have no cultivar. *)
Definition three_samples_by_tissue : ExpressionDataset.t :=
  dataset_of (ExpressionDataset.__init__ three_samples four_rows_reordered
                "tissue").

Definition three_samples_by_cultivar : ExpressionDataset.t :=
  dataset_of (ExpressionDataset.__init__ three_samples four_rows_reordered
                "cultivar").





(** A parsed file without missing values. *)
Definition complete (csv : CsvFrame) : Prop :=
  Forall (λ c, Forall is_Some (c.2)) (sample_cols csv).




(** The end-to-end scenario below tissue directories whose names look
    like an accession and like a cultivar. *)
Definition misleading_directories : SubsetDir :=
  [("GSE999", Some [("GSE100_control.txt", Some leaf_csv)]);
   ("regent", Some [("plain.txt", Some berry_csv)])].

(** * Properties *)

(** ** The model on the examples of the docstrings and of the specification *)

Example parse_gse_docstring :
  _parse_gse_from_filename "GSE97900_control.txt" = "GSE97900".
Proof. reflexivity. Qed.

Example parse_cultivar_docstring :
  _parse_cultivar_from_filename "GSE97900_control.txt" = None ∧
  _parse_cultivar_from_filename "GSE12345_leaf_regent.txt" = Some "regent".
Proof. by split. Qed.

Example path_examples :
  os_path.join "/data/vitis_vinifera" "control" = "/data/vitis_vinifera/control" ∧
  os_path.join "/data/" "x.txt" = "/data/x.txt" ∧
  os_path.join "/data" "/abs" = "/abs" ∧
  os_path.basename "/data/leaf/GSE1_x.txt" = "GSE1_x.txt" ∧
  os_path.basename "plain.txt" = "plain.txt" ∧
  is_txt "GSE1.TXT" = true ∧ is_txt "notes.md" = false.
Proof. by vm_compute. Qed.

Example py_getitem_examples :
  py_getitem ["a"; "b"; "c"] 0 = Ok "a" ∧
  py_getitem ["a"; "b"; "c"] (-1) = Ok "c" ∧
  py_getitem ["a"; "b"; "c"] 3 = Raise IndexError ∧
  py_getitem ["a"; "b"; "c"] (-4) = Raise IndexError.
Proof. by vm_compute. Qed.

Example loc_repeats_rows :
  pd.loc ["x"; "x"] {| index := ["x"; "y"; "x"];
                       series := [("v", [Some 1; Some 2; Some 3])] |}
  = Ok {| index := ["x"; "x"; "x"; "x"];
          series := [("v", [Some 1; Some 3; Some 1; Some 3])] |} ∧
  pd.loc ["z"] {| index := ["x"]; series := [("v", [Some 1])] |}
  = Raise KeyError.
Proof. by vm_compute. Qed.

(** The end-to-end scenario: two genes are common to the two files, the
    matrix has three sample columns, berry before leaf, and the metadata
    rows follow the columns. *)
Example end_to_end_scenario :
  genes scenario_loader = Some ["g2"; "g3"] ∧
  samples scenario_loader
    = Some ["berry|GSE200|b1"; "leaf|GSE100|s1"; "leaf|GSE100|s2"] ∧
  (series <$> counts scenario_loader)
    = Some [("berry|GSE200|b1", [Some 8; Some 7]);
            ("leaf|GSE100|s1", [Some 2; Some 3]);
            ("leaf|GSE100|s2", [Some 5; Some 6])] ∧
  (index <$> metadata scenario_loader) = samples scenario_loader ∧
  (metadata scenario_loader ≫= λ m,
     match pd.getitem "tissue" m, pd.getitem "gse_accession" m with
     | Ok t, Ok g => Some (t, g)
     | _, _ => None
     end)
    = Some ([Some "berry"; Some "leaf"; Some "leaf"],
            [Some "GSE200"; Some "GSE100"; Some "GSE100"]).
Proof. by vm_compute. Qed.

(** ** Strings *)

Section string_facts.

Lemma str_app_nil_l (s : string) : "" +:+ s = s.
Proof. reflexivity. Qed.

Lemma str_app_cons (c : ascii) (s t : string) :
  String c s +:+ t = String c (s +:+ t).
Proof. reflexivity. Qed.

Lemma str_app_nil_r (s : string) : s +:+ "" = s.
Proof. induction s as [|c s IH]; [done|]. by rewrite str_app_cons, IH. Qed.

Lemma str_app_assoc (a b c : string) : (a +:+ b) +:+ c = a +:+ b +:+ c.
Proof. induction a as [|x a IH]; [done|]. by rewrite !str_app_cons, IH. Qed.

Lemma str_length_app (a b : string) :
  String.length (a +:+ b) = (String.length a + String.length b)%nat.
Proof. induction a as [|x a IH]; [done|]. rewrite str_app_cons. simpl. by rewrite IH. Qed.

Lemma str_length_zero (s : string) : String.length s = 0%nat → s = "".
Proof. by destruct s. Qed.


Lemma startswith_spec (p s : string) :
  Str.startswith p s = true ↔ ∃ post, s = p +:+ post.
Proof.
  revert s. induction p as [|a p IH]; intros s; simpl.
  - split; [eauto|done].
  - destruct s as [|b s].
    + split; [done|]. by intros [post ?].
    + rewrite andb_true_iff, bool_decide_eq_true, IH. split.
      * intros [-> [post ->]]. by exists post.
      * intros [post Heq]. rewrite str_app_cons in Heq. simplify_eq. eauto.
Qed.

Lemma contains_spec (kw s : string) :
  Str.contains kw s = true ↔ ∃ pre post, s = pre +:+ kw +:+ post.
Proof.
  induction s as [|c s IH]; simpl; rewrite orb_true_iff, startswith_spec.
  - split.
    + intros [[post ->]|?]; [|done]. by exists "", post.
    + intros [[|??] [post Heq]]; [|done]. left. by exists post.
  - rewrite IH. split.
    + intros [[post ->]|(pre & post & ->)]; [by exists "", post|].
      by exists (String c pre), post.
    + intros [[|x pre] [post Heq]]; [left; by exists post|].
      rewrite str_app_cons in Heq. simplify_eq. right. eauto.
Qed.

Lemma lower_app (a b : string) :
  Str.lower (a +:+ b) = Str.lower a +:+ Str.lower b.
Proof. induction a as [|x a IH]; [done|]. rewrite str_app_cons. simpl. by rewrite IH. Qed.

Lemma lower_app_inv (s a b : string) :
  Str.lower s = a +:+ b →
  ∃ s1 s2, s = s1 +:+ s2 ∧ Str.lower s1 = a ∧ Str.lower s2 = b.
Proof.
  revert s. induction a as [|x a IH]; intros s Heq.
  - by exists "", s.
  - destruct s as [|c s]; [done|]. rewrite str_app_cons in Heq. simpl in Heq.
    simplify_eq. destruct (IH s) as (s1 & s2 & -> & <- & <-); [done|].
    by exists (String c s1), s2.
Qed.

Lemma upper_app (a b : string) :
  Str.upper (a +:+ b) = Str.upper a +:+ Str.upper b.
Proof. induction a as [|x a IH]; [done|]. rewrite str_app_cons. simpl. by rewrite IH. Qed.

End string_facts.

Lemma contains_lower (kw fname : string) :
  Str.contains kw (Str.lower fname) = true ↔ occurs_ignoring_case kw fname.
Proof.
  rewrite contains_spec. split.
  - intros (pre & post & Heq).
    apply lower_app_inv in Heq as (s1 & s2 & -> & <- & Heq).
    apply lower_app_inv in Heq as (s3 & s4 & -> & <- & <-).
    by exists s1, s3, s4.
  - intros (pre & m & post & -> & <-).
    exists (Str.lower pre), (Str.lower post). by rewrite !lower_app.
Qed.

(** C9: the cultivar parser looks for "mueller" and then for "regent" as a
    substring of the file name, ignoring case; the first keyword found is
    returned, and [None] exactly when neither occurs.  It is a total
    function, so it never fails. *)
Theorem parse_cultivar_first_keyword (fname : string) :
  (occurs_ignoring_case "mueller" fname →
     _parse_cultivar_from_filename fname = Some "mueller") ∧
  (¬ occurs_ignoring_case "mueller" fname →
   occurs_ignoring_case "regent" fname →
     _parse_cultivar_from_filename fname = Some "regent") ∧
  (_parse_cultivar_from_filename fname = None ↔
     ¬ occurs_ignoring_case "mueller" fname ∧
     ¬ occurs_ignoring_case "regent" fname) ∧
  _parse_cultivar_from_filename "GSE12345_leaf_regent.txt" = Some "regent" ∧
  _parse_cultivar_from_filename "GSE97900_control.txt" = None ∧
  _parse_cultivar_from_filename "Regent_x_MUELLER.txt" = Some "mueller".
Proof.
  unfold _parse_cultivar_from_filename.
  rewrite <-!contains_lower.
  destruct (Str.contains "mueller" _), (Str.contains "regent" _);
    repeat split; try done; intros; try tauto; naive_solver.
Qed.

(** ** The accession parser *)

Lemma take_digits_split (s : string) :
  ∃ r, s = take_digits s +:+ r ∧ Str.all_digits (take_digits s) = true.
Proof.
  induction s as [|c s (r & IH1 & IH2)]; [by exists ""|]. simpl.
  destruct (Str.is_digit c) eqn:Hc.
  - exists r. rewrite str_app_cons, <-IH1. simpl. by rewrite Hc, IH2.
  - by exists (String c s).
Qed.

Lemma take_digits_longest (ds post : string) :
  Str.all_digits ds = true →
  ∃ r, take_digits (ds +:+ post) = ds +:+ r.
Proof.
  induction ds as [|c ds IH]; intros Hds; [by eexists|].
  simpl in Hds. apply andb_true_iff in Hds as [Hc Hds].
  destruct (IH Hds) as [r Hr]. exists r.
  rewrite str_app_cons. simpl. by rewrite Hc, Hr, str_app_cons.
Qed.

Lemma upper_GSE_inv (p : string) :
  Str.upper p = "GSE" →
  ∃ g s e, p = String g (String s (String e "")) ∧
           Str.upper_ascii g = "G"%char ∧ Str.upper_ascii s = "S"%char ∧
           Str.upper_ascii e = "E"%char.
Proof.
  destruct p as [|g [|s [|e [|??]]]]; simpl; intros ?; simplify_eq.
  by exists g, s, e.
Qed.

Lemma match_here_sound (s m : string) :
  match_here s = Some m → ∃ post, s = m +:+ post ∧ gse_token m.
Proof.
  unfold match_here. destruct s as [|g [|s_ [|e rest]]]; try done.
  destruct (bool_decide _ && _ && _) eqn:Hgse; [|done].
  apply andb_true_iff in Hgse as [Hgs He].
  apply andb_true_iff in Hgs as [Hg Hs].
  apply bool_decide_eq_true in Hg, Hs, He.
  destruct (take_digits_split rest) as (r & Hr & Hds).
  destruct (take_digits rest) as [|d ds] eqn:Htd; [done|].
  intros ?; simplify_eq. exists r. split.
  - reflexivity.
  - exists (String g (String s_ (String e ""))), (String d ds).
    split; [done|]. split; [simpl; by rewrite Hg, Hs, He|]. by split.
Qed.

Lemma match_here_complete (m post : string) :
  gse_token m →
  ∃ m0, match_here (m +:+ post) = Some m0 ∧
        (String.length m ≤ String.length m0)%nat.
Proof.
  intros (p & ds & -> & Hp & Hne & Hds).
  apply upper_GSE_inv in Hp as (g & s & e & -> & Hg & Hs & He).
  destruct (take_digits_longest ds post Hds) as [r Hr].
  rewrite str_app_assoc, !str_app_cons, !str_app_nil_l. unfold match_here.
  rewrite Hg, Hs, He. simpl. rewrite Hr.
  destruct ds as [|d ds]; [done|]. rewrite str_app_cons.
  eexists; split; [done|]. simpl. rewrite str_length_app. lia.
Qed.


Lemma search_Some (s m : string) :
  GSE_REGEX_search s = Some m → ∃ pre post, first_gse_match s pre m post.
Proof.
  revert m. induction s as [|c s IH]; intros m; [done|].
  cbn [GSE_REGEX_search].
  destruct (match_here (String c s)) as [m0|] eqn:Hh.
  - intros ?; simplify_eq.
    destruct (match_here_sound _ _ Hh) as (post & Heq & Hm).
    exists "", post. split; [done|].
    intros pre' m' post' [Heq' Hm']. split; [simpl; lia|].
    intros ->%str_length_zero. rewrite str_app_nil_l in Heq'.
    destruct (match_here_complete m' post' Hm') as (m0 & H0 & Hle).
    rewrite <-Heq' in H0. congruence.
  - intros Hs. destruct (IH _ Hs) as (pre & post & [Heq Hm] & Hfirst).
    exists (String c pre), post. split.
    { split; [|done]. by rewrite str_app_cons, <-Heq. }
    intros [|x pre'] m' post' [Heq' Hm'].
    + destruct (match_here_complete m' post' Hm') as (m0 & H0 & _).
      rewrite str_app_nil_l in Heq'. rewrite <-Heq' in H0. congruence.
    + rewrite str_app_cons in Heq'. simplify_eq.
      destruct (Hfirst pre' m' post') as [H1 H2]; [done|].
      simpl. split; [lia|]. intros ?. apply H2. lia.
Qed.




(** ** One file: [_load_single_file] *)

Lemma column_loop (fpath tissue condition : string) (cols : list string)
    (st : list VitisSampleInfo * gmap string string) :
  let gse := _parse_gse_from_filename (os_path.basename fpath) in
  let cv := _parse_cultivar_from_filename (os_path.basename fpath) in
  let st' := foldl (column_step fpath tissue condition gse cv) st cols in
  st'.1 = (st.1) ++ (info_of fpath tissue condition <$> cols) ∧
  ∀ c, st'.2 !! c =
       if decide (c ∈ cols) then Some (make_sample_id tissue gse c)
       else st.2 !! c.
Proof.
  intros gse cv. revert st. induction cols as [|col cols IH]; intros st.
  - cbn [foldl]. split; [by rewrite fmap_nil, app_nil_r|].
    intros c. by rewrite decide_False by set_solver.
  - cbn [foldl].
    destruct (IH (column_step fpath tissue condition gse cv st col)) as [-> H2].
    change ((column_step fpath tissue condition gse cv st col).1)
      with (st.1 ++ [info_of fpath tissue condition col]).
    split; [by rewrite fmap_cons, <-(assoc_L (++))|].
    intros c. rewrite H2.
    change ((column_step fpath tissue condition gse cv st col).2)
      with (<[col := make_sample_id tissue gse col]> (st.2)).
    destruct (decide (c ∈ cols)), (decide (c = col)) as [->|];
      rewrite ?lookup_insert_eq, ?lookup_insert_ne by done.
    + by rewrite decide_True by set_solver.
    + by rewrite decide_True by set_solver.
    + by rewrite decide_True by set_solver.
    + by rewrite decide_False by set_solver.
Qed.

Lemma load_single_file_Ok (csv : CsvFrame) (fpath tissue condition : string)
    (df : DataFrame cell) (infos : list VitisSampleInfo) :
  _load_single_file (Some csv) fpath tissue condition = Ok (df, infos) ↔
  sample_cols csv ≠ [] ∧ ("Gene" ∉ (sample_cols csv).*1) ∧
  df = {| index := index (indexed_frame csv);
          series :=
            (λ c, (sample_id (info_of fpath tissue condition (c.1)), c.2))
              <$> series (indexed_frame csv) |} ∧
  infos = info_of fpath tissue condition <$> pd.columns (indexed_frame csv).
Proof.
  unfold _load_single_file, shape1. fold (indexed_frame csv).
  pose proof (column_loop fpath tissue condition
                (pd.columns (indexed_frame csv)) ([], ∅)) as Hloop.
  simpl in Hloop. destruct (foldl _ _ _) as [infos' d]. simpl in Hloop.
  destruct Hloop as [-> Hd].
  assert (pd.rename_columns d (indexed_frame csv)
          = {| index := index (indexed_frame csv);
               series :=
                 (λ c, (sample_id (info_of fpath tissue condition (c.1)), c.2))
                   <$> series (indexed_frame csv) |}) as ->.
  { unfold pd.rename_columns. f_equal. apply list_fmap_ext.
    intros i [c v] Hi. simpl. rewrite Hd, decide_True; [done|].
    apply list_elem_of_fmap. exists (c, v). split; [done|].
    by eapply list_elem_of_lookup_2. }
  destruct (sample_cols csv) as [|c0 cs] eqn:Hcs.
  - rewrite bool_decide_eq_true_2 by (simpl; lia). naive_solver.
  - rewrite bool_decide_eq_false_2 by (simpl; lia).
    case_bool_decide as HG; [naive_solver|].
    split; [intros ?; simplify_eq; done|]. by intros (_ & _ & -> & ->).
Qed.

Lemma load_single_file_ValueError (content : option CsvFrame)
    (fpath tissue condition : string) :
  _load_single_file content fpath tissue condition
  = Raise ValueError_no_sample_columns ↔
  ∃ csv, content = Some csv ∧ (shape1 csv < 2)%nat.
Proof.
  unfold _load_single_file. destruct content as [csv|]; [|naive_solver].
  case_bool_decide; [naive_solver|].
  case_bool_decide; [naive_solver|].
  destruct (foldl _ _ _). naive_solver.
Qed.

Lemma foldl_add_to_group (l : list (string * cell)) (acc : gmap string Z)
    (g : string) :
  default 0 (foldl pd.add_to_group acc l !! g) =
  default 0 (acc !! g) + Zsum (default 0 <$> (filter (λ kv, kv.1 = g) l).*2).
Proof.
  revert acc. induction l as [|kv l IH]; intros acc; simpl; [lia|].
  rewrite IH. unfold pd.add_to_group. rewrite filter_cons.
  destruct (decide (kv.1 = g)) as [<-|Hne].
  - rewrite lookup_insert_eq. unfold Zsum. rewrite !fmap_cons.
    cbn [foldr from_option id]. lia.
  - by rewrite lookup_insert_ne.
Qed.

Lemma group_sums_lookup (keys : list string) (col : list cell) (g : string) :
  default 0 (pd.group_sums keys col !! g) =
  Zsum (default 0 <$> rows_of_key g keys col).
Proof.
  unfold pd.group_sums, rows_of_key.
  by rewrite foldl_add_to_group, lookup_empty.
Qed.

Lemma group_keys_Permutation (keys : list string) :
  pd.group_keys keys ≡ₚ remove_dups keys.
Proof. apply merge_sort_Permutation. Qed.

Lemma elem_of_group_keys (keys : list string) (g : string) :
  g ∈ pd.group_keys keys ↔ g ∈ keys.
Proof. by rewrite group_keys_Permutation, elem_of_remove_dups. Qed.

Lemma NoDup_group_keys (keys : list string) : NoDup (pd.group_keys keys).
Proof. rewrite group_keys_Permutation. apply NoDup_remove_dups. Qed.

Lemma indexed_frame_unique (csv : CsvFrame) :
  NoDup (gene_ids csv) →
  indexed_frame csv = {| index := gene_ids csv; series := sample_cols csv |}.
Proof.
  intros Hnd. unfold indexed_frame, pd.is_unique. simpl.
  by rewrite bool_decide_eq_true_2.
Qed.

Lemma indexed_frame_repeated (csv : CsvFrame) :
  ¬ NoDup (gene_ids csv) →
  indexed_frame csv =
  pd.groupby_sum {| index := gene_ids csv; series := sample_cols csv |}.
Proof.
  intros Hnd. unfold indexed_frame, pd.is_unique. simpl.
  by rewrite bool_decide_eq_false_2.
Qed.

Lemma indexed_frame_index (csv : CsvFrame) :
  NoDup (index (indexed_frame csv)) ∧
  ∀ g, g ∈ index (indexed_frame csv) ↔ g ∈ gene_ids csv.
Proof.
  destruct (decide (NoDup (gene_ids csv))) as [Hnd|Hnd].
  - by rewrite indexed_frame_unique.
  - rewrite indexed_frame_repeated by done. simpl.
    split; [apply NoDup_group_keys|apply elem_of_group_keys].
Qed.

Lemma indexed_frame_columns (csv : CsvFrame) :
  pd.columns (indexed_frame csv) = (sample_cols csv).*1.
Proof.
  destruct (decide (NoDup (gene_ids csv))) as [Hnd|Hnd].
  - by rewrite indexed_frame_unique.
  - rewrite indexed_frame_repeated by done.
    unfold pd.columns, pd.groupby_sum. simpl.
    rewrite <-list_fmap_compose. by apply list_fmap_ext.
Qed.


(** ** The discovery loops *)

Lemma bind_Ok {A B} (m : result A) (k : A → result B) (b : B) :
  m ≫= k = Ok b ↔ ∃ a, m = Ok a ∧ k a = Ok b.
Proof. destruct m; simpl; naive_solver. Qed.

Lemma bind_Raise {A B} (m : result A) (k : A → result B) (e : exn) :
  m = Raise e → m ≫= k = Raise e.
Proof. by intros ->. Qed.

Lemma load_each_app (condition : string) (l1 l2 : list found_file)
    (acc : loaded) :
  load_each condition (l1 ++ l2) acc =
  load_each condition l1 acc ≫= load_each condition l2.
Proof.
  revert acc. induction l1 as [|f l1 IH]; intros acc; [done|].
  simpl. destruct (load_found condition f); simpl; [apply IH|done].
Qed.

Lemma load_files_eq (tissue_dir tissue condition : string) (td : TissueDir)
    (fnames : list string) (acc : loaded) :
  load_files tissue_dir tissue condition td fnames acc =
  load_each condition
    ((λ fname, {| ff_tissue := tissue; ff_name := fname;
                  ff_path := os_path.join tissue_dir fname;
                  ff_content := mjoin (lookup_entry td fname) |})
       <$> filter (λ fname, is_txt fname = true) fnames) acc.
Proof.
  revert acc. induction fnames as [|fname fnames IH]; intros acc; [done|].
  cbn [load_files]. rewrite filter_cons. fold (is_txt fname).
  destruct (decide (is_txt fname = true)) as [Htxt|Htxt].
  - rewrite Htxt. cbn [negb]. rewrite fmap_cons. cbn [load_each].
    unfold load_found at 1. cbn [ff_content ff_path ff_tissue].
    destruct (_load_single_file _ _ _ _); simpl; [apply IH|done].
  - apply not_true_is_false in Htxt. rewrite Htxt. cbn [negb]. apply IH.
Qed.

Lemma load_tissues_eq (subset_dir condition : string) (d : SubsetDir)
    (tissues : list string) (acc : loaded) :
  load_tissues subset_dir condition d tissues acc =
  load_each condition (tissues ≫= tissue_files subset_dir d) acc.
Proof.
  revert acc. induction tissues as [|t tissues IH]; intros acc; [done|].
  cbn [load_tissues]. rewrite bind_cons, load_each_app.
  destruct (mjoin (lookup_entry d t)) as [td|] eqn:Ht.
  - assert (tissue_files subset_dir d t
            = files_in (os_path.join subset_dir t) t td) as ->.
    { unfold tissue_files. by rewrite Ht. }
    rewrite load_files_eq. fold (files_in (os_path.join subset_dir t) t td).
    destruct (load_each condition (files_in _ _ _) acc); simpl; [apply IH|done].
  - assert (tissue_files subset_dir d t = []) as ->.
    { unfold tissue_files. by rewrite Ht. }
    simpl. apply IH.
Qed.

Lemma discover_eq (d : SubsetDir) (self : VitisExpressionData) :
  discover (Some d) self =
  load_each (subset self) (discovered_files (subset_dir_of self) d) ([], []).
Proof. unfold discover. by rewrite load_tissues_eq. Qed.

Lemma load_each_Ok (condition : string) (fs : list found_file)
    (acc res : loaded) :
  load_each condition fs acc = Ok res ↔
  ∃ rs, Forall2 (λ f r, load_found condition f = Ok r) fs rs ∧
        res = (acc.1 ++ rs.*1, acc.2 ++ concat rs.*2).
Proof.
  revert acc. induction fs as [|f fs IH]; intros acc; simpl.
  - split.
    + intros [= <-]. exists []. split; [constructor|].
      simpl. rewrite !app_nil_r. by destruct acc.
    + intros (rs & Hrs & ->). apply Forall2_nil_inv_l in Hrs as ->.
      simpl. rewrite !app_nil_r. by destruct acc.
  - rewrite bind_Ok. split.
    + intros (r & Hr & Hrest). apply IH in Hrest as (rs & Hrs & ->).
      exists (r :: rs). split; [by constructor|].
      simpl. by rewrite <-!(assoc_L (++)).
    + intros (rs & Hrs & ->).
      apply Forall2_cons_inv_l in Hrs as (r & rs' & Hr & Hrs & ->).
      exists r. split; [done|]. apply IH. exists rs'. split; [done|].
      simpl. by rewrite <-!(assoc_L (++)).
Qed.

Lemma load_each_raises (condition : string) (fs : list found_file)
    (f : found_file) (e : exn) (acc : loaded) :
  f ∈ fs → load_found condition f = Raise e →
  ∃ e', load_each condition fs acc = Raise e'.
Proof.
  intros Hin Hf. revert acc.
  induction fs as [|f' fs IH]; intros acc; [by apply elem_of_nil in Hin|].
  simpl. apply elem_of_cons in Hin as [<-|Hin].
  - rewrite Hf. by eexists.
  - destruct (load_found condition f'); simpl; [by apply IH|by eexists].
Qed.

Lemma lookup_entry_Some {A} (d : list (string * A)) (n : string) (x : A) :
  NoDup (listdir d) → (n, x) ∈ d → lookup_entry d n = Some x.
Proof.
  unfold listdir. induction d as [|[n' x'] d IH]; intros Hnd Hin.
  - by apply elem_of_nil in Hin.
  - rewrite fmap_cons in Hnd. apply NoDup_cons in Hnd as [Hn' Hnd].
    simpl. apply elem_of_cons in Hin as [?|Hin]; simplify_eq.
    + by rewrite decide_True.
    + rewrite decide_False; [by apply IH|].
      intros ->. apply Hn', list_elem_of_fmap. by exists (n, x).
Qed.

Lemma elem_of_sorted (l : list string) (n : string) : n ∈ sorted l ↔ n ∈ l.
Proof. unfold sorted. by rewrite merge_sort_Permutation. Qed.

Lemma elem_of_discovered (subset_dir : string) (d : SubsetDir)
    (tissue fname : string) (td : TissueDir) (content : option CsvFrame) :
  NoDup (listdir d) → NoDup (listdir td) →
  (tissue, Some td) ∈ d → (fname, content) ∈ td → is_txt fname = true →
  {| ff_tissue := tissue; ff_name := fname;
     ff_path := os_path.join (os_path.join subset_dir tissue) fname;
     ff_content := content |} ∈ discovered_files subset_dir d.
Proof.
  intros Hd Htd Ht Hf Htxt. unfold discovered_files.
  apply list_elem_of_bind. exists tissue. split.
  - unfold tissue_files. rewrite (lookup_entry_Some d tissue (Some td)) by done.
    simpl. unfold files_in. apply list_elem_of_fmap. exists fname. split.
    + by rewrite (lookup_entry_Some td fname content).
    + apply list_elem_of_filter. split; [done|].
      apply elem_of_sorted, list_elem_of_fmap. by exists (fname, content).
  - apply elem_of_sorted, list_elem_of_fmap. by exists (tissue, Some td).
Qed.

(** C7: [_load_single_file] raises the [ValueError] for a file without
    sample columns exactly when [read_csv] has parsed a table and that
    table has fewer than two columns; and when such a file is among those
    the loader visits, the construction raises, so that no loader — hence
    no counts matrix and no metadata table — is produced. *)
Theorem malformed_input_aborts_load :
  (∀ content fpath tissue condition,
     _load_single_file content fpath tissue condition
     = Raise ValueError_no_sample_columns ↔
     ∃ csv, content = Some csv ∧ (shape1 csv < 2)%nat) ∧
  (∀ d data_root subset flag tissue td fname csv,
     NoDup (listdir d) → NoDup (listdir td) →
     (tissue, Some td) ∈ d → (fname, Some csv) ∈ td → is_txt fname = true →
     (shape1 csv < 2)%nat →
     ∃ e, __init__ (Some d) data_root subset flag = Raise e).
Proof.
  split.
  - apply load_single_file_ValueError.
  - intros d root sub flag tissue td fname csv Hd Htd Ht Hf Htxt Hshape.
    unfold __init__, _load_all. rewrite discover_eq. cbn [subset].
    pose proof (elem_of_discovered
      (subset_dir_of (mkVitisExpressionData root sub flag None None))
      d tissue fname td (Some csv) Hd Htd Ht Hf Htxt) as Hin.
    eapply (load_each_raises sub _ _ ValueError_no_sample_columns ([], []))
      in Hin as [e ->].
    + by exists e.
    + apply load_single_file_ValueError. by exists csv.
Qed.

(** ** Independence of the enumeration order *)

Lemma sorted_Permutation (l l' : list string) :
  l ≡ₚ l' → sorted l = sorted l'.
Proof.
  intros Hp. unfold sorted. apply (Sorted_unique String.le).
  - apply Sorted_merge_sort, _.
  - apply Sorted_merge_sort, _.
  - by rewrite !merge_sort_Permutation.
Qed.

Lemma lookup_entry_elem {A} (d : list (string * A)) (n : string) (x : A) :
  lookup_entry d n = Some x → (n, x) ∈ d.
Proof.
  induction d as [|[n' x'] d IH]; simpl; [done|].
  case_decide; intros ?; simplify_eq; [left|right; auto].
Qed.

Lemma lookup_entry_None {A} (d : list (string * A)) (n : string) :
  lookup_entry d n = None ↔ n ∉ listdir d.
Proof.
  unfold listdir. induction d as [|[n' x'] d IH]; simpl.
  - split; [set_solver|done].
  - rewrite not_elem_of_cons. case_decide; naive_solver.
Qed.

Lemma lookup_entry_Permutation {A} (d d' : list (string * A)) (n : string) :
  NoDup (listdir d) → d ≡ₚ d' → lookup_entry d n = lookup_entry d' n.
Proof.
  intros Hnd Hp. destruct (lookup_entry d n) as [x|] eqn:Hl.
  - symmetry. apply lookup_entry_Some.
    + unfold listdir. by rewrite <-Hp.
    + rewrite <-Hp. by apply lookup_entry_elem.
  - symmetry. apply lookup_entry_None. apply lookup_entry_None in Hl.
    unfold listdir in *. by rewrite <-Hp.
Qed.

Lemma files_in_Permutation (tissue_dir tissue : string) (td td' : TissueDir) :
  NoDup (listdir td) → td ≡ₚ td' →
  files_in tissue_dir tissue td = files_in tissue_dir tissue td'.
Proof.
  intros Hnd Hp. unfold files_in.
  rewrite <-(sorted_Permutation (listdir td) (listdir td'))
    by (unfold listdir; by rewrite Hp).
  apply list_fmap_ext. intros i fname _.
  by rewrite (lookup_entry_Permutation td td').
Qed.

Lemma lookup_entry_reordered (d1 d' : SubsetDir) (t : string) :
  Forall2 reordered_entry d1 d' →
  option_Forall2 (option_Forall2 (≡ₚ)) (lookup_entry d1 t) (lookup_entry d' t).
Proof.
  induction 1 as [|[n x] [n' x'] d1 d' [Hn Hx] _ IH]; simpl; [constructor|].
  simpl in Hn, Hx. subst n'. case_decide; [by constructor|done].
Qed.

Lemma listdir_reordered (d1 d' : SubsetDir) :
  Forall2 reordered_entry d1 d' → listdir d1 = listdir d'.
Proof.
  unfold listdir. induction 1 as [|e e' d1 d' [Hn _] _ IH]; [done|].
  rewrite !fmap_cons. by f_equal.
Qed.

Lemma discovered_files_reordered (subset_dir : string) (d d' : SubsetDir) :
  unique_names d → reordered d d' →
  discovered_files subset_dir d' = discovered_files subset_dir d.
Proof.
  intros [Hnd Htd] (d1 & Hp & Hre). unfold discovered_files.
  rewrite (sorted_Permutation (listdir d') (listdir d)).
  2: { rewrite <-(listdir_reordered d1 d') by done.
       unfold listdir. by rewrite Hp. }
  apply list_bind_ext; [|done]. intros t. unfold tissue_files.
  rewrite (lookup_entry_Permutation d d1) by done.
  pose proof (lookup_entry_reordered d1 d' t Hre) as Hl.
  destruct (lookup_entry d1 t) as [x|] eqn:H1,
    (lookup_entry d' t) as [x'|] eqn:H2;
    inversion Hl as [?? Hx|]; subst; [|done].
  destruct Hx as [td td' Hx|]; [|done]. simpl. symmetry.
  apply files_in_Permutation; [|done].
  apply (Htd t). rewrite Hp. by apply lookup_entry_elem.
Qed.

(** C6: the load does not depend on the order in which the operating
    system enumerates directory entries: for one directory tree, one
    root, one condition and one flag, any two enumerations give the same
    outcome — the same counts matrix and the same metadata table, values
    and orders included, or the same exception.  (That two constructions
    from one enumeration agree holds because [__init__] is a function.) *)
Theorem load_is_deterministic (d d' : SubsetDir) (data_root subset : string)
    (flag : bool) :
  unique_names d → reordered d d' →
  __init__ (Some d') data_root subset flag
  = __init__ (Some d) data_root subset flag.
Proof.
  intros Hnames Hre. unfold __init__, _load_all.
  by rewrite !discover_eq, (discovered_files_reordered _ d d').
Qed.

(** ** pandas: label-based selection *)

Section loc_facts.
Context {V : Type}.
Implicit Types (df : DataFrame V) (idx labels : list string).

Lemma positions_from_nil i l idx :
  l ∉ idx → pd.positions_from i l idx = [].
Proof.
  revert i. induction idx as [|x idx IH]; intros i Hl; [done|].
  apply not_elem_of_cons in Hl as [Hne Hl]. simpl.
  rewrite decide_False by done. by apply IH.
Qed.

Lemma positions_from_elem i l idx :
  l ∈ idx → pd.positions_from i l idx ≠ [].
Proof.
  revert i. induction idx as [|x idx IH]; intros i Hl.
  - by apply elem_of_nil in Hl.
  - simpl. case_decide; [done|]. simpl. apply IH. set_solver.
Qed.

Lemma positions_from_NoDup i l idx :
  NoDup idx →
  pd.positions_from i l idx = [] ∨
  ∃ k, pd.positions_from i l idx = [(i + k)%nat] ∧ idx !! k = Some l.
Proof.
  intros Hnd. revert i.
  induction Hnd as [|x idx Hx Hnd IH]; intros i; [by left|]. simpl.
  case_decide as Hxl.
  - subst x. right. exists 0%nat.
    rewrite positions_from_nil by done. by rewrite Nat.add_0_r.
  - destruct (IH (S i)) as [->|(k & -> & Hk)]; [by left|].
    right. exists (S k). split; [|done]. simpl. f_equal. lia.
Qed.

Lemma get_indexer_Ok idx labels ps :
  pd.get_indexer idx labels = Ok ps → Forall (.∈ idx) labels.
Proof.
  revert ps. induction labels as [|l labels IH]; intros ps; simpl; [done|].
  destruct (pd.positions l idx) as [|p ps0] eqn:Hp; [done|].
  intros (r & Hr & _)%bind_Ok. constructor; [|by eapply IH].
  destruct (decide (l ∈ idx)) as [|Hn]; [done|].
  unfold pd.positions in Hp. by rewrite positions_from_nil in Hp.
Qed.

Lemma get_indexer_NoDup idx labels ps :
  NoDup idx → pd.get_indexer idx labels = Ok ps →
  Forall2 (λ l p, idx !! p = Some l) labels ps.
Proof.
  intros Hnd. revert ps.
  induction labels as [|l labels IH]; intros ps; simpl.
  { intros [= <-]. constructor. }
  unfold pd.positions.
  destruct (positions_from_NoDup 0 l idx Hnd) as [->|(k & -> & Hk)];
    [done|].
  intros (r & Hr & [= <-])%bind_Ok. simpl. constructor; auto.
Qed.

Lemma get_indexer_total idx labels :
  Forall (.∈ idx) labels → ∃ ps, pd.get_indexer idx labels = Ok ps.
Proof.
  induction 1 as [|l labels Hl _ [ps IH]]; simpl; [by eexists|].
  pose proof (positions_from_elem 0 l idx Hl) as Hne.
  unfold pd.positions. destruct (pd.positions_from 0 l idx); [done|].
  rewrite IH. simpl. by eexists.
Qed.

Lemma take_lookups {A} (vs : list A) (xs : list A) (ps : list nat) :
  Forall2 (λ x p, vs !! p = Some x) xs ps → pd.take ps vs = xs.
Proof.
  unfold pd.take. induction 1 as [|x p xs ps Hp _ IH]; [done|].
  simpl. rewrite Hp. simpl. by f_equal.
Qed.

Lemma loc_Ok labels df df' :
  pd.loc labels df = Ok df' ↔
  ∃ ps, pd.get_indexer (index df) labels = Ok ps ∧ df' = pd.take_rows ps df.
Proof. unfold pd.loc. rewrite bind_Ok. naive_solver. Qed.

Lemma take_rows_columns ps df :
  pd.columns (pd.take_rows ps df) = pd.columns df.
Proof.
  unfold pd.columns, pd.take_rows. simpl.
  rewrite <-list_fmap_compose. by apply list_fmap_ext.
Qed.

Lemma loc_columns labels df df' :
  pd.loc labels df = Ok df' → pd.columns df' = pd.columns df.
Proof. intros (ps & _ & ->)%loc_Ok. apply take_rows_columns. Qed.

Lemma loc_index_NoDup labels df df' :
  NoDup (index df) → pd.loc labels df = Ok df' → index df' = labels.
Proof.
  intros Hnd (ps & Hps & ->)%loc_Ok. simpl.
  by apply take_lookups, get_indexer_NoDup.
Qed.

End loc_facts.

(** ** pandas: concatenation along the sample axis *)

Lemma bind_concat {A B} (f : A → list B) (l : list A) :
  l ≫= f = concat (f <$> l).
Proof. induction l as [|x l IH]; [done|]. rewrite bind_cons, fmap_cons. simpl. by rewrite IH. Qed.

Lemma bind_ext_elem {A B} (f g : A → list B) (l : list A) :
  (∀ x, x ∈ l → f x = g x) → l ≫= f = l ≫= g.
Proof.
  induction l as [|x l IH]; intros H; [done|].
  rewrite !bind_cons, H, IH; [done| |left]. intros y Hy. apply H. by right.
Qed.

Lemma fmap_bind_list {A B C} (g : B → C) (f : A → list B) (l : list A) :
  g <$> (l ≫= f) = l ≫= (λ x, g <$> f x).
Proof.
  induction l as [|x l IH]; [done|].
  by rewrite !bind_cons, fmap_app, IH.
Qed.

Lemma reindex_columns (idx : list string) (df : DataFrame cell) :
  pd.columns (pd.reindex idx df) = pd.columns df.
Proof.
  unfold pd.columns, pd.reindex. simpl.
  rewrite <-list_fmap_compose. by apply list_fmap_ext.
Qed.

Lemma concat_axis1_Ok (dfs : list (DataFrame cell)) (c : DataFrame cell) :
  pd.concat_axis1 dfs = Ok c →
  ∃ df0 rest, dfs = df0 :: rest ∧
    ((Forall (λ df, index df = index df0) rest ∧
      c = {| index := index df0; series := dfs ≫= series |}) ∨
     (¬ Forall (λ df, index df = index df0) rest ∧
      Forall (λ df, NoDup (index df)) dfs ∧
      c = {| index := pd.union_indexes (index <$> dfs);
             series :=
               dfs ≫= λ df,
                 series (pd.reindex (pd.union_indexes (index <$> dfs)) df) |})).
Proof.
  unfold pd.concat_axis1. destruct dfs as [|df0 rest]; [done|].
  intros Heq. exists df0, rest. split; [done|].
  repeat case_bool_decide; [left|right|done]; repeat split;
    try done; congruence.
Qed.

Lemma concat_axis1_columns (dfs : list (DataFrame cell)) (c : DataFrame cell) :
  pd.concat_axis1 dfs = Ok c → pd.columns c = dfs ≫= pd.columns.
Proof.
  intros (df0 & rest & _ & [[_ ->]|(_ & _ & ->)])%concat_axis1_Ok;
    unfold pd.columns at 1; cbn [series]; rewrite fmap_bind_list; [done|].
  apply list_bind_ext; [|done]. intros df. apply reindex_columns.
Qed.

Lemma concat_axis1_same_index (dfs : list (DataFrame cell))
    (idx : list string) (c : DataFrame cell) :
  Forall (λ df, index df = idx) dfs → pd.concat_axis1 dfs = Ok c →
  index c = idx ∧ series c = dfs ≫= series.
Proof.
  intros Hidx (df0 & rest & -> & [[_ ->]|(Hno & _ & _)])%concat_axis1_Ok.
  - apply Forall_cons in Hidx as [H0 _]. done.
  - destruct Hno. apply Forall_cons in Hidx as [H0 Hrest].
    eapply Forall_impl; [done|]. simpl. congruence.
Qed.

Lemma elem_of_first_seen (seen l : list string) (x : string) :
  x ∈ pd.first_seen seen l ↔ x ∈ l ∧ x ∉ seen.
Proof.
  revert seen. induction l as [|y l IH]; intros seen; simpl.
  - rewrite elem_of_nil. tauto.
  - case_decide as Hy; [|rewrite elem_of_cons]; rewrite IH;
      rewrite !elem_of_cons, ?not_elem_of_cons.
    + split; [tauto|]. intros [[->|?] ?]; tauto.
    + destruct (decide (x = y)) as [->|]; tauto.
Qed.

Lemma elem_of_union_indexes (dfs : list (DataFrame cell)) (x : string) :
  x ∈ pd.union_indexes (index <$> dfs) ↔ Exists (λ df, x ∈ index df) dfs.
Proof.
  unfold pd.union_indexes. rewrite elem_of_first_seen, Exists_exists.
  rewrite <-bind_concat, list_elem_of_bind. set_solver.
Qed.



(** ** The whole load *)

Lemma load_found_Ok (condition : string) (f : found_file)
    (r : DataFrame cell * list VitisSampleInfo) :
  load_found condition f = Ok r →
  ∃ csv, ff_content f = Some csv ∧ sample_cols csv ≠ [] ∧
         NoDup (index (r.1)) ∧
         (∀ g, g ∈ index (r.1) ↔ g ∈ gene_ids csv) ∧
         pd.columns (r.1) = sample_id <$> r.2 ∧
         r.2 = info_of (ff_path f) (ff_tissue f) condition
                 <$> (sample_cols csv).*1.
Proof.
  unfold load_found. destruct (ff_content f) as [csv|]; [|done].
  destruct r as [df infos].
  intros (Hne & _ & -> & ->)%load_single_file_Ok. exists csv.
  destruct (indexed_frame_index csv) as [Hnd Hin].
  rewrite indexed_frame_columns. repeat split; try done; try apply Hin.
  unfold pd.columns. cbn [fst snd series].
  rewrite <-indexed_frame_columns. unfold pd.columns.
  rewrite <-!list_fmap_compose. by apply list_fmap_ext.
Qed.

Lemma discover_Ok (fs : option SubsetDir) (self : VitisExpressionData)
    (dfs : list (DataFrame cell)) (infos : list VitisSampleInfo) :
  discover fs self = Ok (dfs, infos) →
  ∃ d rs, fs = Some d ∧
    Forall2 (λ f r, load_found (subset self) f = Ok r)
      (discovered_files (subset_dir_of self) d) rs ∧
    dfs = rs.*1 ∧ infos = concat rs.*2.
Proof.
  destruct fs as [d|]; [|done]. rewrite discover_eq.
  intros (rs & Hrs & [= -> ->])%load_each_Ok. by exists d, rs.
Qed.

Lemma discover_facts (fs : option SubsetDir) (self : VitisExpressionData)
    (dfs : list (DataFrame cell)) (infos : list VitisSampleInfo) :
  discover fs self = Ok (dfs, infos) →
  Forall (λ df, NoDup (index df)) dfs ∧
  dfs ≫= pd.columns = sample_id <$> infos ∧
  (dfs ≠ [] → infos ≠ []).
Proof.
  intros (d & rs & _ & Hrs & -> & ->)%discover_Ok.
  induction Hrs as [|f r fs' rs Hr _ (IH1 & IH2 & IH3)]; [done|].
  apply load_found_Ok in Hr as (csv & _ & Hne & Hnd & _ & Hcols & Hinfos).
  rewrite !fmap_cons. cbn [concat]. split; [by constructor|]. split.
  - by rewrite bind_cons, fmap_app, Hcols, IH2.
  - intros _. rewrite Hinfos. by destruct (sample_cols csv).
Qed.

Lemma elem_of_common_genes (df0 : DataFrame cell)
    (rest : list (DataFrame cell)) (g : string) :
  g ∈ common_genes df0 rest ↔ Forall (λ df, g ∈ index df) (df0 :: rest).
Proof.
  unfold common_genes. rewrite Forall_cons.
  rewrite <-(elem_of_list_to_set (C:=gset string) g (index df0)).
  generalize (list_to_set (index df0) : gset string). intros s. revert s.
  induction rest as [|df rest IH]; intros s; simpl.
  - rewrite Forall_nil. tauto.
  - rewrite IH, Forall_cons, elem_of_intersection, elem_of_list_to_set. tauto.
Qed.

Lemma loc_all_Ok (labels : list string) (dfs dfs' : list (DataFrame cell)) :
  loc_all labels dfs = Ok dfs' ↔
  Forall2 (λ df df', pd.loc labels df = Ok df') dfs dfs'.
Proof.
  revert dfs'. induction dfs as [|df dfs IH]; intros dfs'; simpl.
  - split; [intros [= <-]; constructor|by intros ->%Forall2_nil_inv_l].
  - rewrite bind_Ok. split.
    + intros (df' & Hdf & (rest' & Hrest & [= <-])%bind_Ok).
      constructor; [done|by apply IH].
    + intros (df' & rest' & Hdf & Hrest & ->)%Forall2_cons_inv_l.
      exists df'. split; [done|]. apply bind_Ok. exists rest'.
      split; [by apply IH|done].
Qed.

Lemma sorted_elements (s : gset string) :
  Sorted String.le (sorted (elements s)) ∧ NoDup (sorted (elements s)) ∧
  ∀ g, g ∈ sorted (elements s) ↔ g ∈ s.
Proof.
  split; [apply Sorted_merge_sort, _|]. split.
  - unfold sorted. rewrite merge_sort_Permutation. apply NoDup_elements.
  - intros g. by rewrite elem_of_sorted, elem_of_elements.
Qed.

Lemma restrict_genes_intersect (dfs dfs' : list (DataFrame cell)) :
  dfs ≠ [] → Forall (λ df, NoDup (index df)) dfs →
  restrict_genes true dfs = Ok dfs' →
  ∃ labels, Forall (λ df', index df' = labels) dfs' ∧
            Sorted String.le labels ∧ NoDup labels ∧
            (∀ g, g ∈ labels ↔ Forall (λ df, g ∈ index df) dfs).
Proof.
  intros Hne Hnd. unfold restrict_genes. destruct dfs as [|df0 rest]; [done|].
  case_bool_decide; [done|]. intros Hloc%loc_all_Ok.
  destruct (sorted_elements (common_genes df0 rest)) as (Hs & Hn & Hin).
  exists (sorted (elements (common_genes df0 rest))).
  split; [|split; [done|split; [done|]]].
  - clear -Hloc Hnd. revert Hnd Hloc. generalize (df0 :: rest).
    intros dfs Hnd Hloc.
    induction Hloc as [|df df' l l' Hl _ IH]; [constructor|].
    apply Forall_cons in Hnd as [Hdf Hnd].
    constructor; [by eapply loc_index_NoDup|by apply IH].
  - intros g. by rewrite Hin, elem_of_common_genes.
Qed.


Lemma restrict_genes_columns (flag : bool) (dfs dfs' : list (DataFrame cell)) :
  restrict_genes flag dfs = Ok dfs' →
  dfs' ≫= pd.columns = dfs ≫= pd.columns.
Proof.
  unfold restrict_genes. destruct flag; [|by intros [= <-]].
  destruct dfs as [|df0 rest]; [by intros [= <-]|].
  case_bool_decide; [done|]. intros Hloc%loc_all_Ok.
  induction Hloc as [|df df' l l' Hl _ IH]; [done|].
  by rewrite !bind_cons, IH, (loc_columns _ _ _ Hl).
Qed.

Lemma restrict_genes_nonempty (flag : bool) (dfs dfs' : list (DataFrame cell)) :
  restrict_genes flag dfs = Ok dfs' → dfs ≠ [] → dfs' ≠ [].
Proof.
  unfold restrict_genes. destruct flag; [|by intros [= <-]].
  destruct dfs as [|df0 rest]; [done|].
  case_bool_decide; [done|]. intros Hloc%loc_all_Ok _.
  by inversion Hloc.
Qed.

Lemma load_all_Ok (fs : option SubsetDir) (self self' : VitisExpressionData) :
  _load_all fs self = Ok self' →
  ∃ dfs infos dfs' c m0 m,
    discover fs self = Ok (dfs, infos) ∧ dfs ≠ [] ∧
    restrict_genes (intersect_genes self) dfs = Ok dfs' ∧
    pd.concat_axis1 dfs' = Ok c ∧
    frame_of_infos infos = Ok m0 ∧
    pd.loc (pd.columns c) m0 = Ok m ∧
    counts self' = Some c ∧ metadata self' = Some m ∧
    intersect_genes self' = intersect_genes self.
Proof.
  unfold _load_all. intros ([dfs infos] & Hdisc & Hrest)%bind_Ok.
  destruct dfs as [|df0 rest] eqn:Hdfs; [done|]. rewrite <-Hdfs in *.
  apply bind_Ok in Hrest as (dfs' & Hres & Hrest).
  apply bind_Ok in Hrest as (c & Hc & Hrest).
  apply bind_Ok in Hrest as (m0 & Hm0 & Hrest).
  apply bind_Ok in Hrest as (m & Hm & [= <-]).
  exists dfs, infos, dfs', c, m0, m. repeat split; try done.
  by rewrite Hdfs.
Qed.

Lemma frame_of_infos_index (infos : list VitisSampleInfo)
    (m0 : DataFrame (option string)) :
  frame_of_infos infos = Ok m0 → index m0 = sample_id <$> infos.
Proof. destruct infos; [done|]. by intros [= <-]. Qed.

Lemma load_all_columns (fs : option SubsetDir)
    (self self' : VitisExpressionData) (c : DataFrame cell)
    (infos : list VitisSampleInfo) (dfs : list (DataFrame cell)) :
  _load_all fs self = Ok self' → counts self' = Some c →
  discover fs self = Ok (dfs, infos) →
  pd.columns c = sample_id <$> infos.
Proof.
  intros (dfs0 & infos0 & dfs' & c0 & m0 & m & Hdisc & _ & Hres & Hc & _
          & _ & Hcounts & _)%load_all_Ok Hc' Hdisc'.
  rewrite Hdisc in Hdisc'. injection Hdisc' as <- <-.
  rewrite Hcounts in Hc'. injection Hc' as <-.
  rewrite (concat_axis1_columns _ _ Hc).
  rewrite (restrict_genes_columns _ _ _ Hres).
  by apply discover_facts in Hdisc as (_ & -> & _).
Qed.

(** C1, as amended: after a successful construction in which the sample
    identifiers — the column labels of the counts matrix — are pairwise
    distinct, the index of the metadata table is the list of columns of
    the counts matrix, in the same order; both tables are the ones the
    accessors [counts], [metadata] and [samples] give. *)
Theorem alignment_of_metadata (fs : option SubsetDir)
    (data_root subset : string) (flag : bool) (self : VitisExpressionData) :
  __init__ fs data_root subset flag = Ok self →
  ∃ c m, counts self = Some c ∧ metadata self = Some m ∧
         samples self = Some (pd.columns c) ∧
         (NoDup (pd.columns c) → index m = pd.columns c).
Proof.
  unfold __init__.
  intros Hload. pose proof Hload as Hload'.
  apply load_all_Ok in Hload
    as (dfs & infos & dfs' & c & m0 & m & Hdisc & _ & _ & _ & Hm0 & Hm
        & Hc & Hmeta & _).
  exists c, m. split; [done|]. split; [done|].
  split; [unfold samples; by rewrite Hc|].
  intros Hnd. eapply loc_index_NoDup; [|done].
  rewrite (frame_of_infos_index _ _ Hm0).
  by rewrite <-(load_all_columns _ _ _ _ _ _ Hload' Hc Hdisc).
Qed.

Lemma Forall2_fmap_same {A B} (P : A → B → Prop) (f : A → B) (l : list A) :
  Forall (λ x, P x (f x)) l → Forall2 P l (f <$> l).
Proof. intros H. by apply Forall2_fmap_r, Forall_Forall2_diag. Qed.


(** ** Sample identifiers *)

Lemma has_char_app (c : ascii) (a b : string) :
  Str.has_char c (a +:+ b) = Str.has_char c a || Str.has_char c b.
Proof.
  induction a as [|x a IH]; [done|]. rewrite str_app_cons. simpl.
  by rewrite IH, orb_assoc.
Qed.

Lemma bar_split (a b x y : string) :
  Str.has_char "|" a = false → Str.has_char "|" b = false →
  a +:+ "|" +:+ x = b +:+ "|" +:+ y → a = b ∧ x = y.
Proof.
  revert b. induction a as [|c a IH]; intros [|c' b] Ha Hb Heq;
    rewrite ?str_app_cons, ?str_app_nil_l in Heq; simpl in Ha, Hb.
  - by simplify_eq.
  - simplify_eq; by rewrite bool_decide_eq_true_2 in Hb.
  - simplify_eq; by rewrite bool_decide_eq_true_2 in Ha.
  - apply orb_false_iff in Ha as [_ Ha]. apply orb_false_iff in Hb as [_ Hb].
    simplify_eq. destruct (IH b) as [-> ->]; done.
Qed.

Lemma make_sample_id_inj (t1 g1 c1 t2 g2 c2 : string) :
  Str.has_char "|" t1 = false → Str.has_char "|" t2 = false →
  Str.has_char "|" g1 = false → Str.has_char "|" g2 = false →
  make_sample_id t1 g1 c1 = make_sample_id t2 g2 c2 →
  t1 = t2 ∧ g1 = g2 ∧ c1 = c2.
Proof.
  unfold make_sample_id. intros Ht1 Ht2 Hg1 Hg2 Heq.
  apply bar_split in Heq as [-> Heq]; [|done..].
  apply bar_split in Heq as [-> ->]; done.
Qed.

Lemma digit_upper_no_bar (c : ascii) :
  Str.is_digit c = true → bool_decide (Str.upper_ascii c = "|"%char) = false.
Proof. destruct c as [[] [] [] [] [] [] [] []]; by vm_compute. Qed.

Lemma digits_upper_no_bar (ds : string) :
  Str.all_digits ds = true → Str.has_char "|" (Str.upper ds) = false.
Proof.
  induction ds as [|c ds IH]; [done|]. simpl.
  intros [Hc Hds]%andb_true_iff. by rewrite digit_upper_no_bar, IH.
Qed.

Lemma parse_gse_no_bar (fname : string) :
  Str.has_char "|" (_parse_gse_from_filename fname) = false.
Proof.
  unfold _parse_gse_from_filename.
  destruct (GSE_REGEX_search fname) as [m|] eqn:Hs; [|done].
  apply search_Some in Hs as (pre & post & [[_ Hm] _]).
  destruct Hm as (p & ds & -> & Hp & _ & Hds).
  by rewrite upper_app, has_char_app, Hp, digits_upper_no_bar.
Qed.

Lemma elem_of_concat {A} (x : A) (ls : list (list A)) :
  x ∈ concat ls ↔ ∃ l, x ∈ l ∧ l ∈ ls.
Proof.
  induction ls as [|l ls IH]; simpl.
  - split; [by intros ?%elem_of_nil|]. by intros (l & _ & ?%elem_of_nil).
  - rewrite elem_of_app, IH. split.
    + intros [Hx|(l' & Hx & Hl')]; [exists l|exists l'];
        rewrite elem_of_cons; auto.
    + intros (l' & Hx & [->|Hl']%elem_of_cons); eauto.
Qed.

Lemma NoDup_concat_lookup {A} (ls : list (list A)) :
  (∀ i l, ls !! i = Some l → NoDup l) →
  (∀ i j l1 l2 x, i ≠ j → ls !! i = Some l1 → ls !! j = Some l2 →
                  x ∈ l1 → x ∉ l2) →
  NoDup (concat ls).
Proof.
  induction ls as [|l ls IH]; intros Hnd Hdisj; [constructor|].
  simpl. apply NoDup_app. split; [by apply (Hnd 0%nat)|]. split.
  - intros x Hx (l2 & Hx2 & Hl2)%elem_of_concat.
    apply list_elem_of_lookup in Hl2 as [j Hj].
    by apply (Hdisj 0%nat (S j) l l2 x).
  - apply IH.
    + intros i l' Hi. by apply (Hnd (S i)).
    + intros i j l1 l2 x Hij Hi Hj. apply (Hdisj (S i) (S j)); auto.
Qed.

Lemma fmap_concat {A B} (f : A → B) (ls : list (list A)) :
  f <$> concat ls = concat ((λ l : list A, f <$> l) <$> ls).
Proof.
  induction ls as [|l ls IH]; [done|]. simpl. by rewrite fmap_app, IH.
Qed.

Lemma load_found_ids (condition : string) (f : found_file)
    (r : DataFrame cell * list VitisSampleInfo) :
  load_found condition f = Ok r →
  ∃ csv, ff_content f = Some csv ∧
         sample_id <$> r.2
         = make_sample_id (ff_tissue f) (ff_gse f) <$> (sample_cols csv).*1.
Proof.
  intros (csv & Hc & _ & _ & _ & _ & ->)%load_found_Ok.
  exists csv. split; [done|]. rewrite <-list_fmap_compose.
  by apply list_fmap_ext.
Qed.

(** C5, as amended: when no tissue directory has the separator "|" in
    its name, and no two discovered files of one tissue directory give
    the same accession token (both giving "UNKNOWN" included) together
    with one and the same column name, the sample identifiers of the
    records of the whole corpus are pairwise distinct.  (The column names
    within one parsed file are distinct: [read_csv] renames repeats.) *)
Theorem sample_ids_pairwise_distinct (d : SubsetDir)
    (data_root subset : string) (flag : bool)
    (dfs : list (DataFrame cell)) (infos : list VitisSampleInfo) :
  let self := mkVitisExpressionData data_root subset flag None None in
  let files := discovered_files (subset_dir_of self) d in
  discover (Some d) self = Ok (dfs, infos) →
  (∀ f, f ∈ files → Str.has_char "|" (ff_tissue f) = false) →
  (∀ f csv, f ∈ files → ff_content f = Some csv →
            NoDup (sample_cols csv).*1) →
  (∀ i j f1 f2 csv1 csv2 col,
     i ≠ j → files !! i = Some f1 → files !! j = Some f2 →
     ff_content f1 = Some csv1 → ff_content f2 = Some csv2 →
     ff_tissue f1 = ff_tissue f2 → ff_gse f1 = ff_gse f2 →
     col ∈ (sample_cols csv1).*1 → col ∉ (sample_cols csv2).*1) →
  NoDup (sample_id <$> infos).
Proof.
  intros self files (d' & rs & [= <-] & Hrs & _ & ->)%discover_Ok
    Hbar Hcols Hcoll.
  fold files in Hrs. rewrite fmap_concat, <-list_fmap_compose.
  assert (∀ i l, (((λ l : list VitisSampleInfo, sample_id <$> l) ∘ snd)
                    <$> rs) !! i = Some l →
            ∃ f csv, files !! i = Some f ∧ ff_content f = Some csv ∧
              l = make_sample_id (ff_tissue f) (ff_gse f)
                    <$> (sample_cols csv).*1) as Hget.
  { intros i l. rewrite list_lookup_fmap.
    destruct (rs !! i) as [r|] eqn:Hr; [|done]. intros [= <-].
    destruct (Forall2_lookup_r _ _ _ _ _ Hrs Hr) as (f & Hf & Hload).
    apply load_found_ids in Hload as (csv & Hc & Hids).
    by exists f, csv. }
  apply NoDup_concat_lookup.
  - intros i l (f & csv & Hf & Hc & ->)%Hget.
    apply NoDup_fmap_2.
    + intros c1 c2 Heq. unfold make_sample_id in Heq.
      by repeat apply (inj (String.app _)) in Heq.
    + eapply Hcols; [|done]. by eapply list_elem_of_lookup_2.
  - intros i j l1 l2 x Hij (f1 & csv1 & Hf1 & Hc1 & ->)%Hget
      (f2 & csv2 & Hf2 & Hc2 & ->)%Hget
      (c1 & -> & Hin1)%list_elem_of_fmap (c2 & Heq & Hin2)%list_elem_of_fmap.
    apply make_sample_id_inj in Heq as (Ht & Hg & ->).
    + by eapply (Hcoll i j f1 f2 csv1 csv2 c2).
    + eapply Hbar, list_elem_of_lookup_2, Hf1.
    + eapply Hbar, list_elem_of_lookup_2, Hf2.
    + apply parse_gse_no_bar.
    + apply parse_gse_no_bar.
Qed.

(** ** datasets.py: labels *)

Lemma categories_spec (vs : list (option string)) :
  Sorted String.le (pd.categories vs) ∧ NoDup (pd.categories vs) ∧
  ∀ v, v ∈ pd.categories vs ↔ Some v ∈ vs.
Proof.
  unfold pd.categories. split; [apply Sorted_merge_sort, _|]. split.
  - rewrite merge_sort_Permutation. apply NoDup_remove_dups.
  - intros v. rewrite merge_sort_Permutation, elem_of_remove_dups.
    rewrite list_elem_of_omap. naive_solver.
Qed.

Lemma index_of_Some (x : string) (l : list string) :
  x ∈ l → ∃ k, pd.index_of x l = Some k ∧ l !! k = Some x.
Proof.
  induction l as [|y l IH]; [by intros ?%elem_of_nil|]. simpl.
  case_decide as Hxy; [subst; by exists 0%nat|].
  intros [?|Hin]%elem_of_cons; [done|].
  destruct (IH Hin) as (k & -> & Hk). by exists (S k).
Qed.

Lemma codes_lookup (vs : list (option string)) (i : nat) :
  pd.codes vs !! i =
  (λ v, match v ≫= (λ x, pd.index_of x (pd.categories vs)) with
        | Some k => Z.of_nat k
        | None => -1
        end) <$> vs !! i.
Proof. unfold pd.codes. by rewrite list_lookup_fmap. Qed.

Lemma py_getitem_nat {A} (l : list A) (k : nat) (x : A) :
  l !! k = Some x → py_getitem l (Z.of_nat k) = Ok x.
Proof.
  intros Hk. pose proof (lookup_lt_Some _ _ _ Hk). unfold py_getitem.
  cbv zeta. destruct (decide (Z.of_nat k < 0)); [lia|].
  destruct (decide _); [|lia]. by rewrite Nat2Z.id, Hk.
Qed.

Lemma dataset_init_Ok (counts_df : DataFrame cell)
    (metadata_df : DataFrame (option string)) (label_col : string)
    (ds : ExpressionDataset.t) :
  ExpressionDataset.__init__ counts_df metadata_df label_col = Ok ds ↔
  ∃ aligned labels,
    pd.loc (pd.columns counts_df) metadata_df = Ok aligned ∧
    pd.getitem label_col aligned = Ok labels ∧
    ds = ExpressionDataset.mk (series counts_df).*2 (pd.columns counts_df)
           aligned label_col (pd.categories labels) (pd.codes labels).
Proof.
  unfold ExpressionDataset.__init__. rewrite bind_Ok.
  setoid_rewrite bind_Ok. naive_solver.
Qed.

(** C4, as amended: the dataset numbers the distinct non-missing values
    of the chosen metadata column 0, 1, 2, ... in ascending sorted order
    of the values (not in the order of first appearance along the sample
    axis); a sample with a missing value gets the code -1; every number
    below the number of categories is used; and [label_to_name] of the
    code of a sample gives back the value the sample has in the column. *)
Theorem labels_in_sorted_category_order (counts_df : DataFrame cell)
    (metadata_df : DataFrame (option string)) (label_col : string)
    (ds : ExpressionDataset.t) :
  ExpressionDataset.__init__ counts_df metadata_df label_col = Ok ds →
  let cats := ExpressionDataset.label_categories ds in
  let y := ExpressionDataset.y ds in
  ∃ labels,
    pd.getitem label_col (ExpressionDataset.metadata ds) = Ok labels ∧
    Sorted String.le cats ∧ NoDup cats ∧
    (∀ v, v ∈ cats ↔ Some v ∈ labels) ∧
    length y = length labels ∧
    (∀ i v, labels !! i = Some (Some v) →
       ∃ k, y !! i = Some (Z.of_nat k) ∧ cats !! k = Some v ∧
            ExpressionDataset.label_to_name ds (Z.of_nat k) = Ok v) ∧
    (∀ i, labels !! i = Some None → y !! i = Some (-1)) ∧
    (∀ k, (k < length cats)%nat → ∃ i, y !! i = Some (Z.of_nat k)).
Proof.
  intros (aligned & labels & _ & Hlabels & ->)%dataset_init_Ok.
  cbn [ExpressionDataset.label_categories ExpressionDataset.y
       ExpressionDataset.metadata].
  exists labels. destruct (categories_spec labels) as (Hs & Hnd & Hin).
  split; [done|]. split; [done|]. split; [done|]. split; [done|].
  split; [unfold pd.codes; by rewrite length_fmap|].
  assert (∀ i v, labels !! i = Some (Some v) →
            ∃ k, pd.codes labels !! i = Some (Z.of_nat k) ∧
                 pd.categories labels !! k = Some v) as Hcode.
  { intros i v Hi. rewrite codes_lookup, Hi. simpl.
    destruct (index_of_Some v (pd.categories labels)) as (k & -> & Hk).
    - apply Hin. by eapply list_elem_of_lookup_2.
    - by exists k. }
  split; [|split].
  - intros i v Hi. destruct (Hcode i v Hi) as (k & Hy & Hk).
    exists k. split; [done|]. split; [done|].
    unfold ExpressionDataset.label_to_name. simpl. by apply py_getitem_nat.
  - intros i Hi. by rewrite codes_lookup, Hi.
  - intros k Hk. apply lookup_lt_is_Some in Hk as [v Hv].
    pose proof (list_elem_of_lookup_2 _ _ _ Hv) as Hv'.
    apply Hin, list_elem_of_lookup in Hv' as [i Hi].
    destruct (Hcode i v Hi) as (k' & Hy & Hk'). exists i.
    by rewrite (NoDup_lookup _ _ _ _ Hnd Hv Hk').
Qed.

(** ** datasets.py: alignment of the metadata *)

Section rows_facts.
Context {V : Type}.
Implicit Types (df : DataFrame V) (idx labels : list string).

Lemma positions_from_filter {X} (F : nat → X) i s idx :
  F <$> pd.positions_from i s idx =
  (filter (λ r, r.1 = s) (imap (λ p l, (l, F (i + p)%nat)) idx)).*2.
Proof.
  revert i. induction idx as [|x idx IH]; intros i; [done|].
  cbn [pd.positions_from]. rewrite imap_cons, filter_cons, fmap_app, IH.
  cbn [fst]. rewrite Nat.add_0_r.
  assert (imap ((λ p l, (l, F (i + p)%nat)) ∘ S) idx
          = imap (λ p l, (l, F (S i + p)%nat)) idx) as ->.
  { apply imap_ext. intros p l _. simpl. do 2 f_equal. lia. }
  by case_decide.
Qed.

Lemma rows_labelled_filter s df :
  rows_labelled s df = (filter (λ r, r.1 = s) (rows df)).*2.
Proof. apply (positions_from_filter (row_at df) 0). Qed.

Lemma rows_labels df : (rows df).*1 = index df.
Proof.
  unfold rows. rewrite fmap_imap.
  rewrite (imap_ext _ (const id)) by done.
  by rewrite imap_const, list_fmap_id.
Qed.

Lemma filter_label_short {X} (l : list (string * X)) s :
  NoDup l.*1 → (length (filter (λ r, r.1 = s) l) ≤ 1)%nat.
Proof.
  induction l as [|[n x] l IH]; [simpl; lia|].
  rewrite fmap_cons. intros [Hn Hnd]%NoDup_cons. rewrite filter_cons.
  case_decide as Hs; [|by apply IH]. simpl in Hs. subst n.
  assert (filter (λ r : string * X, r.1 = s) l = []) as ->; [|simpl; lia].
  destruct (filter _ l) as [|r rs] eqn:Hf; [done|].
  assert (r ∈ filter (λ r : string * X, r.1 = s) l) as Hr
    by (rewrite Hf; left).
  apply list_elem_of_filter in Hr as [<- Hr].
  destruct Hn. apply list_elem_of_fmap. by exists r.
Qed.

Lemma filter_label_none {X} (l : list (string * X)) s :
  s ∉ l.*1 → filter (λ r, r.1 = s) l = [].
Proof.
  intros Hs. destruct (filter _ l) as [|r rs] eqn:Hf; [done|].
  assert (r ∈ filter (λ r : string * X, r.1 = s) l) as Hr
    by (rewrite Hf; left).
  apply list_elem_of_filter in Hr as [<- Hr].
  destruct Hs. apply list_elem_of_fmap. by exists r.
Qed.

Lemma rows_labelled_Permutation s df df' extra :
  NoDup (index df) → rows df' ≡ₚ rows df ++ extra → s ∉ extra.*1 →
  rows_labelled s df' = rows_labelled s df.
Proof.
  intros Hnd Hp Hs. rewrite !rows_labelled_filter. f_equal.
  pose proof (filter_Permutation (λ r, r.1 = s) _ _ Hp) as Hf.
  rewrite filter_app, (filter_label_none extra) in Hf by done.
  rewrite app_nil_r in Hf.
  pose proof (filter_label_short (rows df) s) as Hlen.
  rewrite rows_labels in Hlen. specialize (Hlen Hnd).
  destruct (filter _ (rows df)) as [|r [|??]]; [| |simpl in Hlen; lia].
  - by apply Permutation_nil_r.
  - by apply Permutation_singleton_r.
Qed.

Lemma get_indexer_present idx labels :
  Forall (λ s, pd.positions s idx ≠ []) labels →
  pd.get_indexer idx labels = Ok (labels ≫= λ s, pd.positions s idx).
Proof.
  induction 1 as [|s labels Hs _ IH]; [done|]. simpl.
  destruct (pd.positions s idx) eqn:Hp; [done|]. by rewrite IH.
Qed.

Lemma get_indexer_missing idx labels :
  ¬ Forall (λ s, pd.positions s idx ≠ []) labels →
  pd.get_indexer idx labels = Raise KeyError.
Proof.
  induction labels as [|s labels IH]; intros Hno; [by destruct Hno|].
  simpl. destruct (pd.positions s idx) eqn:Hp; [done|].
  rewrite IH; [done|]. intros Hall. apply Hno.
  constructor; [by rewrite Hp|done].
Qed.

Lemma positions_from_lookup i s idx p :
  p ∈ pd.positions_from i s idx →
  ∃ k, p = (i + k)%nat ∧ idx !! k = Some s.
Proof.
  revert i. induction idx as [|x idx IH]; intros i; simpl.
  { by intros ?%elem_of_nil. }
  intros [Hp|Hp]%elem_of_app.
  - case_decide; [|by apply elem_of_nil in Hp].
    apply list_elem_of_singleton in Hp. subst. exists 0%nat.
    split; [lia|done].
  - destruct (IH _ Hp) as (k & -> & Hk). exists (S k). split; [lia|done].
Qed.

Lemma take_positions s idx :
  pd.take (pd.positions s idx) idx
  = replicate (length (pd.positions s idx)) s.
Proof.
  unfold pd.positions.
  assert (Forall (λ p, idx !! p = Some s) (pd.positions_from 0 s idx)) as H.
  { apply Forall_forall. intros p (k & -> & Hk)%positions_from_lookup.
    done. }
  unfold pd.take. induction H as [|p ps Hp _ IH]; [done|].
  simpl. rewrite Hp. simpl. by f_equal.
Qed.

Lemma take_app {A} (ps1 ps2 : list nat) (vs : list A) :
  pd.take (ps1 ++ ps2) vs = pd.take ps1 vs ++ pd.take ps2 vs.
Proof. apply omap_app. Qed.

Lemma take_index idx labels :
  pd.take (labels ≫= λ s, pd.positions s idx) idx
  = labels ≫= λ s, replicate (length (pd.positions s idx)) s.
Proof.
  induction labels as [|s labels IH]; [done|].
  by rewrite !bind_cons, take_app, take_positions, IH.
Qed.

Lemma take_column df j c ps :
  series df !! j = Some c →
  pd.take ps (c.2) = omap (λ row, mjoin (row !! j)) (row_at df <$> ps).
Proof.
  intros Hj. unfold pd.take. induction ps as [|p ps IH]; [done|].
  rewrite fmap_cons. cbn [omap list_omap]. rewrite <-IH.
  unfold row_at at 1. by rewrite list_lookup_fmap, Hj.
Qed.

Lemma rows_at_positions df labels :
  row_at df <$> (labels ≫= λ s, pd.positions s (index df))
  = labels ≫= λ s, rows_labelled s df.
Proof. by rewrite fmap_bind_list. Qed.

Lemma loc_ext labels df df' :
  pd.columns df' = pd.columns df →
  (∀ s, s ∈ labels → rows_labelled s df' = rows_labelled s df) →
  pd.loc labels df' = pd.loc labels df.
Proof.
  intros Hcols Hrows. unfold pd.loc.
  assert (∀ s, s ∈ labels →
            length (pd.positions s (index df'))
            = length (pd.positions s (index df))) as Hlen.
  { intros s Hs. specialize (Hrows s Hs). unfold rows_labelled in Hrows.
    apply (f_equal length) in Hrows. by rewrite !length_fmap in Hrows. }
  destruct (decide (Forall (λ s, pd.positions s (index df) ≠ []) labels))
    as [Hall|Hno].
  - assert (Forall (λ s, pd.positions s (index df') ≠ []) labels) as Hall'.
    { apply Forall_forall. intros s Hs. specialize (Hlen s Hs).
      pose proof (proj1 (Forall_forall _ _) Hall s Hs) as Hne.
      cbv beta in Hne.
      destruct (pd.positions s (index df)); [by destruct Hne|].
      destruct (pd.positions s (index df')); [simpl in Hlen; lia|done]. }
    rewrite !get_indexer_present by done. simpl. f_equal.
    unfold pd.take_rows. f_equal.
    + rewrite !take_index. apply bind_ext_elem.
      intros s Hs. by rewrite Hlen.
    + apply list_eq. intros j. rewrite !list_lookup_fmap.
      pose proof (f_equal (λ l, l !! j) Hcols) as Hj. simpl in Hj.
      unfold pd.columns in Hj. rewrite !list_lookup_fmap in Hj.
      destruct (series df' !! j) as [c'|] eqn:Hc',
        (series df !! j) as [c|] eqn:Hc; simplify_eq/=; [|done].
      f_equal. rewrite Hj. f_equal.
      rewrite (take_column df' j c') by done.
      rewrite (take_column df j c) by done.
      rewrite !rows_at_positions. f_equal.
      by apply bind_ext_elem.
  - assert (¬ Forall (λ s, pd.positions s (index df') ≠ []) labels) as Hno'.
    { intros Hall'. apply Hno, Forall_forall. intros s Hs.
      specialize (Hlen s Hs).
      pose proof (proj1 (Forall_forall _ _) Hall' s Hs) as Hne.
      cbv beta in Hne.
      destruct (pd.positions s (index df')); [by destruct Hne|].
      destruct (pd.positions s (index df)); [simpl in Hlen; lia|done]. }
    by rewrite !get_indexer_missing.
Qed.

End rows_facts.

(** C10, as amended: for a metadata table whose index labels are pairwise
    distinct, the dataset re-selects the metadata rows by the columns of
    the counts matrix: the aligned table it keeps is indexed by those
    columns, in their order.  Consequently a table [md'] holding the rows
    of [md] in any order, together with extra rows for samples that are
    not columns of the matrix, gives the same dataset — the same
    features [X], labels [y], categories and aligned metadata, hence the
    same answers of [__getitem__], [label_to_name] and
    [get_sample_metadata] — or the same exception. *)
Theorem dataset_ignores_row_order (counts_df : DataFrame cell)
    (md md' : DataFrame (option string))
    (extra : list (string * list (option (option string))))
    (label_col : string) :
  NoDup (index md) →
  pd.columns md' = pd.columns md →
  rows md' ≡ₚ rows md ++ extra →
  (∀ e, e ∈ extra → e.1 ∉ pd.columns counts_df) →
  ExpressionDataset.__init__ counts_df md' label_col
  = ExpressionDataset.__init__ counts_df md label_col ∧
  ∀ ds, ExpressionDataset.__init__ counts_df md label_col = Ok ds →
    index (ExpressionDataset.metadata ds) = pd.columns counts_df ∧
    ExpressionDataset.sample_ids ds = pd.columns counts_df ∧
    pd.columns (ExpressionDataset.metadata ds) = pd.columns md.
Proof.
  intros Hnd Hcols Hperm Hextra. split.
  - unfold ExpressionDataset.__init__.
    rewrite (loc_ext (pd.columns counts_df) md md'); [done..|].
    intros s Hs. apply (rows_labelled_Permutation s md md' extra); [done..|].
    intros (e & -> & He)%list_elem_of_fmap. by apply (Hextra e).
  - intros ds (aligned & labels & Hloc & _ & ->)%dataset_init_Ok.
    cbn [ExpressionDataset.metadata ExpressionDataset.sample_ids].
    split; [by eapply loc_index_NoDup|]. split; [done|].
    by eapply loc_columns.
Qed.

(** * Counterexamples to the statements that had to be amended *)

(** C1 as stated fails: two files of one tissue directory with the same
    accession and the same column name load without an exception, the
    counts matrix then has two columns of one label, and the metadata
    table has four rows. *)
Lemma alignment_counterexample :
  ∃ self c m,
    __init__ (Some colliding_files) "/data" "control" true = Ok self ∧
    counts self = Some c ∧ metadata self = Some m ∧
    pd.columns c = ["leaf|GSE1|s1"; "leaf|GSE1|s1"] ∧
    index m = ["leaf|GSE1|s1"; "leaf|GSE1|s1"; "leaf|GSE1|s1"; "leaf|GSE1|s1"] ∧
    index m ≠ pd.columns c.
Proof.
  eexists _, _, _. split; [by vm_compute|].
  split; [done|]. split; [done|]. split; [by vm_compute|].
  split; [by vm_compute|]. by vm_compute.
Qed.

(** C4 as stated fails on the end-to-end scenario.  With the accession
    as label column: along the sample axis GSE200 appears first, yet it
    is the second category and its samples get the code 1.  With the
    cultivar as label column: no file name holds a keyword, every value
    is missing, there is no category, every sample gets the code -1, and
    the reverse lookup of that code raises. *)
Lemma label_order_counterexample :
  ∃ self c m ds labels ds',
    __init__ (Some scenario) "/data" "control" true = Ok self ∧
    counts self = Some c ∧ metadata self = Some m ∧
    index m = pd.columns c ∧
    ExpressionDataset.__init__ c m "gse_accession" = Ok ds ∧
    pd.getitem "gse_accession" m = Ok labels ∧
    labels = [Some "GSE200"; Some "GSE100"; Some "GSE100"] ∧
    first_seen_values labels = ["GSE200"; "GSE100"] ∧
    ExpressionDataset.label_categories ds = ["GSE100"; "GSE200"] ∧
    ExpressionDataset.y ds = [1; 0; 0] ∧
    ExpressionDataset.label_categories ds ≠ first_seen_values labels ∧
    ExpressionDataset.__init__ c m "cultivar" = Ok ds' ∧
    ExpressionDataset.label_categories ds' = [] ∧
    ExpressionDataset.y ds' = [-1; -1; -1] ∧
    ExpressionDataset.label_to_name ds' (-1) = Raise IndexError.
Proof.
  eexists _, _, _, _, _, _. split; [by vm_compute|].
  split; [done|]. split; [done|]. split; [by vm_compute|].
  split; [by vm_compute|]. split; [by vm_compute|].
  split; [done|]. split; [by vm_compute|]. split; [by vm_compute|].
  split; [by vm_compute|]. split; [by vm_compute|].
  split; [by vm_compute|]. split; [by vm_compute|].
  split; by vm_compute.
Qed.

(** C5 as stated fails: the two files lie in different tissue
    directories, so no two files of one tissue directory collide, and
    the column names of each file are distinct; still the two records
    have one and the same sample identifier. *)
Lemma sample_ids_counterexample :
  ∃ self dfs infos,
    __init__ (Some bar_in_tissue_name) "/data" "control" true = Ok self ∧
    discover (Some bar_in_tissue_name) (fresh "/data" "control" true)
      = Ok (dfs, infos) ∧
    (∀ f csv,
       f ∈ discovered_files (subset_dir_of (fresh "/data" "control" true))
             bar_in_tissue_name →
       ff_content f = Some csv → NoDup (sample_cols csv).*1) ∧
    (∀ i j f1 f2 csv1 csv2 col,
       i ≠ j →
       discovered_files (subset_dir_of (fresh "/data" "control" true))
         bar_in_tissue_name !! i = Some f1 →
       discovered_files (subset_dir_of (fresh "/data" "control" true))
         bar_in_tissue_name !! j = Some f2 →
       ff_content f1 = Some csv1 → ff_content f2 = Some csv2 →
       ff_tissue f1 = ff_tissue f2 → ff_gse f1 = ff_gse f2 →
       col ∈ (sample_cols csv1).*1 → col ∉ (sample_cols csv2).*1) ∧
    sample_id <$> infos = ["a|GSE1|UNKNOWN|c"; "a|GSE1|UNKNOWN|c"] ∧
    ¬ NoDup (sample_id <$> infos).
Proof.
  eexists _, _, _. split; [by vm_compute|]. split; [by vm_compute|].
  split; [|split; [|split]].
  - intros f csv Hf Hc. vm_compute in Hf.
    apply elem_of_cons in Hf as [->|Hf];
      [|apply elem_of_cons in Hf as [->|Hf]; [|by apply elem_of_nil in Hf]];
      injection Hc as <-; apply NoDup_singleton.
  - intros [|[|i]] [|[|j]] f1 f2 csv1 csv2 col Hij H1 H2 _ _ Ht;
      vm_compute in H1, H2; try done;
      injection H1 as <-; injection H2 as <-; done.
  - by vm_compute.
  - intros Hnd. vm_compute in Hnd. apply NoDup_cons in Hnd as [Hnd _].
    apply Hnd. left.
Qed.

(** C10 as stated fails for a metadata table with a repeated index
    label: the index holds the only column of the matrix, the second
    table has the rows of the first in the other order, and the labels
    differ. *)
Lemma row_order_counterexample :
  pd.columns one_sample ⊆ index two_rows_for_s ∧
  rows two_rows_for_s_exchanged ≡ₚ rows two_rows_for_s ∧
  ExpressionDataset.y
    (dataset_of (ExpressionDataset.__init__ one_sample two_rows_for_s "tissue"))
    = [1; 0] ∧
  ExpressionDataset.y
    (dataset_of (ExpressionDataset.__init__ one_sample
                   two_rows_for_s_exchanged "tissue"))
    = [0; 1] ∧
  ExpressionDataset.__init__ one_sample two_rows_for_s_exchanged "tissue"
  ≠ ExpressionDataset.__init__ one_sample two_rows_for_s "tissue".
Proof.
  split; [|split; [|split; [|split]]].
  - intros s Hs. vm_compute in Hs.
    apply list_elem_of_singleton in Hs as ->. left.
  - vm_compute. apply perm_swap.
  - by vm_compute.
  - by vm_compute.
  - by vm_compute.
Qed.

(** * The theorems at concrete inputs *)

(** C1 on the end-to-end scenario, whose sample identifiers are distinct. *)
Lemma alignment_of_metadata_witness :
  __init__ (Some scenario) "/data" "control" true = Ok scenario_loader ∧
  NoDup (pd.columns (frame_of (counts scenario_loader))) ∧
  ∃ c m, counts scenario_loader = Some c ∧ metadata scenario_loader = Some m ∧
         samples scenario_loader = Some (pd.columns c) ∧
         (NoDup (pd.columns c) → index m = pd.columns c).
Proof.
  split; [by vm_compute|]. split; [by vm_compute; repeat constructor; set_solver|].
  apply (alignment_of_metadata (Some scenario) "/data" "control" true).
  by vm_compute.
Defined.



(** C4 on the loaded scenario with the accession as label column. *)
Lemma labels_in_sorted_category_order_witness :
  ExpressionDataset.__init__ (frame_of (counts scenario_loader))
    (frame_of (metadata scenario_loader)) "gse_accession"
  = Ok scenario_dataset ∧
  ∃ labels,
    pd.getitem "gse_accession" (ExpressionDataset.metadata scenario_dataset)
      = Ok labels ∧
    Sorted String.le (ExpressionDataset.label_categories scenario_dataset) ∧
    NoDup (ExpressionDataset.label_categories scenario_dataset) ∧
    (∀ v, v ∈ ExpressionDataset.label_categories scenario_dataset
          ↔ Some v ∈ labels) ∧
    length (ExpressionDataset.y scenario_dataset) = length labels ∧
    (∀ i v, labels !! i = Some (Some v) →
       ∃ k, ExpressionDataset.y scenario_dataset !! i = Some (Z.of_nat k) ∧
            ExpressionDataset.label_categories scenario_dataset !! k = Some v ∧
            ExpressionDataset.label_to_name scenario_dataset (Z.of_nat k)
              = Ok v) ∧
    (∀ i, labels !! i = Some None →
          ExpressionDataset.y scenario_dataset !! i = Some (-1)) ∧
    (∀ k, (k < length (ExpressionDataset.label_categories scenario_dataset))%nat →
          ∃ i, ExpressionDataset.y scenario_dataset !! i = Some (Z.of_nat k)).
Proof.
  split; [by vm_compute|].
  apply (labels_in_sorted_category_order (frame_of (counts scenario_loader))
           (frame_of (metadata scenario_loader)) "gse_accession").
  by vm_compute.
Defined.

(** C5 on the end-to-end scenario. *)
Lemma sample_ids_pairwise_distinct_witness :
  discover (Some scenario) (fresh "/data" "control" true)
    = Ok (scenario_per_file.1, scenario_per_file.2) ∧
  sample_id <$> scenario_per_file.2
    = ["berry|GSE200|b1"; "leaf|GSE100|s1"; "leaf|GSE100|s2"] ∧
  NoDup (sample_id <$> scenario_per_file.2).
Proof.
  split; [by vm_compute|]. split; [by vm_compute|].
  apply (sample_ids_pairwise_distinct scenario "/data" "control" true
           (scenario_per_file.1) (scenario_per_file.2)).
  - by vm_compute.
  - intros f Hf. vm_compute in Hf.
    apply elem_of_cons in Hf as [->|Hf];
      [|apply elem_of_cons in Hf as [->|Hf]; [|by apply elem_of_nil in Hf]];
      by vm_compute.
  - intros f csv Hf Hc. vm_compute in Hf.
    apply elem_of_cons in Hf as [->|Hf];
      [|apply elem_of_cons in Hf as [->|Hf]; [|by apply elem_of_nil in Hf]];
      injection Hc as <-; apply (bool_decide_unpack _); by vm_compute.
  - intros [|[|i]] [|[|j]] f1 f2 csv1 csv2 col Hij H1 H2 _ _ Ht;
      vm_compute in H1, H2; try done;
      injection H1 as <-; injection H2 as <-; done.
Defined.

(** C6 on the end-to-end scenario, enumerated leaf first and berry first. *)
Lemma load_is_deterministic_witness :
  unique_names scenario ∧ reordered scenario scenario_reordered ∧
  __init__ (Some scenario_reordered) "/data" "control" true
  = __init__ (Some scenario) "/data" "control" true.
Proof.
  assert (unique_names scenario) as Hnames.
  { split; [apply (bool_decide_unpack _); by vm_compute|].
    intros t td Ht. vm_compute in Ht.
    apply elem_of_cons in Ht as [[= -> ->]|Ht];
      [|apply elem_of_cons in Ht as [[= -> ->]|Ht];
        [|by apply elem_of_nil in Ht]];
      apply NoDup_singleton. }
  assert (reordered scenario scenario_reordered) as Hre.
  { exists scenario_reordered. split; [apply perm_swap|].
    repeat constructor. }
  split; [done|]. split; [done|].
  by apply (load_is_deterministic scenario scenario_reordered
              "/data" "control" true).
Defined.

(** C7 on a tissue directory that holds a file without sample columns. *)
Lemma malformed_input_aborts_load_witness :
  (shape1 no_sample_columns < 2)%nat ∧
  _load_single_file (Some no_sample_columns) "/data/leaf/GSE7_empty.txt"
    "leaf" "control" = Raise ValueError_no_sample_columns ∧
  ∃ e, __init__ (Some malformed_tree) "/data" "control" true = Raise e.
Proof.
  split; [by vm_compute|]. split.
  - apply (proj1 malformed_input_aborts_load). exists no_sample_columns.
    split; [done|by vm_compute].
  - apply (proj2 malformed_input_aborts_load malformed_tree "/data" "control"
             true "leaf"
             [("GSE100_control.txt", Some leaf_csv);
              ("GSE7_empty.txt", Some no_sample_columns)]
             "GSE7_empty.txt" no_sample_columns).
    + apply (bool_decide_unpack _). by vm_compute.
    + apply (bool_decide_unpack _). by vm_compute.
    + left.
    + right. left.
    + by vm_compute.
    + by vm_compute.
Defined.

(** C10 on a table of three rows, reordered and extended by a row for an unknown sample. *)
Lemma dataset_ignores_row_order_witness :
  NoDup (index three_rows) ∧
  rows four_rows_reordered
    ≡ₚ rows three_rows ++ [("zz", [Some (Some "root"); Some None])] ∧
  ExpressionDataset.__init__ three_samples four_rows_reordered "tissue"
  = ExpressionDataset.__init__ three_samples three_rows "tissue" ∧
  ExpressionDataset.y
    (dataset_of (ExpressionDataset.__init__ three_samples three_rows "tissue"))
  = [1; 0; 1].
Proof.
  assert (NoDup (index three_rows)) as Hnd
    by (apply (bool_decide_unpack _); by vm_compute).
  assert (rows four_rows_reordered
            ≡ₚ rows three_rows ++ [("zz", [Some (Some "root"); Some None])])
    as Hperm.
  { vm_compute. apply (Permutation_app_comm [_; _] [_; _]). }
  split; [done|]. split; [done|]. split; [|by vm_compute].
  apply (dataset_ignores_row_order three_samples three_rows
           four_rows_reordered
           [("zz", [Some (Some "root"); Some None])] "tissue");
    [done|by vm_compute|done|].
  intros e ->%list_elem_of_singleton. vm_compute.
  intros H. repeat (apply elem_of_cons in H as [H|H]; [done|]).
  by apply elem_of_nil in H.
Defined.


(** C9 on a name that holds both keywords. *)
Lemma parse_cultivar_first_keyword_witness :
  occurs_ignoring_case "mueller" "GSE5_Regent_x_MUELLER.txt" ∧
  _parse_cultivar_from_filename "GSE5_Regent_x_MUELLER.txt" = Some "mueller".
Proof.
  assert (occurs_ignoring_case "mueller" "GSE5_Regent_x_MUELLER.txt") as H.
  { by exists "GSE5_Regent_x_", "MUELLER", ".txt". }
  split; [done|].
  by apply (proj1 (parse_cultivar_first_keyword "GSE5_Regent_x_MUELLER.txt")).
Defined.

(** * Further properties of the loader *)

(** ** Outcome of the construction *)

Lemma load_found_Ok_iff (condition : string) (f : found_file) :
  (∃ r, load_found condition f = Ok r) ↔ loadable f.
Proof.
  unfold load_found, loadable. split.
  - intros [[df infos] Hr]. destruct (ff_content f) as [csv|]; [|done].
    apply load_single_file_Ok in Hr as (? & ? & _). by exists csv.
  - intros (csv & -> & Hne & HG). eexists (_, _).
    apply load_single_file_Ok. by repeat split.
Qed.



Lemma load_each_Raise (condition : string) (fs : list found_file)
    (acc : loaded) (e : exn) :
  load_each condition fs acc = Raise e ↔
  ∃ l1 f l2, fs = l1 ++ f :: l2 ∧ Forall loadable l1 ∧
             load_found condition f = Raise e.
Proof.
  revert acc. induction fs as [|f fs IH]; intros acc; simpl.
  - split; [done|]. intros (l1 & f & l2 & Heq & _). by destruct l1.
  - destruct (load_found condition f) as [r|e'] eqn:Hf; simpl.
    + rewrite IH. split.
      * intros (l1 & f' & l2 & -> & Hl1 & Hf'). exists (f :: l1), f', l2.
        split; [done|]. split; [|done]. constructor; [|done].
        apply (load_found_Ok_iff condition). by exists r.
      * intros ([|f0 l1] & f' & l2 & Heq & Hl1 & Hf'); simplify_eq/=.
        { congruence. }
        apply Forall_cons in Hl1 as [_ Hl1]. by exists l1, f', l2.
    + split.
      * intros [= <-]. by exists [], f, fs.
      * intros ([|f0 l1] & f' & l2 & Heq & Hl1 & Hf'); simplify_eq/=.
        { congruence. }
        apply Forall_cons in Hl1 as [Hf0 _].
        apply (load_found_Ok_iff condition) in Hf0 as [r Hr]. congruence.
Qed.



Lemma concat_axis1_total (dfs : list (DataFrame cell)) :
  dfs ≠ [] → Forall (λ df, NoDup (index df)) dfs →
  ∃ c, pd.concat_axis1 dfs = Ok c.
Proof.
  intros Hne Hnd. destruct dfs as [|df0 rest]; [done|].
  unfold pd.concat_axis1. case_bool_decide; [by eexists|].
  rewrite bool_decide_eq_true_2 by done. by eexists.
Qed.

Lemma restrict_genes_NoDup (flag : bool) (dfs dfs' : list (DataFrame cell)) :
  dfs ≠ [] → Forall (λ df, NoDup (index df)) dfs →
  restrict_genes flag dfs = Ok dfs' →
  Forall (λ df, NoDup (index df)) dfs'.
Proof.
  intros Hne Hnd Hres. destruct flag; [|by injection Hres as <-].
  apply restrict_genes_intersect in Hres as (labels & Hidx & _ & Hl & _);
    [|done..].
  eapply Forall_impl; [done|]. by intros df ->.
Qed.

(** After the loops nothing but the two [RuntimeError]s can be raised:
    the selection of the common genes, the concatenation and the
    alignment of the metadata always go through. *)
Lemma assemble_total (fs : option SubsetDir) (self : VitisExpressionData)
    (dfs dfs' : list (DataFrame cell)) (infos : list VitisSampleInfo) :
  discover fs self = Ok (dfs, infos) → dfs ≠ [] →
  restrict_genes (intersect_genes self) dfs = Ok dfs' →
  ∃ self', _load_all fs self = Ok self'.
Proof.
  intros Hdisc Hne Hres.
  pose proof (discover_facts _ _ _ _ Hdisc) as (Hnd & Hcols & Hinfos).
  destruct (concat_axis1_total dfs') as [c Hc].
  { by eapply restrict_genes_nonempty. }
  { by eapply restrict_genes_NoDup. }
  assert (∃ m0, frame_of_infos infos = Ok m0 ∧ index m0 = sample_id <$> infos)
    as (m0 & Hm0 & Hidx).
  { specialize (Hinfos Hne). destruct infos; [done|]. by eexists. }
  assert (pd.columns c = index m0) as Hcm.
  { rewrite (concat_axis1_columns _ _ Hc).
    by rewrite (restrict_genes_columns _ _ _ Hres), Hcols, Hidx. }
  destruct (get_indexer_total (index m0) (pd.columns c)) as [ps Hps].
  { rewrite Hcm. apply Forall_forall. auto. }
  unfold _load_all. rewrite Hdisc. cbn [mbind result_bind].
  destruct dfs as [|df0 rest] eqn:Hdfs; [done|]. rewrite <-Hdfs in *.
  rewrite Hres. cbn [mbind result_bind]. rewrite Hc. cbn [mbind result_bind].
  rewrite Hm0. cbn [mbind result_bind]. unfold pd.loc. rewrite Hps.
  by eexists.
Qed.






(** X4.  The first file, in discovery order, that cannot be loaded
    decides the exception of the construction: what
    [_load_single_file] raises on it is what the construction raises,
    whatever comes after it. *)
Theorem first_failing_file_decides (d : SubsetDir)
    (data_root subset : string) (flag : bool)
    (l1 l2 : list found_file) (f : found_file) (e : exn) :
  discovered_files (subset_dir_of (fresh data_root subset flag)) d
    = l1 ++ f :: l2 →
  Forall loadable l1 →
  _load_single_file (ff_content f) (ff_path f) (ff_tissue f) subset = Raise e →
  __init__ (Some d) data_root subset flag = Raise e.
Proof.
  intros Heq Hl1 Hf. unfold __init__, _load_all.
  fold (fresh data_root subset flag).
  assert (discover (Some d) (fresh data_root subset flag) = Raise e)
    as ->; [|done].
  rewrite discover_eq. apply load_each_Raise. exists l1, f, l2.
  split; [done|]. split; [done|]. exact Hf.
Qed.


Lemma first_failing_file_decides_witness :
  discovered_files (subset_dir_of (fresh "/data" "control" true)) malformed_tree
  = [mkFound "leaf" "GSE100_control.txt"
       "/data/vitis_vinifera/control/leaf/GSE100_control.txt" (Some leaf_csv)]
    ++ mkFound "leaf" "GSE7_empty.txt"
         "/data/vitis_vinifera/control/leaf/GSE7_empty.txt"
         (Some no_sample_columns) :: [] ∧
  __init__ (Some malformed_tree) "/data" "control" true
  = Raise ValueError_no_sample_columns.
Proof.
  split; [by vm_compute|].
  apply (first_failing_file_decides malformed_tree "/data" "control" true
           [mkFound "leaf" "GSE100_control.txt"
              "/data/vitis_vinifera/control/leaf/GSE100_control.txt"
              (Some leaf_csv)]
           []
           (mkFound "leaf" "GSE7_empty.txt"
              "/data/vitis_vinifera/control/leaf/GSE7_empty.txt"
              (Some no_sample_columns))).
  - by vm_compute.
  - constructor; [|constructor]. exists leaf_csv. split; [done|].
    split; [done|]. vm_compute. intros H.
    repeat (apply elem_of_cons in H as [H|H]; [done|]).
    by apply elem_of_nil in H.
  - by vm_compute.
Defined.

(** ** Entries the loops pass over *)

Lemma sorted_insert (n : string) (names : list string) :
  ∃ l1 l2, sorted (n :: names) = l1 ++ n :: l2 ∧ sorted names = l1 ++ l2.
Proof.
  assert (n ∈ sorted (n :: names)) as Hn by (apply elem_of_sorted; left).
  destruct (list_elem_of_split _ _ Hn) as (l1 & l2 & Heq).
  exists l1, l2. split; [done|].
  pose proof (StronglySorted_merge_sort String.le (n :: names)) as Hs.
  fold (sorted (n :: names)) in Hs. rewrite Heq in Hs.
  apply StronglySorted_app in Hs as (H1 & H2 & [H3 H4]%StronglySorted_cons).
  apply (StronglySorted_unique String.le).
  - apply (StronglySorted_merge_sort String.le names).
  - apply StronglySorted_app_2; [|done..].
    intros x1 x2 Hx1 Hx2. apply H1; [done|by right].
  - apply (Permutation_cons_inv (a := n)).
    rewrite Permutation_middle, <-Heq. unfold sorted.
    by rewrite !merge_sort_Permutation.
Qed.

Lemma files_in_skips (tissue_dir tissue fname : string)
    (content : option CsvFrame) (td : TissueDir) :
  fname ∉ listdir td → is_txt fname = false →
  files_in tissue_dir tissue ((fname, content) :: td)
  = files_in tissue_dir tissue td.
Proof.
  intros Hfresh Htxt. unfold files_in.
  destruct (sorted_insert fname (listdir td)) as (l1 & l2 & Hs1 & Hs2).
  change (listdir ((fname, content) :: td)) with (fname :: listdir td).
  rewrite Hs1, Hs2, !filter_app, filter_cons, decide_False by congruence.
  apply list_fmap_ext. intros i n Hn. f_equal. simpl.
  rewrite decide_False; [done|]. intros <-.
  apply list_elem_of_lookup_2, elem_of_app in Hn as [Hn|Hn];
    apply list_elem_of_filter in Hn as [Hn _]; congruence.
Qed.

Lemma files_in_nil (tissue_dir tissue : string) (td : TissueDir) :
  Forall (λ n, is_txt n = false) (listdir td) →
  files_in tissue_dir tissue td = [].
Proof.
  intros Hall. unfold files_in.
  assert (filter (λ n, is_txt n = true) (sorted (listdir td)) = []) as ->;
    [|done].
  destruct (filter _ _) as [|n l] eqn:Hf; [done|].
  assert (n ∈ filter (λ n, is_txt n = true) (sorted (listdir td))) as Hn
    by (rewrite Hf; left).
  apply list_elem_of_filter in Hn as [Htxt Hn].
  apply (proj1 (elem_of_sorted _ _)) in Hn.
  apply (proj1 (Forall_forall _ _) Hall) in Hn. congruence.
Qed.

Lemma discovered_files_skips (subset_dir name : string)
    (x : option TissueDir) (d : SubsetDir) :
  name ∉ listdir d →
  (∀ td, x = Some td → Forall (λ n, is_txt n = false) (listdir td)) →
  discovered_files subset_dir ((name, x) :: d) = discovered_files subset_dir d.
Proof.
  intros Hfresh Hx. unfold discovered_files.
  destruct (sorted_insert name (listdir d)) as (l1 & l2 & Hs1 & Hs2).
  change (listdir ((name, x) :: d)) with (name :: listdir d).
  rewrite Hs1, Hs2, !bind_app, bind_cons.
  assert (tissue_files subset_dir ((name, x) :: d) name = []) as ->.
  { unfold tissue_files. simpl. rewrite decide_True by done. simpl.
    destruct x as [td|]; [|done]. by apply files_in_nil, Hx. }
  assert (∀ t, t ∈ l1 ++ l2 →
            tissue_files subset_dir ((name, x) :: d) t
            = tissue_files subset_dir d t) as Hother.
  { intros t Ht. unfold tissue_files. simpl.
    rewrite decide_False; [done|]. intros <-. apply Hfresh.
    rewrite <-Hs2 in Ht. by apply (proj1 (elem_of_sorted _ _)) in Ht. }
  simpl. f_equal; apply bind_ext_elem; intros t Ht; apply Hother;
    apply elem_of_app; auto.
Qed.

Lemma lookup_entry_app {A} (d1 d2 : list (string * A)) (n : string) :
  lookup_entry (d1 ++ d2) n
  = match lookup_entry d1 n with
    | Some x => Some x
    | None => lookup_entry d2 n
    end.
Proof.
  induction d1 as [|[n' x'] d1 IH]; [done|]. simpl. by case_decide.
Qed.

Lemma discovered_files_skips_file (subset_dir tissue fname : string)
    (content : option CsvFrame) (td : TissueDir) (d1 d2 : SubsetDir) :
  fname ∉ listdir td → is_txt fname = false →
  discovered_files subset_dir
    (d1 ++ (tissue, Some ((fname, content) :: td)) :: d2)
  = discovered_files subset_dir (d1 ++ (tissue, Some td) :: d2).
Proof.
  intros Hfresh Htxt. unfold discovered_files.
  assert (listdir (d1 ++ (tissue, Some ((fname, content) :: td)) :: d2)
          = listdir (d1 ++ (tissue, Some td) :: d2)) as ->.
  { unfold listdir. by rewrite !fmap_app, !fmap_cons. }
  apply list_bind_ext; [|done]. intros t. unfold tissue_files.
  rewrite !lookup_entry_app. destruct (lookup_entry d1 t); [done|].
  simpl. case_decide; [|done]. simpl. subst. by apply files_in_skips.
Qed.

(** X5.  What the loops pass over does not influence the load.  Beside
    the tissue directories the subset directory may hold a further
    entry that is not a directory, or a directory in which no name ends
    in ".txt"; and a tissue directory may hold a further file whose name
    does not end in ".txt": the construction has the same outcome with
    and without it. *)
Theorem ignored_entries (data_root subset : string) (flag : bool) :
  (∀ d name x,
     name ∉ listdir d →
     (∀ td, x = Some td → Forall (λ n, is_txt n = false) (listdir td)) →
     __init__ (Some ((name, x) :: d)) data_root subset flag
     = __init__ (Some d) data_root subset flag) ∧
  (∀ d1 d2 tissue td fname content,
     fname ∉ listdir td → is_txt fname = false →
     __init__ (Some (d1 ++ (tissue, Some ((fname, content) :: td)) :: d2))
       data_root subset flag
     = __init__ (Some (d1 ++ (tissue, Some td) :: d2)) data_root subset flag).
Proof.
  split.
  - intros d name x Hfresh Hx. unfold __init__, _load_all.
    by rewrite !discover_eq, discovered_files_skips.
  - intros d1 d2 tissue td fname content Hfresh Htxt.
    unfold __init__, _load_all.
    by rewrite !discover_eq, discovered_files_skips_file.
Qed.

(** X5 on the end-to-end scenario with a plain file, an empty
    directory and a file of another extension added. *)
Lemma ignored_entries_witness :
  __init__ (Some scenario_with_clutter) "/data" "control" true
  = __init__ (Some scenario) "/data" "control" true.
Proof.
  assert (∀ (n : string) (l : list string),
            bool_decide (n ∈ l) = false → n ∉ l) as Hnotin.
  { intros n l H Hin. by rewrite bool_decide_eq_true_2 in H. }
  etrans.
  { apply (proj1 (ignored_entries "/data" "control" true)
             [("leaf", Some [("notes.csv", None);
                             ("GSE100_control.txt", Some leaf_csv)]);
              ("empty", Some [("todo.doc", None)]);
              ("berry", Some [("GSE200_control.txt", Some berry_csv)])]
             "README.md" None); [|done].
    apply Hnotin. by vm_compute. }
  etrans.
  { apply (proj2 (ignored_entries "/data" "control" true) []
             [("empty", Some [("todo.doc", None)]);
              ("berry", Some [("GSE200_control.txt", Some berry_csv)])]
             "leaf" [("GSE100_control.txt", Some leaf_csv)] "notes.csv" None);
      [|by vm_compute].
    apply Hnotin. by vm_compute. }
  by vm_compute.
Defined.

(** ** The sample records and the metadata table *)

(** X6.  Every sample record is consistent with itself and with the
    file it comes from: its identifier is its tissue, its accession and
    its original column name joined by "|"; its condition is the subset
    name; accession and cultivar are what the two parsers read off the
    base name of its file path; and tissue, path and column name are
    those of a discovered file. *)
Theorem records_are_consistent (fs : option SubsetDir)
    (data_root subset : string) (flag : bool)
    (dfs : list (DataFrame cell)) (infos : list VitisSampleInfo) :
  discover fs (fresh data_root subset flag) = Ok (dfs, infos) →
  Forall (λ r,
    sample_id r
      = tissue r +:+ "|" +:+ gse_accession r +:+ "|" +:+ original_name r ∧
    condition r = subset ∧
    gse_accession r
      = _parse_gse_from_filename (os_path.basename (file_path r)) ∧
    cultivar r
      = _parse_cultivar_from_filename (os_path.basename (file_path r)) ∧
    ∃ d f csv,
      fs = Some d ∧
      f ∈ discovered_files (subset_dir_of (fresh data_root subset flag)) d ∧
      ff_content f = Some csv ∧
      tissue r = ff_tissue f ∧ file_path r = ff_path f ∧
      original_name r ∈ (sample_cols csv).*1) infos.
Proof.
  intros (d & rs & -> & Hrs & _ & ->)%discover_Ok.
  apply Forall_forall. intros r (l & Hr & Hl)%elem_of_concat.
  apply list_elem_of_fmap in Hl as ([df infos] & -> & Hin).
  apply list_elem_of_lookup in Hin as [i Hi].
  destruct (Forall2_lookup_r _ _ _ _ _ Hrs Hi) as (f & Hf & Hload).
  apply load_found_Ok in Hload as (csv & Hc & _ & _ & _ & _ & Hinfos).
  simpl in Hr, Hinfos. subst infos.
  apply list_elem_of_fmap in Hr as (col & -> & Hcol).
  repeat split. exists d, f, csv. repeat split; try done.
  by eapply list_elem_of_lookup_2.
Qed.

Lemma get_indexer_take_self {A} (idx : list string) (ps : list nat)
    (vs : list A) :
  NoDup idx → Forall2 (λ l p, idx !! p = Some l) idx ps →
  length vs = length idx → pd.take ps vs = vs.
Proof.
  intros Hnd Hps Hlen. apply take_lookups.
  apply Forall2_same_length_lookup. split.
  { rewrite Hlen. by eapply Forall2_length. }
  intros i x p Hx Hp.
  destruct (Forall2_lookup_r _ _ _ _ _ Hps Hp) as (l & Hl & Hlp).
  by rewrite (NoDup_lookup _ _ _ _ Hnd Hlp Hl).
Qed.

Lemma loc_self {V} (df : DataFrame V) :
  NoDup (index df) → rectangular df → pd.loc (index df) df = Ok df.
Proof.
  intros Hnd Hrect.
  destruct (get_indexer_total (index df) (index df)) as [ps Hps].
  { apply Forall_forall. auto. }
  unfold pd.loc. rewrite Hps. simpl. f_equal.
  pose proof (get_indexer_NoDup _ _ _ Hnd Hps) as Hall.
  destruct df as [idx ser]. unfold pd.take_rows. simpl in *. f_equal.
  - by apply (get_indexer_take_self idx).
  - rewrite <-(list_fmap_id ser) at 2. apply list_fmap_ext.
    intros i [n v] Hi. simpl. f_equal.
    apply (get_indexer_take_self idx); [done..|].
    by apply (proj1 (Forall_forall _ _) Hrect (n, v)), list_elem_of_lookup_2
      with i.
Qed.

Lemma frame_of_infos_rectangular (infos : list VitisSampleInfo)
    (m0 : DataFrame (option string)) :
  frame_of_infos infos = Ok m0 → rectangular m0.
Proof.
  unfold frame_of_infos. destruct infos as [|i0 l] eqn:E; [done|].
  rewrite <-E. clear E. intros Heq.
  assert (m0 = {| index := sample_id <$> infos;
                  series :=
                    [ ("original_name", (Some ∘ original_name) <$> infos);
                      ("tissue", (Some ∘ tissue) <$> infos);
                      ("condition", (Some ∘ condition) <$> infos);
                      ("gse_accession", (Some ∘ gse_accession) <$> infos);
                      ("cultivar", cultivar <$> infos);
                      ("file_path", (Some ∘ file_path) <$> infos) ] |})
    as -> by congruence.
  apply Forall_forall. intros c Hc. cbn [index series] in *.
  repeat (apply elem_of_cons in Hc as [->|Hc]);
    [..|by apply elem_of_nil in Hc];
    cbn [snd]; by rewrite !length_fmap.
Qed.

(** X7.  When the sample identifiers are pairwise distinct, the metadata
    table of the loader is exactly the table of the sample records in
    the order in which they were collected — one row per record, with
    the columns original_name, tissue, condition, gse_accession,
    cultivar, file_path — and the columns of the counts matrix are the
    identifiers of the records in that order: the final re-ordering of
    the metadata rows changes nothing. *)
Theorem metadata_is_table_of_records (fs : option SubsetDir)
    (data_root subset : string) (flag : bool) (self : VitisExpressionData)
    (dfs : list (DataFrame cell)) (infos : list VitisSampleInfo) :
  __init__ fs data_root subset flag = Ok self →
  discover fs (fresh data_root subset flag) = Ok (dfs, infos) →
  NoDup (sample_id <$> infos) →
  samples self = Some (sample_id <$> infos) ∧
  ∃ m, metadata self = Some m ∧ frame_of_infos infos = Ok m ∧
       index m = sample_id <$> infos ∧ rectangular m.
Proof.
  unfold __init__. fold (fresh data_root subset flag).
  intros Hload Hdisc Hnd. pose proof Hload as Hload'.
  apply load_all_Ok in Hload'
    as (dfs0 & infos0 & dfs' & c & m0 & m & Hdisc' & _ & _ & _ & Hm0 & Hm
        & Hc & Hmeta & _).
  rewrite Hdisc in Hdisc'. injection Hdisc' as <- <-.
  pose proof (load_all_columns _ _ _ _ _ _ Hload Hc Hdisc) as Hcols.
  pose proof (frame_of_infos_index _ _ Hm0) as Hidx.
  pose proof (frame_of_infos_rectangular _ _ Hm0) as Hrect.
  split; [unfold samples; by rewrite Hc, <-Hcols|].
  exists m0. rewrite Hcols, <-Hidx, loc_self in Hm by (by rewrite ?Hidx).
  injection Hm as <-. by repeat split.
Qed.

(** X6 and X7 on the end-to-end scenario. *)
Lemma records_are_consistent_witness :
  discover (Some scenario) (fresh "/data" "control" true)
    = Ok (scenario_per_file.1, scenario_per_file.2) ∧
  Forall (λ r,
    sample_id r
      = tissue r +:+ "|" +:+ gse_accession r +:+ "|" +:+ original_name r ∧
    condition r = "control") (scenario_per_file.2).
Proof.
  split; [by vm_compute|].
  eapply Forall_impl.
  - apply (records_are_consistent (Some scenario) "/data" "control" true
             (scenario_per_file.1) (scenario_per_file.2)).
    by vm_compute.
  - intros r (H1 & H2 & _). by split.
Defined.

Lemma metadata_is_table_of_records_witness :
  __init__ (Some scenario) "/data" "control" true = Ok scenario_loader ∧
  NoDup (sample_id <$> scenario_per_file.2) ∧
  samples scenario_loader = Some (sample_id <$> scenario_per_file.2) ∧
  ∃ m, metadata scenario_loader = Some m ∧
       frame_of_infos (scenario_per_file.2) = Ok m ∧
       index m = sample_id <$> scenario_per_file.2 ∧ rectangular m.
Proof.
  assert (NoDup (sample_id <$> scenario_per_file.2)) as Hnd
    by (apply (bool_decide_unpack _); by vm_compute).
  split; [by vm_compute|]. split; [done|].
  apply (metadata_is_table_of_records (Some scenario) "/data" "control" true
           scenario_loader (scenario_per_file.1) (scenario_per_file.2));
    [by vm_compute|by vm_compute|done].
Defined.

(** ** The order of the samples *)



Lemma discover_records (fs : option SubsetDir) (self : VitisExpressionData)
    (dfs : list (DataFrame cell)) (infos : list VitisSampleInfo) :
  discover fs self = Ok (dfs, infos) →
  ∃ d, fs = Some d ∧
       infos = discovered_files (subset_dir_of self) d
                 ≫= records_of_file (subset self).
Proof.
  intros (d & rs & -> & Hrs & _ & ->)%discover_Ok. exists d. split; [done|].
  induction Hrs as [|f r files rs Hr _ IH]; [done|].
  rewrite fmap_cons, bind_cons. cbn [concat]. rewrite IH. f_equal.
  apply load_found_Ok in Hr as (csv & Hc & _ & _ & _ & _ & ->).
  unfold records_of_file. by rewrite Hc.
Qed.



(** ** The cells of the counts matrix *)

Lemma index_of_NoDup (l : list string) (p : nat) (x : string) :
  NoDup l → l !! p = Some x → pd.index_of x l = Some p.
Proof.
  intros Hnd Hp.
  destruct (index_of_Some x l) as (k & -> & Hk);
    [by eapply list_elem_of_lookup_2|].
  by rewrite (NoDup_lookup _ _ _ _ Hnd Hk Hp).
Qed.

Lemma index_of_None (l : list string) (x : string) :
  x ∉ l → pd.index_of x l = None.
Proof.
  induction l as [|y l IH]; [done|]. intros [Hne Hx]%not_elem_of_cons.
  simpl. rewrite decide_False by done. by rewrite IH.
Qed.

Lemma file_cell_absent (csv : CsvFrame) (col : list cell) (g : string) :
  g ∉ gene_ids csv → file_cell csv col g = None.
Proof.
  intros Hg. unfold file_cell. case_decide.
  - by rewrite index_of_None.
  - by rewrite decide_False.
Qed.

Lemma positions_NoDup (idx : list string) (p : nat) (g : string) :
  NoDup idx → idx !! p = Some g → pd.positions g idx = [p].
Proof.
  intros Hnd Hp. unfold pd.positions.
  destruct (positions_from_NoDup 0 g idx Hnd) as [Hnil|(k & -> & Hk)].
  - by apply list_elem_of_lookup_2, (positions_from_elem 0) in Hp.
  - by rewrite (NoDup_lookup _ _ _ _ Hnd Hk Hp).
Qed.

Lemma frame_cell_present (df : DataFrame cell) (col : list cell)
    (p : nat) (g : string) (v : cell) :
  NoDup (index df) → index df !! p = Some g → col !! p = Some v →
  frame_cell df col g = v.
Proof.
  intros Hnd Hp Hv. unfold frame_cell.
  rewrite (positions_NoDup _ p g Hnd Hp). cbn beta iota.
  unfold cell in *. by rewrite Hv.
Qed.

Lemma frame_cell_absent (df : DataFrame cell) (col : list cell) (g : string) :
  g ∉ index df → frame_cell df col g = None.
Proof.
  intros Hg. unfold frame_cell, pd.positions.
  by rewrite positions_from_nil.
Qed.

Lemma take_valid {A} (ps : list nat) (vs : list A) :
  Forall (λ p, is_Some (vs !! p)) ps →
  length (pd.take ps vs) = length ps ∧
  ∀ i p, ps !! i = Some p → pd.take ps vs !! i = vs !! p.
Proof.
  unfold pd.take. induction 1 as [|p ps [v Hv] _ [IH1 IH2]]; [done|].
  cbn [omap list_omap]. rewrite Hv. simpl. split; [by rewrite IH1|].
  intros [|i] q Hq; simplify_eq/=; [done|]. by apply IH2.
Qed.

(** The frame of one file: names, shape and cells. *)
Lemma loaded_frame_cells (condition : string) (f : found_file)
    (r : DataFrame cell * list VitisSampleInfo) (csv : CsvFrame) :
  load_found condition f = Ok r → ff_content f = Some csv → regular csv →
  Forall2 (λ col col',
      col'.1 = make_sample_id (ff_tissue f) (ff_gse f) (col.1) ∧
      length (col'.2) = length (index (r.1)) ∧
      ∀ p g, index (r.1) !! p = Some g →
             col'.2 !! p = Some (file_cell csv (col.2) g))
    (sample_cols csv) (series (r.1)).
Proof.
  unfold load_found. intros Hload Hc Hreg. rewrite Hc in Hload.
  destruct r as [df infos].
  apply load_single_file_Ok in Hload as (_ & _ & -> & _). cbn [fst index series].
  destruct (decide (NoDup (gene_ids csv))) as [Hnd|Hnd].
  - rewrite indexed_frame_unique by done. cbn [index series].
    apply Forall2_fmap_r, Forall_Forall2_diag, Forall_forall.
    intros col Hcol. cbn [fst snd].
    pose proof (proj1 (Forall_forall _ _) Hreg col Hcol) as Hlen.
    cbn beta in Hlen.
    split; [done|]. split; [done|]. intros p g Hp. cbn [fst snd].
    destruct (lookup_lt_is_Some_2 (col.2) p) as [v Hv].
    { rewrite Hlen. by eapply lookup_lt_Some. }
    rewrite Hv. f_equal. unfold file_cell.
    rewrite decide_True by done.
    rewrite (index_of_NoDup _ p g Hnd Hp). simpl. unfold cell in *.
    by rewrite Hv.
  - rewrite indexed_frame_repeated by done.
    unfold pd.groupby_sum. cbn [index series].
    rewrite <-list_fmap_compose.
    apply Forall2_fmap_r, Forall_Forall2_diag, Forall_forall.
    intros col Hcol. cbn [fst snd compose].
    split; [done|]. split; [by rewrite length_fmap|]. intros p g Hp.
    cbn [fst snd]. rewrite list_lookup_fmap, Hp. simpl. do 2 f_equal.
    unfold file_cell. rewrite decide_False by done.
    rewrite decide_True by (by eapply elem_of_group_keys, list_elem_of_lookup_2).
    by rewrite group_sums_lookup.
Qed.

Lemma loaded_frame_rectangular (condition : string) (f : found_file)
    (r : DataFrame cell * list VitisSampleInfo) (csv : CsvFrame) :
  load_found condition f = Ok r → ff_content f = Some csv → regular csv →
  rectangular (r.1).
Proof.
  intros Hload Hc Hreg.
  pose proof (loaded_frame_cells _ _ _ _ Hload Hc Hreg) as Hcells.
  apply Forall_forall. intros col' Hcol'.
  apply list_elem_of_lookup in Hcol' as [j Hj].
  destruct (Forall2_lookup_r _ _ _ _ _ Hcells Hj) as (col & _ & _ & Hlen & _).
  done.
Qed.

Lemma loc_carries (labels : list string) (df df' : DataFrame cell) :
  NoDup (index df) → rectangular df → pd.loc labels df = Ok df' →
  Forall2 (carries labels df) (series df) (series df').
Proof.
  intros Hnd Hrect (ps & Hps & ->)%loc_Ok.
  pose proof (get_indexer_NoDup _ _ _ Hnd Hps) as Hall.
  unfold pd.take_rows. cbn [series].
  apply Forall2_fmap_r, Forall_Forall2_diag, Forall_forall.
  intros col Hcol. pose proof (proj1 (Forall_forall _ _) Hrect col Hcol) as Hlen.
  assert (Forall (λ p, is_Some (col.2 !! p)) ps) as Hvalid.
  { apply Forall_forall. intros p Hp. apply lookup_lt_is_Some. rewrite Hlen.
    apply list_elem_of_lookup in Hp as [i Hi].
    destruct (Forall2_lookup_r _ _ _ _ _ Hall Hi) as (l & _ & Hl).
    by eapply lookup_lt_Some. }
  destruct (take_valid ps (col.2) Hvalid) as [Hlen' Hget].
  split; [done|]. cbn [snd]. split.
  { rewrite Hlen'. symmetry. by eapply Forall2_length. }
  intros i g Hi.
  destruct (Forall2_lookup_l _ _ _ _ _ Hall Hi) as (p & Hp & Hg).
  rewrite (Hget i p Hp).
  destruct (proj1 (Forall_forall _ _) Hvalid p) as [v Hv];
    [by eapply list_elem_of_lookup_2|].
  rewrite Hv. f_equal. symmetry. by eapply frame_cell_present.
Qed.

Lemma same_index_carries (df : DataFrame cell) :
  NoDup (index df) → rectangular df →
  Forall2 (carries (index df) df) (series df) (series df).
Proof.
  intros Hnd Hrect. apply Forall_Forall2_diag, Forall_forall.
  intros col Hcol. pose proof (proj1 (Forall_forall _ _) Hrect col Hcol) as Hlen.
  split; [done|]. split; [done|]. intros i g Hi.
  destruct (lookup_lt_is_Some_2 (col.2) i) as [v Hv].
  { rewrite Hlen. by eapply lookup_lt_Some. }
  rewrite Hv. f_equal. symmetry. by eapply frame_cell_present.
Qed.

Lemma reindex_carries (idx : list string) (df : DataFrame cell) :
  Forall2 (carries idx df) (series df) (series (pd.reindex idx df)).
Proof.
  unfold pd.reindex. cbn [series].
  apply Forall2_fmap_r, Forall_Forall2_diag, Forall_forall.
  intros col _. split; [done|]. cbn [snd]. split; [by rewrite length_fmap|].
  intros i g Hi. by rewrite list_lookup_fmap, Hi.
Qed.

Lemma Forall2_compose {A B C} (P : A → B → Prop) (Q : B → C → Prop)
    (l1 : list A) (l2 : list B) (l3 : list C) :
  Forall2 P l1 l2 → Forall2 Q l2 l3 →
  Forall2 (λ x z, ∃ y, P x y ∧ Q y z) l1 l3.
Proof.
  intros H. revert l3. induction H as [|x y l1 l2 Hxy _ IH]; intros l3 HQ.
  - apply Forall2_nil_inv_l in HQ as ->. constructor.
  - apply Forall2_cons_inv_l in HQ as (z & l3' & Hyz & HQ & ->).
    constructor; [by exists y|by apply IH].
Qed.

(** The columns of the concatenated matrix, block by block. *)
Lemma assembly_blocks (flag : bool) (dfs dfs' : list (DataFrame cell))
    (c : DataFrame cell) :
  dfs ≠ [] → Forall (λ df, NoDup (index df)) dfs → Forall rectangular dfs →
  restrict_genes flag dfs = Ok dfs' → pd.concat_axis1 dfs' = Ok c →
  ∃ blocks, series c = concat blocks ∧
    Forall2 (λ df b, Forall2 (carries (index c) df) (series df) b) dfs blocks.
Proof.
  intros Hne Hnd Hrect Hres Hc. destruct flag.
  - pose proof Hres as Hres'.
    apply restrict_genes_intersect in Hres' as (labels & Hidx & _); [|done..].
    destruct (concat_axis1_same_index _ _ _ Hidx Hc) as [-> ->].
    exists (series <$> dfs'). split; [apply bind_concat|].
    unfold restrict_genes in Hres. destruct dfs as [|df0 rest]; [done|].
    case_bool_decide; [done|]. apply loc_all_Ok in Hres. clear Hc Hne.
    revert Hres Hidx Hnd Hrect. generalize (df0 :: rest) as l.
    generalize (sorted (elements (common_genes df0 rest))) as labels'.
    intros labels' l Hloc.
    induction Hloc as [|df df' l l' Hl _ IH]; intros Hidx Hnd Hrect;
      [constructor|].
    apply Forall_cons in Hidx as [Hi Hidx].
    apply Forall_cons in Hnd as [Hn Hnd].
    apply Forall_cons in Hrect as [Hr Hrect].
    rewrite fmap_cons. constructor; [|by apply IH].
    rewrite <-Hi, (loc_index_NoDup _ _ _ Hn Hl). by apply loc_carries.
  - injection Hres as <-.
    apply concat_axis1_Ok in Hc
      as (df0 & rest & Hdfs & [[Hsame ->]|(_ & _ & ->)]); cbn [index series].
    + exists (series <$> dfs). split; [apply bind_concat|].
      assert (Forall (λ df, index df = index df0) dfs) as Hall.
      { rewrite Hdfs. by constructor. }
      apply Forall2_fmap_same, Forall_forall. intros df Hdf.
      rewrite <-(proj1 (Forall_forall _ _) Hall df Hdf).
      apply same_index_carries.
      * by apply (proj1 (Forall_forall _ _) Hnd).
      * by apply (proj1 (Forall_forall _ _) Hrect).
    + eexists ((λ df, series (pd.reindex _ df)) <$> dfs).
      split; [apply bind_concat|].
      apply Forall2_fmap_same, Forall_forall. intros df _.
      apply reindex_carries.
Qed.

(** The columns of the counts matrix, file by file, and the genes of the
    intersection. *)
Lemma counts_blocks (d : SubsetDir) (data_root subset : string)
    (flag : bool) (self : VitisExpressionData) :
  __init__ (Some d) data_root subset flag = Ok self →
  Forall (λ f, ∀ csv, ff_content f = Some csv → regular csv)
    (discovered_files (subset_dir_of (fresh data_root subset flag)) d) →
  ∃ c blocks,
    counts self = Some c ∧ series c = concat blocks ∧
    Forall2 (λ f b, ∃ csv,
        ff_content f = Some csv ∧
        Forall2 (λ col col',
            col'.1 = make_sample_id (ff_tissue f) (ff_gse f) (col.1) ∧
            length (col'.2) = length (index c) ∧
            ∀ i g, index c !! i = Some g →
                   col'.2 !! i = Some (file_cell csv (col.2) g))
          (sample_cols csv) b)
      (discovered_files (subset_dir_of (fresh data_root subset flag)) d)
      blocks ∧
    (flag = true →
     ∀ g, g ∈ index c →
       Forall (has_gene g)
         (discovered_files (subset_dir_of (fresh data_root subset flag)) d)).
Proof.
  unfold __init__. fold (fresh data_root subset flag). intros Hload Hreg.
  apply load_all_Ok in Hload
    as (dfs & infos & dfs' & c & m0 & m & Hdisc & Hne & Hres & Hc & _ & _
        & Hcounts & _).
  pose proof (discover_facts _ _ _ _ Hdisc) as (Hnd & _ & _).
  apply discover_Ok in Hdisc as (d' & rs & [= <-] & Hrs & -> & _).
  set (files := discovered_files (subset_dir_of (fresh data_root subset flag)) d)
    in *.
  assert (Forall2 (λ f r, ∃ csv, ff_content f = Some csv ∧ regular csv ∧
                     load_found subset f = Ok r) files rs) as Hrs'.
  { apply Forall2_same_length_lookup. split; [by eapply Forall2_length|].
    intros i f r Hf Hr.
    destruct (Forall2_lookup_l _ _ _ _ _ Hrs Hf) as (r' & Hr' & Hload).
    assert (r' = r) as -> by congruence.
    pose proof Hload as Hload'.
    apply load_found_Ok in Hload' as (csv & Hcsv & _). exists csv.
    split; [done|]. split; [|done].
    eapply (proj1 (Forall_forall _ _) Hreg); [|done].
    by eapply list_elem_of_lookup_2. }
  assert (Forall rectangular rs.*1) as Hrect.
  { apply Forall_fmap, Forall_forall. intros r Hr.
    apply list_elem_of_lookup in Hr as [i Hi].
    destruct (Forall2_lookup_r _ _ _ _ _ Hrs' Hi)
      as (f & _ & csv & Hcsv & Hr & Hload).
    by eapply loaded_frame_rectangular. }
  destruct (assembly_blocks _ _ _ _ Hne Hnd Hrect Hres Hc)
    as (blocks & Hser & Hblocks).
  exists c, blocks. split; [done|]. split; [done|]. split; last first.
  { intros -> g Hg. cbn [intersect_genes fresh] in Hres.
    apply restrict_genes_intersect in Hres as (labels & Hidx & _ & _ & Hin);
      [|done..].
    destruct (concat_axis1_same_index _ _ _ Hidx Hc) as [Hic _].
    rewrite Hic in Hg. apply Hin in Hg.
    apply Forall_forall. intros f Hf.
    apply list_elem_of_lookup in Hf as [j Hj].
    destruct (Forall2_lookup_l _ _ _ _ _ Hrs' Hj)
      as (r & Hr & csv & Hcsv & _ & Hload).
    exists csv. split; [done|].
    apply load_found_Ok in Hload as (csv' & Hcsv' & _ & _ & Hgenes & _).
    assert (csv' = csv) as -> by congruence. apply Hgenes.
    apply (proj1 (Forall_forall _ _) Hg).
    apply list_elem_of_fmap. exists r. split; [done|].
    by eapply list_elem_of_lookup_2. }
  apply Forall2_fmap_l in Hblocks.
  pose proof (Forall2_compose _ _ _ _ _ Hrs' Hblocks) as Hcomp.
  eapply Forall2_impl; [exact Hcomp|]. clear Hcomp.
  intros f b (r & (csv & Hcsv & Hr & Hload) & Hb). exists csv.
  split; [done|].
  pose proof (loaded_frame_cells _ _ _ _ Hload Hcsv Hr) as Hcells.
  pose proof (load_found_Ok _ _ _ Hload) as (csv' & Hcsv' & _ & Hndr & Hin & _).
  assert (csv' = csv) as -> by congruence.
  pose proof (Forall2_compose _ _ _ _ _ Hcells Hb) as Hcomp.
  eapply Forall2_impl; [exact Hcomp|]. clear Hcomp.
  intros col col'' (col' & (Hname & Hlen & Hcell) & (Hname' & Hlen' & Hcell')).
  split; [by rewrite Hname'|]. split; [done|]. intros i g Hi.
  rewrite (Hcell' i g Hi). f_equal.
  destruct (decide (g ∈ index (r.1))) as [Hg|Hg].
  - apply list_elem_of_lookup in Hg as [p Hp].
    apply (frame_cell_present _ _ p); [done..|]. by apply Hcell.
  - rewrite frame_cell_absent by done. symmetry. apply file_cell_absent.
    by rewrite <-Hin.
Qed.




(** * Further properties of the dataset *)

(** ** Row selection and column access *)



Lemma filter_named_fmap {V W} (col : string) (g : list V → list W)
    (s : list (string * list V)) :
  filter (λ c, c.1 = col) ((λ c, (c.1, g (c.2))) <$> s)
  = (λ c, (c.1, g (c.2))) <$> filter (λ c, c.1 = col) s.
Proof.
  induction s as [|[n v] s IH]; [done|].
  rewrite fmap_cons, !filter_cons. cbn [fst snd].
  case_decide; [by rewrite fmap_cons, IH|done].
Qed.

Lemma getitem_take_rows {V} (col : string) (ps : list nat) (df : DataFrame V) :
  pd.getitem col (pd.take_rows ps df)
  = v ← pd.getitem col df; Ok (pd.take ps v).
Proof.
  unfold pd.getitem, pd.take_rows. cbn [series].
  rewrite (filter_named_fmap col (pd.take ps)).
  by destruct (filter _ (series df)) as [|c [|c' l]].
Qed.

Lemma getitem_cases {V} (col : string) (df : DataFrame V) :
  ((col ∉ pd.columns df) ∧ pd.getitem col df = Raise KeyError) ∨
  (col ∈ pd.columns df ∧
   ((∃ v, (col, v) ∈ series df ∧ pd.getitem col df = Ok v) ∨
    (¬ NoDup (pd.columns df) ∧ pd.getitem col df = Raise PandasError))).
Proof.
  unfold pd.getitem, pd.columns.
  induction (series df) as [|[n v] s IH]; [left; split; [apply not_elem_of_nil|done]|].
  rewrite filter_cons, fmap_cons. cbn [fst]. case_decide as Hn.
  - subst n. right. split; [left|].
    destruct IH as [[Hno Hk]|[Hin _]].
    + left. exists v. split; [left|]. revert Hk.
      by destruct (filter _ s) as [|c [|c' l]].
    + right. split; [by intros [? _]%NoDup_cons|].
      assert (filter (λ c : string * list V, c.1 = col) s ≠ []) as Hne.
      { apply list_elem_of_fmap in Hin as ([n' v'] & -> & Hin). intros Hnil.
        eapply (filter_nil_not_elem_of _ _ _ Hnil); [|done]. done. }
      by destruct (filter _ s) as [|c [|c' l]].
  - destruct IH as [[Hno Hk]|[Hin [(w & Hw & Hk)|[Hdup Hk]]]].
    + left. split; [|done]. apply not_elem_of_cons. split; [congruence|done].
    + right. split; [by right|]. left. exists w. split; [by right|done].
    + right. split; [by right|]. right. split; [|done].
      by intros [_ ?]%NoDup_cons.
Qed.


(** ** The constructor of the dataset *)




(** ** Subscripts *)

Lemma py_getitem_in_range {A} (l : list A) (i : Z) :
  - Z.of_nat (length l) ≤ i < Z.of_nat (length l) →
  ∃ x, py_getitem l i = Ok x ∧
       l !! Z.to_nat (if decide (i < 0) then i + Z.of_nat (length l) else i)
       = Some x.
Proof.
  intros Hi. unfold py_getitem. cbv zeta.
  destruct (decide (i < 0)).
  - rewrite decide_True by lia.
    destruct (lookup_lt_is_Some_2 l (Z.to_nat (i + Z.of_nat (length l))))
      as [x Hx]; [lia|].
    rewrite Hx. by exists x.
  - rewrite decide_True by lia.
    destruct (lookup_lt_is_Some_2 l (Z.to_nat i)) as [x Hx]; [lia|].
    rewrite Hx. by exists x.
Qed.

Lemma py_getitem_out_of_range {A} (l : list A) (i : Z) :
  ¬ (- Z.of_nat (length l) ≤ i < Z.of_nat (length l)) →
  py_getitem l i = Raise IndexError.
Proof.
  intros Hi. unfold py_getitem. cbv zeta.
  destruct (decide (i < 0)); by rewrite decide_False by lia.
Qed.

Lemma py_getitem_wraps {A} (l : list A) (i : Z) :
  0 ≤ i < Z.of_nat (length l) →
  py_getitem l (i - Z.of_nat (length l)) = py_getitem l i.
Proof.
  intros Hi. unfold py_getitem. cbv zeta.
  rewrite (decide_True (P := i - _ < 0)) by lia.
  rewrite (decide_False (P := i < 0)) by lia.
  rewrite !decide_True by lia. by replace (i - _ + _) with i by lia.
Qed.

(** ** The items of the dataset *)

Lemma dataset_aligned (counts_df : DataFrame cell)
    (metadata_df : DataFrame (option string)) (label_col : string)
    (ds : ExpressionDataset.t) :
  ExpressionDataset.__init__ counts_df metadata_df label_col = Ok ds →
  NoDup (index metadata_df) → rectangular metadata_df →
  ∃ ps labels,
    Forall2 (λ s p, index metadata_df !! p = Some s) (pd.columns counts_df) ps ∧
    pd.getitem label_col metadata_df = Ok labels ∧
    length labels = length (index metadata_df) ∧
    ds = ExpressionDataset.mk (series counts_df).*2 (pd.columns counts_df)
           (pd.take_rows ps metadata_df) label_col
           (pd.categories (pd.take ps labels)) (pd.codes (pd.take ps labels)) ∧
    length (pd.take ps labels) = length (pd.columns counts_df) ∧
    ∀ i p, ps !! i = Some p → pd.take ps labels !! i = labels !! p.
Proof.
  intros (al & labels' & Hloc & Hget & ->)%dataset_init_Ok Hnd Hrect.
  apply loc_Ok in Hloc as (ps & Hps & ->).
  rewrite getitem_take_rows in Hget.
  pose proof (get_indexer_NoDup _ _ _ Hnd Hps) as Hall.
  destruct (getitem_cases label_col metadata_df)
    as [[_ Hk]|[_ [(labels & Hin & Hk)|(_ & Hk)]]];
    rewrite Hk in Hget; [done| |done].
  injection Hget as <-. exists ps, labels.
  pose proof (proj1 (Forall_forall _ _) Hrect _ Hin) as Hlen. cbn in Hlen.
  assert (Forall (λ p, is_Some (labels !! p)) ps) as Hvalid.
  { apply Forall_forall. intros p Hp. apply lookup_lt_is_Some. rewrite Hlen.
    apply list_elem_of_lookup in Hp as [i Hi].
    destruct (Forall2_lookup_r _ _ _ _ _ Hall Hi) as (l & _ & Hl).
    by eapply lookup_lt_Some. }
  destruct (take_valid ps labels Hvalid) as [Hlen' Hget].
  repeat split; try done.
  rewrite Hlen'. symmetry. by eapply Forall2_length.
Qed.

(** X11.  The subscripts of the dataset.  Built from a metadata table
    with one row per label, the dataset has one item per column of the
    counts matrix; [ds[idx]] is defined exactly for
    [-len(ds) ≤ idx < len(ds)] and raises [IndexError] otherwise; and a
    negative subscript counts from the end: [ds[idx - len(ds)]] is
    [ds[idx]]. *)
Theorem getitem_range (counts_df : DataFrame cell)
    (metadata_df : DataFrame (option string)) (label_col : string)
    (ds : ExpressionDataset.t) :
  ExpressionDataset.__init__ counts_df metadata_df label_col = Ok ds →
  NoDup (index metadata_df) → rectangular metadata_df →
  let n := Z.of_nat (ExpressionDataset.__len__ ds) in
  ExpressionDataset.__len__ ds = length (pd.columns counts_df) ∧
  (∀ idx, (∃ item, ExpressionDataset.__getitem__ ds idx = Ok item) ↔
          - n ≤ idx < n) ∧
  (∀ idx, ¬ (- n ≤ idx < n) →
          ExpressionDataset.__getitem__ ds idx = Raise IndexError) ∧
  (∀ idx, 0 ≤ idx < n →
          ExpressionDataset.__getitem__ ds (idx - n)
          = ExpressionDataset.__getitem__ ds idx).
Proof.
  intros Hinit Hnd Hrect.
  destruct (dataset_aligned _ _ _ _ Hinit Hnd Hrect)
    as (ps & labels & _ & _ & _ & -> & Hlen & _).
  intros n. unfold ExpressionDataset.__len__, ExpressionDataset.__getitem__ in *.
  cbn [ExpressionDataset.X ExpressionDataset.y] in *.
  assert (length (series counts_df).*2 = length (pd.columns counts_df)) as HX.
  { unfold pd.columns. by rewrite !length_fmap. }
  assert (length (pd.codes (pd.take ps labels)) = length (series counts_df).*2)
    as Hy.
  { unfold pd.codes. by rewrite length_fmap, Hlen, HX. }
  assert (∀ idx, ¬ (- n ≤ idx < n) →
    (x ← py_getitem (series counts_df).*2 idx;
     l ← py_getitem (pd.codes (pd.take ps labels)) idx; Ok (x, l))
    = Raise IndexError) as Hout.
  { intros idx Hidx.
    rewrite (py_getitem_out_of_range (series counts_df).*2 idx);
      [reflexivity|exact Hidx]. }
  split; [done|]. split; [|split; [done|]].
  - intros idx. split.
    + intros [item Hitem]. destruct (decide (- n ≤ idx < n)); [done|].
      by rewrite Hout in Hitem.
    + intros Hidx.
      destruct (py_getitem_in_range (series counts_df).*2 idx Hidx)
        as (x & -> & _).
      destruct (py_getitem_in_range (pd.codes (pd.take ps labels)) idx)
        as (l & -> & _); [by rewrite Hy|].
      by eexists.
  - intros idx Hidx. unfold n in *.
    rewrite (py_getitem_wraps (series counts_df).*2 idx Hidx).
    rewrite <-Hy in Hidx |- *.
    by rewrite (py_getitem_wraps (pd.codes (pd.take ps labels)) idx Hidx).
Qed.

(** X11 on a dataset of three samples. *)
Lemma getitem_range_witness :
  ExpressionDataset.__init__ three_samples four_rows_reordered "tissue"
    = Ok three_samples_by_tissue ∧
  NoDup (index four_rows_reordered) ∧ rectangular four_rows_reordered ∧
  ExpressionDataset.__len__ three_samples_by_tissue = 3%nat ∧
  ExpressionDataset.__getitem__ three_samples_by_tissue (-1)
    = ExpressionDataset.__getitem__ three_samples_by_tissue 2 ∧
  ExpressionDataset.__getitem__ three_samples_by_tissue 3 = Raise IndexError.
Proof.
  assert (NoDup (index four_rows_reordered)) as Hnd.
  { apply (bool_decide_unpack _). by vm_compute. }
  assert (rectangular four_rows_reordered) as Hrect.
  { by repeat constructor. }
  split; [by vm_compute|]. split; [done|]. split; [done|].
  assert (ExpressionDataset.__init__ three_samples four_rows_reordered "tissue"
          = Ok three_samples_by_tissue) as Hinit by (by vm_compute).
  pose proof (getitem_range three_samples four_rows_reordered "tissue"
                three_samples_by_tissue Hinit Hnd Hrect) as H.
  cbv zeta in H. destruct H as (Hlen & _ & Hout & Hwrap).
  split; [exact Hlen|]. split.
  - apply (Hwrap 2). split; by vm_compute.
  - apply Hout. intros [_ Hlt]. by vm_compute in Hlt.
Defined.




Lemma sorted_last_greatest (l : list string) (w : string) :
  Sorted String.le l → last l = Some w → ∀ u, u ∈ l → String.le u w.
Proof.
  intros Hs%Sorted_StronglySorted; [|apply _].
  induction Hs as [|x l Hs IH Hx]; [done|].
  intros Hlast u Hu. destruct l as [|y l'].
  - injection Hlast as <-. apply list_elem_of_singleton in Hu as ->. done.
  - change (last (y :: l') = Some w) in Hlast.
    apply elem_of_cons in Hu as [->|Hu]; [|by apply IH].
    etrans; [|apply (IH Hlast y); left].
    apply (proj1 (Forall_forall _ _) Hx). left.
Qed.

(** X13.  A sample without a label is given the name of another one.  A
    missing value in the label column has the code -1, and
    [label_to_name] reads -1 as a subscript from the end of the list of
    categories: as soon as one sample has a label, the name it returns
    for the code of an unlabelled sample is the greatest label of the
    column — no exception is raised. *)
Theorem missing_label_names_last_category (counts_df : DataFrame cell)
    (metadata_df : DataFrame (option string)) (label_col : string)
    (ds : ExpressionDataset.t) (labels : list (option string))
    (i : nat) (name : string) :
  ExpressionDataset.__init__ counts_df metadata_df label_col = Ok ds →
  pd.getitem label_col (ExpressionDataset.metadata ds) = Ok labels →
  labels !! i = Some None → Some name ∈ labels →
  ∃ code w,
    ExpressionDataset.y ds !! i = Some code ∧ code = -1 ∧
    ExpressionDataset.label_to_name ds code = Ok w ∧
    Some w ∈ labels ∧ ∀ u, Some u ∈ labels → String.le u w.
Proof.
  intros (al & labels' & _ & Hget & ->)%dataset_init_Ok Hget' Hi Hname.
  cbn [ExpressionDataset.metadata ExpressionDataset.y] in *.
  assert (labels' = labels) as -> by congruence.
  unfold ExpressionDataset.label_to_name.
  cbn [ExpressionDataset.label_categories].
  destruct (categories_spec labels) as (Hs & _ & Hin).
  exists (-1). 
  destruct (py_getitem_in_range (pd.categories labels) (-1)) as (w & Hw & Hlk).
  { apply Hin, list_elem_of_lookup in Hname as [k Hk].
    apply lookup_lt_Some in Hk. lia. }
  exists w. split; [by rewrite codes_lookup, Hi|]. split; [done|].
  split; [done|].
  rewrite decide_True in Hlk by lia.
  assert (last (pd.categories labels) = Some w) as Hlast.
  { rewrite last_lookup, <-Hlk. f_equal. lia. }
  split.
  - apply Hin. apply last_Some in Hlast as [l' ->].
    apply elem_of_app. right. left.
  - intros u Hu. apply (sorted_last_greatest _ _ Hs Hlast). by apply Hin.
Qed.

(** X13 on a dataset labelled by cultivar: the first sample has none and
    is named "regent". *)
Lemma missing_label_names_last_category_witness :
  ExpressionDataset.__init__ three_samples four_rows_reordered "cultivar"
    = Ok three_samples_by_cultivar ∧
  ExpressionDataset.y three_samples_by_cultivar !! 0%nat = Some (-1) ∧
  ExpressionDataset.label_to_name three_samples_by_cultivar (-1)
    = Ok "regent".
Proof.
  split; [by vm_compute|].
  destruct (missing_label_names_last_category three_samples
              four_rows_reordered "cultivar" three_samples_by_cultivar
              [None; Some "regent"; None] 0 "regent")
    as (code & w & Hy & -> & Hw & _); [by vm_compute..| |].
  { right. left. }
  split; [exact Hy|]. rewrite Hw. by vm_compute.
Defined.

Lemma omap_fmap_ext {A B C} (f : B → option C) (g : A → B)
    (h : A → option C) (l : list A) :
  (∀ x, x ∈ l → f (g x) = h x) → omap f (g <$> l) = omap h l.
Proof.
  induction l as [|x l IH]; intros H; [done|].
  rewrite fmap_cons. cbn [omap list_omap]. rewrite H by left.
  rewrite IH; [done|]. intros y Hy. apply H. by right.
Qed.

Lemma omap_all_Some {A B} (f : A → option B) (l : list A) :
  Forall (λ x, is_Some (f x)) l → Some <$> omap f l = f <$> l.
Proof.
  induction 1 as [|x l [v Hv] _ IH]; [done|].
  cbn [omap list_omap]. rewrite Hv, !fmap_cons, Hv. by rewrite <-IH.
Qed.

(** X14.  [get_sample_metadata] gives the metadata of the sample at that
    position.  Built from a metadata table with one row per label and a
    counts matrix with pairwise distinct column labels, the dataset
    answers, for the position of a column, with one row: the values the
    metadata table has in the row labelled by the name of that column. *)
Theorem sample_metadata_is_row_of_sample (counts_df : DataFrame cell)
    (metadata_df : DataFrame (option string)) (label_col : string)
    (ds : ExpressionDataset.t) :
  ExpressionDataset.__init__ counts_df metadata_df label_col = Ok ds →
  NoDup (index metadata_df) → rectangular metadata_df →
  NoDup (pd.columns counts_df) →
  ∀ i sid,
    pd.columns counts_df !! i = Some sid →
    ∃ p row,
      index metadata_df !! p = Some sid ∧
      row_at metadata_df p = Some <$> row ∧
      ExpressionDataset.get_sample_metadata ds (Z.of_nat i) = Ok [row].
Proof.
  intros Hinit Hnd Hrect Hcols.
  destruct (dataset_aligned _ _ _ _ Hinit Hnd Hrect)
    as (ps & labels & Hall & _ & _ & -> & _ & _).
  intros i sid Hsid.
  destruct (Forall2_lookup_l _ _ _ _ _ Hall Hsid) as (p & Hp & Hrow).
  exists p, (omap (λ c, c.2 !! p) (series metadata_df)).
  split; [done|].
  assert (Forall (λ c : string * list (option string), is_Some (c.2 !! p))
            (series metadata_df)) as Hsome.
  { apply Forall_forall. intros c Hc. apply lookup_lt_is_Some.
    rewrite (proj1 (Forall_forall _ _) Hrect c Hc).
    by eapply lookup_lt_Some. }
  split; [unfold row_at; by rewrite omap_all_Some|].
  unfold ExpressionDataset.get_sample_metadata.
  cbn [ExpressionDataset.sample_ids ExpressionDataset.metadata].
  rewrite (py_getitem_nat _ _ _ Hsid). cbn [mbind result_bind].
  unfold pd.loc_label, pd.take_rows. cbn [index series].
  rewrite (take_lookups _ _ _ Hall), (positions_NoDup _ i sid Hcols Hsid).
  cbn [fmap list_fmap]. do 2 f_equal.
  apply omap_fmap_ext. intros c Hc. cbn [snd].
  assert (Forall (λ q, is_Some (c.2 !! q)) ps) as Hvalid.
  { apply Forall_forall. intros q Hq. apply lookup_lt_is_Some.
    rewrite (proj1 (Forall_forall _ _) Hrect c Hc).
    apply list_elem_of_lookup in Hq as [j Hj].
    destruct (Forall2_lookup_r _ _ _ _ _ Hall Hj) as (l & _ & Hl).
    by eapply lookup_lt_Some. }
  by apply (take_valid ps (c.2) Hvalid).
Qed.

(** X14 on the dataset of three samples: the second sample is described
    by the fourth row of the metadata table. *)
Lemma sample_metadata_is_row_of_sample_witness :
  ExpressionDataset.__init__ three_samples four_rows_reordered "tissue"
    = Ok three_samples_by_tissue ∧
  NoDup (index four_rows_reordered) ∧ rectangular four_rows_reordered ∧
  NoDup (pd.columns three_samples) ∧
  pd.columns three_samples !! 1%nat = Some "s2" ∧
  ∃ p row,
    index four_rows_reordered !! p = Some "s2" ∧
    row_at four_rows_reordered p = Some <$> row ∧
    ExpressionDataset.get_sample_metadata three_samples_by_tissue 1 = Ok [row].
Proof.
  assert (NoDup (index four_rows_reordered)) as Hnd.
  { apply (bool_decide_unpack _). by vm_compute. }
  assert (rectangular four_rows_reordered) as Hrect.
  { by repeat constructor. }
  assert (NoDup (pd.columns three_samples)) as Hcols.
  { apply (bool_decide_unpack _). by vm_compute. }
  split; [by vm_compute|]. split; [done|]. split; [done|]. split; [done|].
  split; [done|].
  apply (sample_metadata_is_row_of_sample three_samples four_rows_reordered
           "tissue" three_samples_by_tissue ltac:(by vm_compute) Hnd Hrect
           Hcols 1%nat "s2").
  done.
Defined.


(** ** From the loader to the dataset *)






(** ** Missing values *)

Lemma file_cell_present (csv : CsvFrame) (col : string * list cell)
    (g : string) :
  regular csv → complete csv → col ∈ sample_cols csv → g ∈ gene_ids csv →
  is_Some (file_cell csv (col.2) g).
Proof.
  intros Hreg Hcomp Hcol Hg. unfold file_cell.
  destruct (decide (NoDup (gene_ids csv))) as [Hnd|Hnd].
  - destruct (index_of_Some g (gene_ids csv) Hg) as (p & -> & Hp).
    cbn [mbind option_bind].
    destruct (lookup_lt_is_Some_2 (col.2) p) as [v Hv].
    { rewrite (proj1 (Forall_forall _ _) Hreg col Hcol).
      by eapply lookup_lt_Some. }
    unfold cell in *. rewrite Hv. cbn [mjoin option_join].
    eapply (proj1 (Forall_forall _ _)
              (proj1 (Forall_forall _ _) Hcomp col Hcol)).
    by eapply list_elem_of_lookup_2.
  - by rewrite decide_True.
Qed.

(** X16.  With the intersection flag set, the counts matrix of files
    without missing values has no missing value: every column has one
    cell per gene of the row index, and every cell holds a number.  (In
    union mode a gene that a file lacks leaves missing values in the
    columns of that file, see X9.) *)
Theorem intersection_has_no_missing_values (d : SubsetDir)
    (data_root subset : string) (self : VitisExpressionData) :
  __init__ (Some d) data_root subset true = Ok self →
  Forall (λ f, ∀ csv, ff_content f = Some csv → regular csv ∧ complete csv)
    (discovered_files (subset_dir_of (fresh data_root subset true)) d) →
  ∃ c, counts self = Some c ∧
       Forall (λ col, length (col.2) = length (index c) ∧
                      Forall is_Some (col.2)) (series c).
Proof.
  intros Hinit Hfiles.
  destruct (counts_blocks d data_root subset true self Hinit)
    as (c & blocks & Hc & Hser & Hblocks & Hgenes).
  { eapply Forall_impl; [exact Hfiles|]. intros f Hf csv Hcsv.
    by apply Hf. }
  exists c. split; [done|]. apply Forall_forall. intros col' Hcol'.
  rewrite Hser in Hcol'. apply elem_of_concat in Hcol' as (b & Hcol' & Hb).
  apply list_elem_of_lookup in Hb as [j Hj].
  destruct (Forall2_lookup_r _ _ _ _ _ Hblocks Hj)
    as (f & Hf & csv & Hcsv & Hcols).
  apply list_elem_of_lookup in Hcol' as [k Hk].
  destruct (Forall2_lookup_r _ _ _ _ _ Hcols Hk)
    as (col & Hcol & _ & Hlen & Hcells).
  split; [done|]. apply Forall_lookup. intros i x Hi.
  destruct (lookup_lt_is_Some_2 (index c) i) as [g Hg].
  { rewrite <-Hlen. by eapply lookup_lt_Some. }
  pose proof (Hcells i g Hg) as Hx. unfold cell in *.
  rewrite Hx in Hi. injection Hi as <-.
  destruct (proj1 (Forall_forall _ _) Hfiles f) with csv as [Hreg Hcomp];
    [by eapply list_elem_of_lookup_2|done|].
  apply file_cell_present; [done..|by eapply list_elem_of_lookup_2|].
  specialize (Hgenes eq_refl g). 
  destruct (proj1 (Forall_forall _ _)
              (Hgenes ltac:(by eapply list_elem_of_lookup_2)) f)
    as (csv' & Hcsv' & Hin); [by eapply list_elem_of_lookup_2|].
  congruence.
Qed.

(** X16 on the end-to-end scenario. *)
Lemma intersection_has_no_missing_values_witness :
  __init__ (Some scenario) "/data" "control" true = Ok scenario_loader ∧
  ∃ c, counts scenario_loader = Some c ∧
       Forall (λ col, length (col.2) = length (index c) ∧
                      Forall is_Some (col.2)) (series c).
Proof.
  split; [by vm_compute|].
  apply (intersection_has_no_missing_values scenario "/data" "control"
           scenario_loader); [by vm_compute|].
  vm_compute.
  repeat (constructor;
          [intros csv [= <-]; split; repeat constructor; by eexists|]).
  constructor.
Defined.


(** ** Reconciliation keeps the totals *)









(** ** The two modes side by side *)

(** X18.  The flag changes the rows only.  Whenever the construction
    succeeds with the intersection flag set, it succeeds without it,
    with the same samples in the same order and the same metadata
    table; and every gene of the intersection is a gene of the union. *)
Theorem flag_changes_rows_only (fs : option SubsetDir)
    (data_root subset : string) (s1 : VitisExpressionData) :
  __init__ fs data_root subset true = Ok s1 →
  ∃ s2, __init__ fs data_root subset false = Ok s2 ∧
        samples s2 = samples s1 ∧ metadata s2 = metadata s1 ∧
        ∃ gs1 gs2, genes s1 = Some gs1 ∧ genes s2 = Some gs2 ∧
                   ∀ g, g ∈ gs1 → g ∈ gs2.
Proof.
  unfold __init__. fold (fresh data_root subset true).
  fold (fresh data_root subset false). intros H1.
  apply load_all_Ok in H1
    as (dfs & infos & dfs1 & c1 & m0 & m1 & Hdisc & Hne & Hres1 & Hc1 & Hm0
        & Hm1 & Hcounts1 & Hmeta1 & _).
  assert (discover fs (fresh data_root subset false) = Ok (dfs, infos))
    as Hdisc2 by exact Hdisc.
  destruct (assemble_total fs (fresh data_root subset false) dfs dfs infos)
    as [s2 H2]; [done..|].
  exists s2. split; [done|].
  apply load_all_Ok in H2
    as (dfs' & infos' & dfs2 & c2 & m0' & m2 & Hdisc2' & _ & Hres2 & Hc2
        & Hm0' & Hm2 & Hcounts2 & Hmeta2 & _).
  rewrite Hdisc2 in Hdisc2'. injection Hdisc2' as <- <-.
  injection Hres2 as <-. rewrite Hm0 in Hm0'. injection Hm0' as <-.
  pose proof (discover_facts _ _ _ _ Hdisc) as (Hnd & _ & _).
  assert (pd.columns c2 = pd.columns c1) as Hcols.
  { rewrite (concat_axis1_columns _ _ Hc1), (concat_axis1_columns _ _ Hc2).
    symmetry. by eapply restrict_genes_columns. }
  unfold samples, genes. rewrite Hcounts1, Hcounts2, Hmeta1, Hmeta2.
  cbn [fmap option_fmap option_map].
  split; [by rewrite Hcols|].
  split; [rewrite Hcols in Hm2; congruence|].
  exists (index c1), (index c2). split; [done|]. split; [done|].
  intros g Hg.
  apply restrict_genes_intersect in Hres1 as (labels & Hidx & _ & _ & Hin);
    [|done..].
  destruct (concat_axis1_same_index _ _ _ Hidx Hc1) as [Hic _].
  rewrite Hic in Hg. apply Hin in Hg.
  apply concat_axis1_Ok in Hc2
    as (df0 & rest & -> & [[_ ->]|(_ & _ & ->)]); cbn [index].
  - by apply Forall_cons in Hg as [? _].
  - apply elem_of_union_indexes. apply Exists_cons_hd.
    by apply Forall_cons in Hg as [? _].
Qed.

(** X18 on the end-to-end scenario: the three samples in both modes, two
    common genes and three genes in all. *)
Lemma flag_changes_rows_only_witness :
  __init__ (Some scenario) "/data" "control" true = Ok scenario_loader ∧
  __init__ (Some scenario) "/data" "control" false = Ok scenario_loader_union ∧
  samples scenario_loader_union = samples scenario_loader ∧
  metadata scenario_loader_union = metadata scenario_loader ∧
  genes scenario_loader = Some ["g2"; "g3"] ∧
  genes scenario_loader_union = Some ["g3"; "g2"; "g1"].
Proof.
  split; [by vm_compute|].
  destruct (flag_changes_rows_only (Some scenario) "/data" "control"
              scenario_loader) as (s2 & H2 & Hs & Hm & _); [by vm_compute|].
  assert (s2 = scenario_loader_union) as ->.
  { unfold scenario_loader_union. by rewrite H2. }
  split; [done|]. split; [done|]. split; [done|]. split; by vm_compute.
Defined.


(** ** Paths *)

Lemma endswith_spec (p s : string) :
  Str.endswith p s = true → ∃ pre, s = pre +:+ p.
Proof.
  induction s as [|c s IH]; simpl.
  - intros ->%bool_decide_eq_true. by exists "".
  - intros [->%bool_decide_eq_true|H]%orb_true_iff; [by exists ""|].
    destruct (IH H) as [pre ->]. by exists (String c pre).
Qed.

Lemma basename_no_slash (b : string) :
  Str.has_char "/" b = false → os_path.basename b = b.
Proof.
  destruct b as [|c b]; [done|]. simpl.
  intros [Hc Hb]%orb_false_iff. by rewrite Hb, Hc.
Qed.

Lemma basename_after_slash (a b : string) :
  Str.has_char "/" b = false → os_path.basename (a +:+ "/" +:+ b) = b.
Proof.
  intros Hb. induction a as [|c a IH].
  - change ("" +:+ "/" +:+ b) with (String "/" b).
    cbn [os_path.basename]. by rewrite Hb.
  - change (String c a +:+ "/" +:+ b) with (String c (a +:+ "/" +:+ b)).
    cbn [os_path.basename].
    assert (Str.has_char "/" (a +:+ "/" +:+ b) = true) as ->; [|exact IH].
    rewrite has_char_app. apply orb_true_iff. by right.
Qed.

Lemma basename_join (a b : string) :
  Str.has_char "/" b = false → os_path.basename (os_path.join a b) = b.
Proof.
  intros Hb. unfold os_path.join.
  destruct (Str.startswith "/" b) eqn:Hs.
  { apply startswith_spec in Hs as [post ->].
    by rewrite str_app_cons in Hb. }
  destruct (bool_decide (a = "")) eqn:Ha.
  { apply bool_decide_eq_true in Ha as ->. cbn [orb].
    rewrite str_app_nil_l. by apply basename_no_slash. }
  cbn [orb]. destruct (Str.endswith "/" a) eqn:He.
  - apply endswith_spec in He as [pre ->]. rewrite str_app_assoc.
    by apply basename_after_slash.
  - by apply basename_after_slash.
Qed.

Lemma discovered_path (subset_dir : string) (d : SubsetDir) (f : found_file) :
  f ∈ discovered_files subset_dir d →
  ff_path f
  = os_path.join (os_path.join subset_dir (ff_tissue f)) (ff_name f).
Proof.
  unfold discovered_files.
  intros (tissue & Hf & _)%list_elem_of_bind. unfold tissue_files in Hf.
  destruct (mjoin (lookup_entry d tissue)) as [td|];
    [|by apply elem_of_nil in Hf].
  unfold files_in in Hf. by apply list_elem_of_fmap in Hf as (fname & -> & _).
Qed.

(** X19.  Accession and cultivar are read off the name of the file, not
    off the directories above it.  A discovered file lies at
    [data_root/vitis_vinifera/subset/tissue/name]; when its name holds no
    slash — as every name a directory listing gives — the accession and
    the cultivar of each of its sample records are what the two parsers
    make of that name alone. *)
Theorem parsers_read_the_file_name (d : SubsetDir)
    (data_root subset : string) (flag : bool)
    (dfs : list (DataFrame cell)) (infos : list VitisSampleInfo) :
  discover (Some d) (fresh data_root subset flag) = Ok (dfs, infos) →
  Forall (λ f, Str.has_char "/" (ff_name f) = false)
    (discovered_files (subset_dir_of (fresh data_root subset flag)) d) →
  Forall (λ r, ∃ f,
      f ∈ discovered_files (subset_dir_of (fresh data_root subset flag)) d ∧
      tissue r = ff_tissue f ∧
      file_path r
      = os_path.join
          (os_path.join
             (os_path.join (os_path.join data_root "vitis_vinifera") subset)
             (ff_tissue f))
          (ff_name f) ∧
      gse_accession r = _parse_gse_from_filename (ff_name f) ∧
      cultivar r = _parse_cultivar_from_filename (ff_name f)) infos.
Proof.
  intros (d' & [= <-] & ->)%discover_records Hnames.
  apply Forall_forall. intros r (f & Hr & Hf)%list_elem_of_bind.
  exists f. split; [done|].
  pose proof (discovered_path _ _ _ Hf) as Hpath.
  pose proof (proj1 (Forall_forall _ _) Hnames f Hf) as Hname.
  unfold records_of_file in Hr.
  destruct (ff_content f) as [csv|]; [|by apply elem_of_nil in Hr].
  apply list_elem_of_fmap in Hr as (col & -> & _).
  cbn [info_of tissue file_path gse_accession cultivar].
  rewrite Hpath at 2 3. rewrite (basename_join _ _ Hname).
  split; [done|]. split; [exact Hpath|]. done.
Qed.

(** X19 on tissue directories named like an accession and a cultivar. *)
Lemma parsers_read_the_file_name_witness :
  Forall (λ f, Str.has_char "/" (ff_name f) = false)
    (discovered_files (subset_dir_of (fresh "/data" "control" true))
       misleading_directories) ∧
  (gse_accession <$>
     (per_file_of (discover (Some misleading_directories)
                     (fresh "/data" "control" true))).2)
    = ["GSE100"; "GSE100"; "UNKNOWN"] ∧
  Forall (λ r, ∃ f,
      f ∈ discovered_files (subset_dir_of (fresh "/data" "control" true))
            misleading_directories ∧
      tissue r = ff_tissue f ∧
      file_path r
      = os_path.join
          (os_path.join
             (os_path.join (os_path.join "/data" "vitis_vinifera") "control")
             (ff_tissue f))
          (ff_name f) ∧
      gse_accession r = _parse_gse_from_filename (ff_name f) ∧
      cultivar r = _parse_cultivar_from_filename (ff_name f))
    (per_file_of (discover (Some misleading_directories)
                    (fresh "/data" "control" true))).2.
Proof.
  assert (Forall (λ f, Str.has_char "/" (ff_name f) = false)
            (discovered_files (subset_dir_of (fresh "/data" "control" true))
               misleading_directories)) as Hnames.
  { vm_compute. by repeat constructor. }
  split; [done|]. split; [by vm_compute|].
  apply (parsers_read_the_file_name misleading_directories "/data" "control"
           true
           (per_file_of (discover (Some misleading_directories)
                           (fresh "/data" "control" true))).1);
    [by vm_compute|done].
Defined.
